(** * Credential migration gateway: session exchange and lazy password migration

    A shallow embedding of the three edge functions of the repository

    - [exchange_firebase_session]: the session-exchange handler that reads the
      session tokens off the generated magic link (with its metadata fallback),
    - [exchange_firebase_session_otp]: the session-exchange handler that
      redeems the magic link through [verifyOtp],
    - [migrate_firebase_password]: the password login with lazy migration,

    together with the statements of the gateway specification that concern
    them.  JavaScript values are kept as a small JSON type, [undefined] is
    [None], objects used as dictionaries are finite maps, and every effect of
    a handler (console output, calls to collaborators, writes to the user
    store, exceptions) is threaded through an explicit world.

    The development also covers the paginated lookup [findUserByEmail], the
    token-verification service [verify_token_post] that the exchange
    handlers call, and the React Native helpers ([signInWithPassword],
    [migrateFirebasePassword], [checkMigrationStatus], [signOut],
    [exchangeFirebaseSession], [checkAndExchangeFirebaseSession]) with the
    login screen's [handleEmailLogin], which run over a device state of
    their own.

    [String.prototype.toLowerCase] is a parameter of the development
    ([CaseFolding]): every general statement holds for any case mapping.
    The statements on the sample data come last and are evaluated with the
    mapping of the ASCII letters. *)

From Stdlib Require Import ZArith Ascii String List Bool Lia.
From stdpp Require Import base option list strings gmap fin_maps.

Open Scope string_scope.
Open Scope list_scope.
Open Scope Z_scope.

(** ** JavaScript values *)

(** The JSON fragment of JavaScript values.  [undefined] is not a JSON value:
    a possibly-undefined expression has type [option json]. *)
#[warnings="-register-all"]
Inductive json : Type :=
  | JNull
  | JBool (b : bool)
  | JNum (n : Z)
  | JStr (s : string)
  | JArr (items : list json)
  | JObj (fields : list (string * json)).

(** Property read on an object literal: the first field of that name. *)
Fixpoint assoc {A : Type} (k : string) (l : list (string * A)) : option A :=
  match l with
  | [] => None
  | (k', v) :: rest => if String.eqb k k' then Some v else assoc k rest
  end.

(** [o?.k]: [undefined] when [o] is [undefined], [null] or has no such
    property. *)
Definition opt_field (k : string) (o : option json) : option json :=
  match o with
  | Some (JObj fields) => assoc k fields
  | _ => None
  end.

(** JavaScript truthiness: [undefined], [null], [false], [0] and the empty
    string are falsy. *)
Definition truthy (v : option json) : bool :=
  match v with
  | None => false
  | Some JNull => false
  | Some (JBool b) => b
  | Some (JNum n) => negb (n =? 0)
  | Some (JStr s) => negb (String.eqb s "")
  | Some (JArr _) => true
  | Some (JObj _) => true
  end.

(** Truthiness of a possibly-undefined string. *)
Definition truthy_str (s : option string) : bool :=
  match s with
  | Some s => negb (String.eqb s "")
  | None => false
  end.

(** [a === b] on values coming from two separately parsed JSON documents:
    primitives compare by value, two objects or arrays are never the same
    reference. *)
Definition strict_eq (a b : option json) : bool :=
  match a, b with
  | None, None => true
  | Some JNull, Some JNull => true
  | Some (JBool x), Some (JBool y) => Bool.eqb x y
  | Some (JNum x), Some (JNum y) => x =? y
  | Some (JStr x), Some (JStr y) => String.eqb x y
  | _, _ => false
  end.

(** [String.prototype.toLowerCase].  The case mapping of the JavaScript
    engine covers every cased letter of Unicode and is not written out
    here: the handlers are verified for an arbitrary mapping, and nothing
    is assumed about [toLowerCase]. *)
Class CaseFolding : Type := { toLowerCase : string → string }.

(** The mapping of the ASCII letters, which is what [toLowerCase] does on
    an ASCII string.  The sample data are ASCII, and the statements are
    evaluated on them with this mapping. *)
Definition lower_ascii (c : ascii) : ascii :=
  let n := nat_of_ascii c in
  if ((65 <=? n) && (n <=? 90))%nat then ascii_of_nat (n + 32) else c.

Fixpoint ascii_toLowerCase (s : string) : string :=
  match s with
  | EmptyString => EmptyString
  | String c rest => String (lower_ascii c) (ascii_toLowerCase rest)
  end.

Definition ascii_folding : CaseFolding := {| toLowerCase := ascii_toLowerCase |}.

Section Gateway.

Context {folding : CaseFolding}.

(** [a?.toLowerCase() === b?.toLowerCase()] on possibly-undefined strings. *)
Definition opt_str_eq (a b : option string) : bool :=
  match a, b with
  | None, None => true
  | Some x, Some y => String.eqb x y
  | _, _ => false
  end.

(** ** Data model *)

(** A record of the target user store.  [user_metadata] is the free-form
    metadata object; the bulk import stores the source identity snapshot
    under its key ["fbuser"].  [user_password] stands for the native
    password credential: [None] while the account is not migrated. *)
Record User : Type := mkUser {
  user_id : string;
  user_email : option string;
  user_metadata : option (gmap string json);
  user_password : option string
}.

(** The decoded claims returned by the claims-verification collaborator. *)
Record FirebaseUser : Type := mkFirebaseUser {
  fb_uid : option string;
  fb_email : option string
}.

(** [u.user_metadata?.[k]] *)
Definition metadata_key (k : string) (u : User) : option json :=
  match user_metadata u with
  | Some m => m !! k
  | None => None
  end.

(** [u.user_metadata?.fbuser] *)
Definition fbuser_of (u : User) : option json := metadata_key "fbuser" u.

(** [u.user_metadata?.fbuser?.uid] *)
Definition metadata_uid (u : User) : option json :=
  opt_field "uid" (fbuser_of u).

(** ** Identity resolution (session exchange) *)

(** [const matchesUid = u.user_metadata?.fbuser?.uid === firebaseUser.uid] *)
Definition matchesUid (firebaseUser : FirebaseUser) (u : User) : bool :=
  strict_eq (metadata_uid u) (JStr <$> fb_uid firebaseUser).

(** [const matchesEmail = firebaseUser.email &&
      u.email?.toLowerCase() === firebaseUser.email.toLowerCase()],
    as a truth value. *)
Definition matchesEmail (firebaseUser : FirebaseUser) (u : User) : bool :=
  truthy_str (fb_email firebaseUser)
  && opt_str_eq (toLowerCase <$> user_email u)
                (toLowerCase <$> fb_email firebaseUser).

(** The predicate handed to [users.find]: [matchesUid || matchesEmail]. *)
Definition matches (firebaseUser : FirebaseUser) (u : User) : bool :=
  matchesUid firebaseUser u || matchesEmail firebaseUser u.

(** [users.find(u => ...)] of the session-exchange handler. *)
Definition find_user (firebaseUser : FirebaseUser) (users : list User)
  : option User :=
  List.find (matches firebaseUser) users.

(** The two conditions of the match policy, as the specification words
    them. *)
Definition same_external_id (c : FirebaseUser) (u : User) : Prop :=
  metadata_uid u = JStr <$> fb_uid c.

Definition same_email_ignoring_case (c : FirebaseUser) (u : User) : Prop :=
  toLowerCase <$> user_email u = toLowerCase <$> fb_email c.

(** "The first record in store iteration order that satisfies [P]". *)
Definition first_satisfying {A : Type} (P : A → Prop) (l : list A) (r : option A)
  : Prop :=
  match r with
  | Some x => ∃ pre post, l = pre ++ x :: post ∧ P x ∧ Forall (λ y, ¬ P y) pre
  | None => Forall (λ y, ¬ P y) l
  end.

(** ** The world of a request

    A handler runs against the user store, writes console lines and calls its
    collaborators.  The world records all three, so that statements about
    what was logged, what was called and what was written can be made about
    a run. *)

Inductive Level : Type := LevelLog | LevelWarn | LevelError.

(** One [console.log] / [console.warn] / [console.error] line with its
    arguments ([undefined] prints as [JNull]). *)
Record LogLine : Type := mkLogLine {
  log_level : Level;
  log_args : list json
}.

(** The attributes object of [auth.admin.updateUserById]. *)
Record UpdateAttrs : Type := mkUpdateAttrs {
  attr_user_metadata : option (gmap string json);
  attr_password : option json
}.

Inductive Call : Type :=
  | CallTokenVerify (token : json)
  | CallPasswordVerify (salt hash password : json)
  | CallListUsers (paging : option (nat * nat))
  | CallGenerateLink (email : option string)
  | CallVerifyOtp (otp_type : string) (token_hash : option string)
  | CallSignInWithPassword (email password : json)
  | CallUpdateUserById (id : string) (attrs : UpdateAttrs).

Record World : Type := mkWorld {
  users : list User;
  console : list LogLine;
  calls : list Call
}.

(** A JavaScript computation either returns or throws; either way the
    effects performed so far stay in the world. *)
Inductive Outcome (A : Type) : Type :=
  | Returned (a : A)
  | Thrown (message : string).
#[global] Arguments Returned {A} a.
#[global] Arguments Thrown {A} message.

Definition M (A : Type) : Type := World → Outcome A * World.

#[global] Instance M_ret : MRet M := λ A (a : A) w, (Returned a, w).

#[global] Instance M_bind : MBind M := λ A B (k : A → M B) (m : M A) w,
  match m w with
  | (Returned a, w') => k a w'
  | (Thrown e, w') => (Thrown e, w')
  end.

Definition throw {A : Type} (message : string) : M A :=
  λ w, (Thrown message, w).

(** [try { body } catch (error) { handler(error.message) }] *)
Definition try_catch {A : Type} (body : M A) (handler : string → M A) : M A :=
  λ w, match body w with
       | (Returned a, w') => (Returned a, w')
       | (Thrown e, w') => handler e w'
       end.

Definition console_write (lvl : Level) (args : list json) : M unit :=
  λ w, (Returned tt,
        mkWorld (users w) (console w ++ [mkLogLine lvl args]) (calls w)).

Definition console_log := console_write LevelLog.
Definition console_warn := console_write LevelWarn.
Definition console_error := console_write LevelError.

Definition record_call (c : Call) : M unit :=
  λ w, (Returned tt, mkWorld (users w) (console w) (calls w ++ [c])).

Definition get_users : M (list User) := λ w, (Returned (users w), w).

Definition put_users (us : list User) : M unit :=
  λ w, (Returned tt, mkWorld us (console w) (calls w)).

(** How a printed argument shows a possibly-undefined value. *)
Definition shown (v : option json) : json := default JNull v.
Definition shown_str (s : option string) : json := default JNull (JStr <$> s).
Definition shown_nat (n : nat) : json := JNum (Z.of_nat n).
Definition shown_metadata (m : option (gmap string json)) : json :=
  default JNull ((λ m, JObj (map_to_list m)) <$> m).

(** ** HTTP requests and responses *)

(** An inbound request: its method and what [req.json()] resolves to
    ([None] when the body is not JSON and the promise rejects). *)
Record Request : Type := mkRequest {
  req_method : string;
  req_json : option json
}.

Inductive ResponseBody : Type :=
  | BodyText (text : string)
  | BodyJson (fields : list (string * json)).

Record Response : Type := mkResponse {
  status : Z;
  body : ResponseBody
}.

(** [new Response(JSON.stringify({...}), { status, ... })] *)
Definition json_response (st : Z) (fields : list (string * json)) : Response :=
  mkResponse st (BodyJson fields).

(** A property whose value may be [undefined]: [JSON.stringify] drops it. *)
Definition prop (k : string) (v : option json) : list (string * json) :=
  match v with
  | Some v => [(k, v)]
  | None => []
  end.

(** [const { k } = await req.json()]: rejects on a non-JSON body, throws on
    [null], and yields [undefined] for a missing property or a primitive. *)
Definition destructure (req : Request) : M (option json) :=
  match req_json req with
  | None => throw "Unexpected token in JSON"
  | Some JNull => throw "Cannot destructure property of null"
  | Some v => mret (Some v)
  end.

(** What a collaborator called through [fetch] answered. *)
Record HttpResponse : Type := mkHttpResponse {
  resp_status : Z;
  resp_text : string
}.

Inductive FetchOutcome : Type :=
  | NetworkError (message : string)
  | Responded (r : HttpResponse).

(** [response.ok] *)
Definition resp_ok (r : HttpResponse) : bool :=
  (200 <=? resp_status r) && (resp_status r <=? 299).

(** A failure of a user-store call: reported in the [error] property of the
    result, or thrown. *)
Inductive Fault : Type :=
  | ErrorResult (message : string)
  | Exception (message : string).

(** [data] of [auth.admin.generateLink]; [properties] is [null] when the
    store produced no link. *)
Record LinkData : Type := mkLinkData {
  properties_action_link : option string
}.

Record LinkResult : Type := mkLinkResult {
  link_data : option LinkData;
  link_error : option string
}.

Record Session : Type := mkSession {
  access_token : string;
  refresh_token : string;
  expires_in : Z;
  expires_at : Z
}.

(** Result of [auth.verifyOtp]: [data.session], [data.user] (id and email)
    and [error]. *)
Record OtpResult : Type := mkOtpResult {
  otp_session : option Session;
  otp_user : option (string * option string);
  otp_error : option string
}.

(** ** The environment

    Everything a handler obtains from outside the repository: the two
    verification services, the deployment configuration, the clock, and the
    behaviour of the user store's API that is not determined by the stored
    records. *)
Record Env : Type := mkEnv {
  (** claims-verification service, by posted token *)
  token_verify_service : json → FetchOutcome;
  (** [verifyResponse.json()] read as claims; [None] when it rejects *)
  decode_claims : string → option FirebaseUser;
  (** [Deno.env.get('FIREBASE_PW_VERIFY_URL')] *)
  FIREBASE_PW_VERIFY_URL : option string;
  (** credential-verification service, by posted salt, hash and password *)
  password_verify_service : json → json → json → FetchOutcome;
  (** page size of [listUsers()] called without arguments *)
  default_per_page : nat;
  list_users_fault : option Fault;
  generate_link : option string → LinkResult + string;
  (** [new URL(link).searchParams]; [None] when [new URL] throws *)
  url_search_params : string → option (list (string * string));
  update_user_fault : string → option Fault;
  verify_otp : string → option string → OtpResult + string;
  sign_in_fault : option Fault;
  issue_session : User → Session;
  (** [new Date().toISOString()] *)
  now : string
}.

(** ** The user store's API, over the world *)

(** The page [page] (counted from 1) of size [perPage]. *)
Definition page_of (page perPage : nat) (l : list User) : list User :=
  take perPage (drop ((page - 1) * perPage) l).

(** [auth.admin.listUsers(paging)]: resolves to [{ data: { users }, error }]. *)
Definition listUsers (env : Env) (paging : option (nat * nat))
  : M (list User * option string) :=
  record_call (CallListUsers paging);;
  match list_users_fault env with
  | Some (Exception e) => throw e
  | Some (ErrorResult e) => mret ([], Some e)
  | None =>
      us ← get_users;
      match paging with
      | Some (page, perPage) => mret (page_of page perPage us, None)
      | None => mret (page_of 1 (default_per_page env) us, None)
      end
  end.

(** What a successful update does to the record: metadata keys are merged
    over the stored ones, a password replaces the native credential. *)
Definition apply_attrs (attrs : UpdateAttrs) (u : User) : User :=
  mkUser (user_id u) (user_email u)
    (match attr_user_metadata attrs with
     | Some m => Some (m ∪ default ∅ (user_metadata u))
     | None => user_metadata u
     end)
    (match attr_password attrs with
     | Some (JStr p) => Some p
     | _ => user_password u
     end).

Definition update_record (id : string) (attrs : UpdateAttrs) (u : User) : User :=
  if String.eqb (user_id u) id then apply_attrs attrs u else u.

(** [auth.admin.updateUserById(id, attrs)]: resolves to [{ data, error }];
    the returned value is [error]. *)
Definition updateUserById (env : Env) (id : string) (attrs : UpdateAttrs)
  : M (option string) :=
  record_call (CallUpdateUserById id attrs);;
  match update_user_fault env id with
  | Some (Exception e) => throw e
  | Some (ErrorResult e) => mret (Some e)
  | None =>
      us ← get_users;
      if existsb (λ u, String.eqb (user_id u) id) us
      then put_users (update_record id attrs <$> us);; mret None
      else mret (Some "User not found")
  end.

(** [auth.admin.generateLink({ type: 'magiclink', email })] *)
Definition generateLink (env : Env) (email : option string) : M LinkResult :=
  record_call (CallGenerateLink email);;
  match generate_link env email with
  | inl r => mret r
  | inr e => throw e
  end.

(** [auth.verifyOtp({ type, token_hash })] *)
Definition verifyOtp (env : Env) (otp_type : string) (token_hash : option string)
  : M OtpResult :=
  record_call (CallVerifyOtp otp_type token_hash);;
  match verify_otp env otp_type token_hash with
  | inl r => mret r
  | inr e => throw e
  end.

(** [u.email?.toLowerCase() === email.toLowerCase()] for a string [email]. *)
Definition has_email (email : string) (u : User) : bool :=
  opt_str_eq (toLowerCase <$> user_email u) (Some (toLowerCase email)).

(** Native login: the record with this e-mail address holds this password. *)
Definition credentials_match (email password : string) (u : User) : bool :=
  has_email email u && opt_str_eq (user_password u) (Some password).

(** [auth.signInWithPassword({ email, password })]: resolves to
    [{ data: { session }, error }]. *)
Definition signInWithPassword (env : Env) (email password : json)
  : M (option Session * option string) :=
  record_call (CallSignInWithPassword email password);;
  match sign_in_fault env with
  | Some (Exception e) => throw e
  | Some (ErrorResult e) => mret (None, Some e)
  | None =>
      us ← get_users;
      match email, password with
      | JStr e, JStr p =>
          match List.find (credentials_match e p) us with
          | Some u => mret (Some (issue_session env u), None)
          | None => mret (None, Some "Invalid login credentials")
          end
      | _, _ => mret (None, Some "Invalid login credentials")
      end
  end.

(** [await fetch(url, ...)] to the claims-verification service. *)
Definition fetch_token_verify (env : Env) (token : json) : M HttpResponse :=
  record_call (CallTokenVerify token);;
  match token_verify_service env token with
  | NetworkError e => throw e
  | Responded r => mret r
  end.

(** [await fetch(FIREBASE_PW_VERIFY_URL, ...)] with the form-encoded
    salt, hash and password. *)
Definition fetch_password_verify (env : Env) (salt hash password : json)
  : M HttpResponse :=
  record_call (CallPasswordVerify salt hash password);;
  match password_verify_service env salt hash password with
  | NetworkError e => throw e
  | Responded r => mret r
  end.

(** [await verifyResponse.json()] *)
Definition response_claims (env : Env) (r : HttpResponse) : M FirebaseUser :=
  match decode_claims env (resp_text r) with
  | Some c => mret c
  | None => throw "Unexpected token in JSON"
  end.

(** [l.forEach((x, i) => f(x, i))], [i] starting at [start]. *)
Fixpoint forEach {A : Type} (f : A → nat → M unit) (start : nat) (l : list A)
  : M unit :=
  match l with
  | [] => mret tt
  | x :: rest => f x start;; forEach f (S start) rest
  end.

(** ** Session exchange, reading the tokens off the magic link *)

Definition corsHeaders_ok : Response := mkResponse 200 (BodyText "ok").

Definition last_exchange_key : string := "last_firebase_session_exchange".

(** [{ ...user.user_metadata, last_firebase_session_exchange:
       new Date().toISOString() }] *)
Definition exchange_metadata (env : Env) (user : User) : gmap string json :=
  <[ last_exchange_key := JStr (now env) ]> (default ∅ (user_metadata user)).

(** [{ user_metadata: { ...user.user_metadata, last_firebase_session_exchange } }] *)
Definition exchange_attrs (env : Env) (user : User) : UpdateAttrs :=
  mkUpdateAttrs (Some (exchange_metadata env user)) None.

(** [u.email?.toLowerCase() === firebaseUser.email?.toLowerCase()] *)
Definition email_equal (firebaseUser : FirebaseUser) (u : User) : bool :=
  opt_str_eq (toLowerCase <$> user_email u) (toLowerCase <$> fb_email firebaseUser).

(** The callback of [users.find], with its diagnostic line. *)
Definition find_callback (firebaseUser : FirebaseUser) (u : User) : M bool :=
  (if email_equal firebaseUser u
   then console_log
          [JStr "Email match found, checking UID:";
           JObj [("user_id", JStr (user_id u));
                 ("user_email", shown_str (user_email u));
                 ("metadata_uid", shown (metadata_uid u));
                 ("firebase_uid", shown_str (fb_uid firebaseUser));
                 ("uid_match", JBool (matchesUid firebaseUser u))]]
   else mret tt);;
  mret (matches firebaseUser u).

(** [users.find(callback)]: the callback runs on each record up to and
    including the first one it accepts. *)
Fixpoint users_find (firebaseUser : FirebaseUser) (l : list User)
  : M (option User) :=
  match l with
  | [] => mret None
  | u :: rest =>
      hit ← find_callback firebaseUser u;
      if hit : bool then mret (Some u) else users_find firebaseUser rest
  end.

(** The "Debug: Check first few users" lines. *)
Definition log_first_users (l : list User) : M unit :=
  forEach (λ u i,
      console_log
        [JStr "User"; shown_nat (i + 1);
         JObj [("id", JStr (user_id u));
               ("email", shown_str (user_email u));
               ("full_user_metadata", shown_metadata (user_metadata u));
               ("metadata_fbuser_uid", shown (metadata_uid u));
               ("has_fbuser", JBool (truthy (fbuser_of u)))]])
    0%nat (take 3 l).

(** The 404 branch: nobody matched. *)
Definition user_not_found (firebaseUser : FirebaseUser) (l : list User)
  : M Response :=
  console_log [JStr "❌ User not found in Supabase"];;
  console_log [JStr "Searched for:";
               JObj [("firebase_uid", shown_str (fb_uid firebaseUser));
                     ("firebase_email", shown_str (fb_email firebaseUser))]];;
  let emailMatches := filter (λ u, email_equal firebaseUser u = true) l in
  console_log [JStr "Users with matching email:";
               shown_nat (length emailMatches)];;
  forEach (λ u _,
      console_log
        [JStr "  - Email match but UID mismatch:";
         JObj [("email", shown_str (user_email u));
               ("supabase_fbuser_uid", shown (metadata_uid u));
               ("firebase_uid", shown_str (fb_uid firebaseUser));
               ("match", JBool (matchesUid firebaseUser u))]])
    0%nat emailMatches;;
  mret (json_response 404
    [("error", JStr "User not found");
     ("hint", JStr "This user may not have been migrated to Supabase yet");
     ("debug",
      JObj [("searched_for",
             JObj (prop "uid" (JStr <$> fb_uid firebaseUser)
                   ++ prop "email" (JStr <$> fb_email firebaseUser)));
            ("total_users", shown_nat (length l))])]).

(** [{ id: user.id, email: user.email }] *)
Definition user_summary (user : User) : json :=
  JObj (("id", JStr (user_id user)) :: prop "email" (JStr <$> user_email user)).

(** The 200 answer of the fallback: the user, and no session. *)
Definition fallback_response (user : User) : Response :=
  json_response 200
    [("user", user_summary user);
     ("exchanged", JBool true);
     ("message",
      JStr "Firebase session validated. Please sign in with Supabase to complete exchange.");
     ("hint", JStr "Use the migrated password or OAuth")].

(** The branch taken when no magic link could be generated: mark the
    exchange on the record and answer with the user only. *)
Definition exchange_fallback (env : Env) (user : User) (tokenError : option string)
  : M Response :=
  console_error [JStr "Error generating auth link:"; shown_str tokenError];;
  try_catch
    (updateError ← updateUserById env (user_id user) (exchange_attrs env user);
     match updateError with
     | Some e => console_error [JStr "Error updating user metadata:"; JStr e]
     | None => mret tt
     end;;
     mret (fallback_response user))
    (λ fallbackError,
       console_error [JStr "Fallback failed:"; JStr fallbackError];;
       mret (json_response 500
         (("error", JStr "Failed to exchange session")
            :: prop "details" (JStr <$> tokenError)))).

(** "Mark that session was exchanged (for tracking)". *)
Definition track_exchange (env : Env) (user : User) : M unit :=
  try_catch
    (updateUserById env (user_id user) (exchange_attrs env user);;
     console_log [JStr "📊 Tracked session exchange for user:";
                  JStr (user_id user)])
    (λ trackError,
       console_warn [JStr "Failed to track session exchange (non-critical):";
                     JStr trackError]).

(** [new URL(tokenData.properties.action_link).searchParams] *)
Definition link_search_params (env : Env) (tokenData : LinkData)
  : M (list (string * string)) :=
  match properties_action_link tokenData with
  | None => throw "Cannot read properties of null (reading 'action_link')"
  | Some link =>
      match url_search_params env link with
      | Some params => mret params
      | None => throw "Invalid URL"
      end
  end.

Definition exchange_success (accessToken refreshToken : option string)
    (user : User) : Response :=
  json_response 200
    [("access_token", shown_str accessToken);
     ("refresh_token", shown_str refreshToken);
     ("user", user_summary user);
     ("exchanged", JBool true);
     ("message",
      JStr "Firebase session successfully exchanged for Supabase session")].

(** From the resolved user to the response. *)
Definition exchange_for_user (env : Env) (user : User) : M Response :=
  console_log [JStr "Found Supabase user:"; JStr (user_id user)];;
  link ← generateLink env (user_email user);
  match link_error link, link_data link with
  | None, Some tokenData =>
      urlParams ← link_search_params env tokenData;
      let accessToken := assoc "access_token" urlParams in
      let refreshToken := assoc "refresh_token" urlParams in
      if negb (truthy_str accessToken) || negb (truthy_str refreshToken)
      then
        console_error [JStr "Failed to extract tokens from magic link"];;
        mret (json_response 500
                [("error", JStr "Failed to generate session tokens")])
      else
        console_log [JStr "✅ Session exchange successful!"];;
        track_exchange env user;;
        mret (exchange_success accessToken refreshToken user)
  | tokenError, _ => exchange_fallback env user tokenError
  end.

(** From the verified claims to the response. *)
Definition exchange_for_claims (env : Env) (firebaseUser : FirebaseUser)
  : M Response :=
  console_log [JStr "Firebase token valid for user:";
               shown_str (fb_uid firebaseUser)];;
  console_log [JStr "Firebase user email:"; shown_str (fb_email firebaseUser)];;
  console_log [JStr "Full Firebase user data:";
               JObj (prop "uid" (JStr <$> fb_uid firebaseUser)
                     ++ prop "email" (JStr <$> fb_email firebaseUser))];;
  '(found, listError) ← listUsers env None;
  match listError with
  | Some e =>
      console_error [JStr "Error listing users:"; JStr e];;
      mret (json_response 500
              [("error", JStr "Failed to find user"); ("details", JStr e)])
  | None =>
      console_log [JStr "Found"; shown_nat (length found);
                   JStr "users in Supabase"];;
      console_log [JStr "Looking for Firebase UID:";
                   shown_str (fb_uid firebaseUser)];;
      console_log [JStr "Looking for email:";
                   shown_str (fb_email firebaseUser)];;
      log_first_users found;;
      user ← users_find firebaseUser found;
      match user with
      | None => user_not_found firebaseUser found
      | Some user => exchange_for_user env user
      end
  end.

(** The body of the handler's [try] block. *)
Definition exchange_try (env : Env) (req : Request) : M Response :=
  payload ← destructure req;
  let firebaseToken := opt_field "firebaseToken" payload in
  if negb (truthy firebaseToken)
  then mret (json_response 400 [("error", JStr "Firebase token is required")])
  else
    console_log [JStr "Validating Firebase token..."];;
    verifyResponse ← fetch_token_verify env (shown firebaseToken);
    if negb (resp_ok verifyResponse)
    then
      console_error [JStr "Firebase token verification failed:";
                     JStr (resp_text verifyResponse)];;
      mret (json_response 401
              [("error", JStr "Invalid or expired Firebase token")])
    else
      firebaseUser ← response_claims env verifyResponse;
      exchange_for_claims env firebaseUser.

(** The [catch (error)] of a handler: log and answer 500. *)
Definition unexpected_error (title : string) (error : string) : M Response :=
  console_error [JStr "Unexpected error:"; JStr error];;
  mret (json_response 500 [("error", JStr title); ("details", JStr error)]).

(** The exchange-firebase-session edge function (the constant verification
    URL is non-empty, so its "not configured" branch is never taken). *)
Definition exchange_firebase_session (env : Env) (req : Request) : M Response :=
  if String.eqb (req_method req) "OPTIONS"
  then mret corsHeaders_ok
  else try_catch (exchange_try env req) (unexpected_error "Internal server error").

(** ** Session exchange, redeeming the magic link through [verifyOtp] *)

(** The [while (page <= 10)] loop of [findUserByEmail], with [remaining]
    pages still allowed. *)
Fixpoint findUserByEmail_pages (env : Env) (email : string)
    (remaining page : nat) : M (option User) :=
  match remaining with
  | O => mret None
  | S remaining' =>
      '(found, error) ← listUsers env (Some (page, 1000%nat));
      match error with
      | Some e => throw e
      | None =>
          match List.find (has_email email) found with
          | Some user => mret (Some user)
          | None =>
              if (length found <? 1000)%nat then mret None
              else findUserByEmail_pages env email remaining' (S page)
          end
      end
  end.

Definition findUserByEmail (env : Env) (email : string) : M (option User) :=
  findUserByEmail_pages env email 10%nat 1%nat.

Definition session_fields (s : Session) : list (string * json) :=
  [("access_token", JStr (access_token s));
   ("refresh_token", JStr (refresh_token s));
   ("expires_in", JNum (expires_in s));
   ("expires_at", JNum (expires_at s))].

(** [Array.from(url.searchParams.entries())] *)
Definition entries (params : list (string * string)) : json :=
  JArr (map (λ kv, JArr [JStr kv.1; JStr kv.2]) params).

(** From the generated link to the response. *)
Definition redeem_link (env : Env) (otpData : LinkData) : M Response :=
  match properties_action_link otpData with
  | None => throw "Cannot read properties of null (reading 'action_link')"
  | Some actionLink =>
      console_log [JStr "Full action link:"; JStr actionLink];;
      match url_search_params env actionLink with
      | None => throw "Invalid URL"
      | Some params =>
          let tokenHash := assoc "token_hash" params in
          let token := assoc "token" params in
          let type := assoc "type" params in
          console_log [JStr "URL params:";
                       JObj [("token_hash", shown_str tokenHash);
                             ("token", shown_str token);
                             ("type", shown_str type)]];;
          let authToken := if truthy_str tokenHash then tokenHash else token in
          if negb (truthy_str authToken)
          then
            console_error [JStr "No token found in magic link"];;
            console_error [JStr "All params:"; entries params];;
            mret (json_response 500
              [("error", JStr "Failed to extract token from magic link");
               ("debug",
                JObj [("has_token_hash", JBool (truthy_str tokenHash));
                      ("has_token", JBool (truthy_str token));
                      ("all_params", entries params)])])
          else
            console_log [JStr "Got token, verifying OTP..."];;
            let verify_type :=
              match type with
              | Some t => if truthy_str type then t else "magiclink"
              | None => "magiclink"
              end in
            let verify_token_hash :=
              if truthy_str tokenHash then tokenHash else token in
            sessionData ← verifyOtp env verify_type verify_token_hash;
            match otp_error sessionData, otp_session sessionData with
            | None, Some session =>
                console_log [JStr "✅ Session created successfully"];;
                match otp_user sessionData with
                | None => throw "Cannot read properties of null (reading 'id')"
                | Some (id, email) =>
                    mret (json_response 200
                      (session_fields session
                       ++ [("user",
                            JObj (("id", JStr id) :: prop "email" (JStr <$> email)))]))
                end
            | sessionError, _ =>
                console_error [JStr "Session creation failed:";
                               shown_str sessionError];;
                mret (json_response 500
                  (("error", JStr "Failed to create session")
                     :: prop "details" (JStr <$> sessionError)))
            end
      end
  end.

Definition exchange_otp_try (env : Env) (req : Request) : M Response :=
  payload ← destructure req;
  let firebaseToken := opt_field "firebaseToken" payload in
  if negb (truthy firebaseToken)
  then mret (json_response 400 [("error", JStr "Firebase token required")])
  else
    verifyResp ← fetch_token_verify env (shown firebaseToken);
    if negb (resp_ok verifyResp)
    then mret (json_response 401 [("error", JStr "Invalid Firebase token")])
    else
      fbUser ← response_claims env verifyResp;
      match fb_email fbUser with
      | None => mret (json_response 400 [("error", JStr "No email in token")])
      | Some email =>
          if negb (truthy_str (Some email))
          then mret (json_response 400 [("error", JStr "No email in token")])
          else
            user ← findUserByEmail env email;
            match user with
            | None =>
                mret (json_response 404
                        [("error", JStr "User not found"); ("email", JStr email)])
            | Some user =>
                console_log [JStr "Found user:"; JStr (user_id user)];;
                link ← generateLink env (user_email user);
                match link_error link, link_data link with
                | None, Some otpData => redeem_link env otpData
                | otpError, _ =>
                    console_error [JStr "OTP generation failed:";
                                   shown_str otpError];;
                    mret (json_response 500
                      (("error", JStr "Failed to generate session")
                         :: prop "details" (JStr <$> otpError)))
                end
            end
      end.

(** The exchange-firebase-session edge function, [verifyOtp] variant. *)
Definition exchange_firebase_session_otp (env : Env) (req : Request)
  : M Response :=
  if String.eqb (req_method req) "OPTIONS"
  then mret corsHeaders_ok
  else try_catch (exchange_otp_try env req) (unexpected_error "Internal error").

(** ** Password login with lazy migration *)

(** [users.find(u => u.email?.toLowerCase() === email.toLowerCase())]: the
    callback throws on the first record when [email] is not a string. *)
Definition find_by_email (email : json) (l : list User) : M (option User) :=
  match l, email with
  | [], _ => mret None
  | _, JStr e => mret (List.find (has_email e) l)
  | _ :: _, _ => throw "email.toLowerCase is not a function"
  end.

(** [fbUser?.passwordHash] and [fbUser?.passwordSalt] of the record. *)
Definition passwordHash (user : User) : option json :=
  opt_field "passwordHash" (fbuser_of user).
Definition passwordSalt (user : User) : option json :=
  opt_field "passwordSalt" (fbuser_of user).

Definition login_response (session : Session) (migrated : bool) (message : string)
  : Response :=
  json_response 200
    [("session", JObj (session_fields session));
     ("migrated", JBool migrated);
     ("message", JStr message)].

(** The 401 answer for an account without a source password. *)
Definition no_source_password : Response :=
  json_response 401
    [("error", JStr "Invalid credentials");
     ("hint",
      JStr "This account may use OAuth (Google/Apple). Try signing in with your social account.")].

(** The 401 answer for a password the source hash does not confirm. *)
Definition credential_mismatch : Response :=
  json_response 401 [("error", JStr "Invalid credentials")].

(** Steps 4 and 5: write the native password, then log in again. *)
Definition migrate_and_login (env : Env) (user : User) (email password : json)
  : M Response :=
  console_log [JStr "Firebase password verified! Migrating to Supabase..."];;
  updateError ← updateUserById env (user_id user)
                   (mkUpdateAttrs None (Some password));
  match updateError with
  | Some e =>
      console_error [JStr "Error updating password:"; JStr e];;
      mret (json_response 500
              [("error", JStr "Failed to migrate password"); ("details", JStr e)])
  | None =>
      console_log [JStr "Password migrated successfully!"];;
      '(session, newLoginError) ← signInWithPassword env email password;
      match newLoginError, session with
      | None, Some session =>
          mret (login_response session true
                  "Password successfully migrated and logged in")
      | _, _ =>
          console_error [JStr "Error signing in after migration:";
                         shown_str newLoginError];;
          mret (json_response 500
            (("error", JStr "Password migrated but login failed")
               :: prop "details" (JStr <$> newLoginError)))
      end
  end.

(** Steps 2 and 3: the native login failed; look the record up and check
    the password against the source hash. *)
Definition check_firebase_password (env : Env) (email password : json)
  : M Response :=
  console_log [JStr "Login failed, checking for Firebase password migration..."];;
  '(found, userError) ← listUsers env None;
  match userError with
  | Some e =>
      console_error [JStr "Error listing users:"; JStr e];;
      mret (json_response 401
              [("error", JStr "Authentication failed"); ("details", JStr e)])
  | None =>
      user ← find_by_email email found;
      match user with
      | None => mret (json_response 404 [("error", JStr "User not found")])
      | Some user =>
          if negb (truthy (passwordHash user)) || negb (truthy (passwordSalt user))
          then mret no_source_password
          else if negb (truthy_str (FIREBASE_PW_VERIFY_URL env))
          then
            console_error [JStr "FIREBASE_PW_VERIFY_URL not configured"];;
            mret (json_response 500
                    [("error", JStr "Password verification service not configured")])
          else
            console_log [JStr "Verifying Firebase password..."];;
            verifyResponse ← fetch_password_verify env
                               (shown (passwordSalt user))
                               (shown (passwordHash user)) password;
            let verifyResult := resp_text verifyResponse in
            if negb (String.eqb verifyResult "valid")
            then mret credential_mismatch
            else migrate_and_login env user email password
      end
  end.

Definition migrate_try (env : Env) (req : Request) : M Response :=
  payload ← destructure req;
  let email := opt_field "email" payload in
  let password := opt_field "password" payload in
  if negb (truthy email) || negb (truthy password)
  then mret (json_response 400 [("error", JStr "Email and password are required")])
  else
    '(session, loginError) ← signInWithPassword env (shown email) (shown password);
    match session with
    | Some session => mret (login_response session false "Login successful")
    | None => check_firebase_password env (shown email) (shown password)
    end.

(** The migrate-firebase-password edge function. *)
Definition migrate_firebase_password (env : Env) (req : Request) : M Response :=
  if String.eqb (req_method req) "OPTIONS"
  then mret corsHeaders_ok
  else try_catch (migrate_try env req) (unexpected_error "Internal server error").

(** ** Vocabulary of the statements *)

(** The world in which a request starts: the stored records, an empty
    console and no call made yet. *)
Definition fresh (us : list User) : World := mkWorld us [] [].

(** [result.k] on a JSON response body. *)
Definition body_field (k : string) (r : Response) : option json :=
  match body r with
  | BodyJson fields => assoc k fields
  | BodyText _ => None
  end.

(** A non-empty string value. *)
Definition nonempty_string (v : option json) : Prop :=
  ∃ s, v = Some (JStr s) ∧ s ≠ "".

(** The success body of exchange-session: both tokens, and the id and
    e-mail address of [user]. *)
Definition carries_session (user : User) (r : Response) : Prop :=
  nonempty_string (body_field "access_token" r)
  ∧ nonempty_string (body_field "refresh_token" r)
  ∧ body_field "user" r = Some (user_summary user).

(** [s] occurs as a string value inside [j]. *)
Fixpoint json_mentions (s : string) (j : json) : bool :=
  match j with
  | JStr t => String.eqb s t
  | JArr items => existsb (json_mentions s) items
  | JObj fields =>
      existsb (λ kv, match kv with (_, v) => json_mentions s v end) fields
  | _ => false
  end.

(** [s] was written to the console, as it is. *)
Definition logged (s : string) (w : World) : bool :=
  existsb (λ line, existsb (json_mentions s) (log_args line)) (console w).

Definition is_failure_line (line : LogLine) : bool :=
  match log_level line with
  | LevelLog => false
  | LevelWarn | LevelError => true
  end.

(** Some line of the console reports a failure. *)
Definition failure_logged (w : World) : bool :=
  existsb is_failure_line (console w).

Definition is_update (c : Call) : bool :=
  match c with
  | CallUpdateUserById _ _ => true
  | _ => false
  end.

Definition is_password_verify (c : Call) : bool :=
  match c with
  | CallPasswordVerify _ _ _ => true
  | _ => false
  end.

(** The collaborator confirmed the credential: it answered ["valid"]. *)
Definition confirms (o : FetchOutcome) : Prop :=
  ∃ r, o = Responded r ∧ resp_text r = "valid".

(** [hay.includes(needle)] *)
Fixpoint includes (needle hay : string) : bool :=
  String.prefix needle hay
  || match hay with
     | EmptyString => false
     | String _ rest => includes needle rest
     end.


(** A 500-class status. *)
Definition server_error (r : Response) : Prop := 500 ≤ status r ≤ 599.

(** The page of the store that [listUsers()] returns. *)
Definition first_page (env : Env) (us : list User) : list User :=
  page_of 1 (default_per_page env) us.

(** A computation that returns [a] and does nothing but write console
    lines. *)
Definition writes_only {A : Type} (m : M A) (a : A) : Prop :=
  ∀ w, ∃ lines,
    m w = (Returned a, mkWorld (users w) (console w ++ lines) (calls w)).

(** The token posted with the request. *)
Definition posted_token (req : Request) : json :=
  shown (opt_field "firebaseToken" (req_json req)).

(** The claims-verification service accepted the posted token with a
    success status and answered the claims [c]. *)
Definition verified_claims (env : Env) (req : Request) (c : FirebaseUser) : Prop :=
  ∃ resp, token_verify_service env (posted_token req) = Responded resp
          ∧ resp_ok resp = true
          ∧ decode_claims env (resp_text resp) = Some c.


(** The environment in which the password login is exercised: the user
    store answers, and the verification service is configured. *)
Definition store_available (env : Env) : Prop :=
  sign_in_fault env = None ∧ list_users_fault env = None.

(** The record [u] is the one the lookup by e-mail address resolves to, and
    it carries a source password hash and salt. *)
Definition resolves_to (env : Env) (us : list User) (email : string) (u : User)
  : Prop :=
  List.find (has_email email) (first_page env us) = Some u.

Definition has_source_password (u : User) : Prop :=
  truthy (passwordHash u) = true ∧ truthy (passwordSalt u) = true.

(** What the credential-verification service answers for the stored hash
    of [u] and the plaintext [password]. *)
Definition verification_of (env : Env) (u : User) (password : string)
  : FetchOutcome :=
  password_verify_service env (shown (passwordSalt u)) (shown (passwordHash u))
    (JStr password).

(** The [session] member of a login answer carries the access token and
    the refresh token of [s]. *)
Definition grants_session (s : Session) (r : Response) : Prop :=
  opt_field "access_token" (body_field "session" r)
  = Some (JStr (access_token s))
  ∧ opt_field "refresh_token" (body_field "session" r)
    = Some (JStr (refresh_token s)).


(** [tokenError || !tokenData] on the result of [generateLink]. *)
Definition link_unusable (link : LinkResult) : Prop :=
  link_error link ≠ None ∨ link_data link = None.

(** The JSON request [{ email, password }] and [{ firebaseToken }]. *)
Definition login_request (email password : string) : Request :=
  mkRequest "POST" (Some (JObj [("email", JStr email); ("password", JStr password)])).

Definition exchange_request (token : string) : Request :=
  mkRequest "POST" (Some (JObj [("firebaseToken", JStr token)])).

(** ** Sample data *)

Definition sample_fbuser : json :=
  JObj [("uid", JStr "U1"); ("email", JStr "a@x.com");
        ("passwordHash", JStr "c2NyeXB0"); ("passwordSalt", JStr "c2FsdA")].

Definition alice : User :=
  mkUser "user-1" (Some "A@X.com") (Some {[ "fbuser" := sample_fbuser ]}) None.

(** An OAuth-only account: no source password hash. *)
Definition dana : User :=
  mkUser "user-2" (Some "d@x.com")
    (Some {[ "fbuser" := JObj [("uid", JStr "U2")] ]}) None.

Definition sample_store : list User := [alice; dana].

Definition sample_claims : FirebaseUser := mkFirebaseUser (Some "U1") (Some "a@x.com").

Definition sample_link : string :=
  "https://project.supabase.co/auth/v1/verify?token=4f9c2a&type=magiclink".

Definition sample_session : Session := mkSession "access-1" "refresh-1" 3600 1762788600.

(** An environment in which the token ["good"] verifies to [sample_claims],
    the password ["correct"] is confirmed, and the remaining behaviour is
    given by the arguments. *)
Definition sample_env (verify : FetchOutcome) (pw_verify : FetchOutcome)
    (link : LinkResult) (params : list (string * string))
    (update_fault : option Fault) : Env :=
  {| token_verify_service := λ token,
       match token with
       | JStr "good" => Responded (mkHttpResponse 200 "claims")
       | _ => verify
       end;
     decode_claims := λ text,
       if String.eqb text "claims" then Some sample_claims else None;
     FIREBASE_PW_VERIFY_URL := Some "https://pw-verify.example/";
     password_verify_service := λ salt hash password,
       match password with
       | JStr "correct" => Responded (mkHttpResponse 200 "valid")
       | _ => pw_verify
       end;
     default_per_page := 50;
     list_users_fault := None;
     generate_link := λ _, inl link;
     url_search_params := λ _, Some params;
     update_user_fault := λ _, update_fault;
     verify_otp := λ _ _,
       inl (mkOtpResult (Some sample_session) (Some ("user-1", Some "A@X.com")) None);
     sign_in_fault := None;
     issue_session := λ _, sample_session;
     now := "2025-11-10T15:30:00.000Z" |}.

Definition rejected : FetchOutcome := Responded (mkHttpResponse 401 "invalid").
Definition link_ok : LinkResult :=
  mkLinkResult (Some (mkLinkData (Some sample_link))) None.

(** A link whose query carries the two session tokens, as the link-reading
    variant expects it. *)
Definition sample_token_link : string :=
  "https://project.supabase.co/auth/v1/verify?access_token=access-1&refresh_token=refresh-1".
Definition token_link_ok : LinkResult :=
  mkLinkResult (Some (mkLinkData (Some sample_token_link))) None.
Definition link_failed : LinkResult :=
  mkLinkResult None (Some "rate limit exceeded").
Definition otp_params : list (string * string) :=
  [("token", "4f9c2a"); ("type", "magiclink")].
Definition token_params : list (string * string) :=
  [("access_token", "access-1"); ("refresh_token", "refresh-1")].






(** The claims and the record on which the literal match policy and the
    handler's predicate disagree: the claims carry an empty e-mail address. *)
Definition blank_claims : FirebaseUser := mkFirebaseUser (Some "U1") (Some "").
Definition blank_user : User := mkUser "user-3" (Some "") None None.

(** A claims-verification service that is down. *)
Definition outage : FetchOutcome :=
  Responded (mkHttpResponse 503 "Service Unavailable").

(** ** Vocabulary of the further properties *)

(** The calls [listUsers({ page, perPage: 1000 })] for [count] pages from
    [page] on. *)
Definition page_calls (page count : nat) : list Call :=
  (λ i, CallListUsers (Some (i, 1000%nat))) <$> seq page count.

(** The part of the store that [findUserByEmail] can reach: ten pages of a
    thousand records. *)
Definition scanned (us : list User) : list User := take (10 * 1000) us.

Definition is_list_users (c : Call) : bool :=
  match c with
  | CallListUsers _ => true
  | _ => false
  end.

(** [tokenHash || token] on the parameters of the magic link. *)
Definition link_token (params : list (string * string)) : option string :=
  if truthy_str (assoc "token_hash" params)
  then assoc "token_hash" params
  else assoc "token" params.

(** [type || 'magiclink'] on the parameters of the magic link. *)
Definition link_type (params : list (string * string)) : string :=
  match assoc "type" params with
  | Some t => if String.eqb t "" then "magiclink" else t
  | None => "magiclink"
  end.

(** The 200 answer of the [verifyOtp] variant. *)
Definition otp_success (session : Session) (id : string) (email : option string)
  : Response :=
  json_response 200
    (session_fields session
     ++ [("user", JObj (("id", JStr id) :: prop "email" (JStr <$> email)))]).

(** [env] with a claims-verification service that accepts every token and
    answers the claims [c]. *)
Definition with_claims (c : FirebaseUser) (env : Env) : Env :=
  {| token_verify_service := λ _, Responded (mkHttpResponse 200 "claims");
     decode_claims := λ _, Some c;
     FIREBASE_PW_VERIFY_URL := FIREBASE_PW_VERIFY_URL env;
     password_verify_service := password_verify_service env;
     default_per_page := default_per_page env;
     list_users_fault := list_users_fault env;
     generate_link := generate_link env;
     url_search_params := url_search_params env;
     update_user_fault := update_user_fault env;
     verify_otp := verify_otp env;
     sign_in_fault := sign_in_fault env;
     issue_session := issue_session env;
     now := now env |}.

(** Claims of a phone sign-in: a subject id and no e-mail address. *)
Definition phone_claims : FirebaseUser := mkFirebaseUser (Some "U1") None.

Definition sample_otp_env : Env :=
  sample_env rejected rejected link_ok otp_params None.

(** The 404 answer of the link-reading variant. *)
Definition not_found_response (c : FirebaseUser) (listed : list User) : Response :=
  json_response 404
    [("error", JStr "User not found");
     ("hint", JStr "This user may not have been migrated to Supabase yet");
     ("debug",
      JObj [("searched_for",
             JObj (prop "uid" (JStr <$> fb_uid c)
                   ++ prop "email" (JStr <$> fb_email c)));
            ("total_users", shown_nat (length listed))])].

(** The 400 answer of the [verifyOtp] variant to claims without an e-mail
    address. *)
Definition no_email_response : Response :=
  json_response 400 [("error", JStr "No email in token")].

(** The 500 answer to a magic link that lacks a session token. *)
Definition no_tokens_response : Response :=
  json_response 500 [("error", JStr "Failed to generate session tokens")].

(** The generated link carries both session tokens. *)
Definition link_has_tokens (env : Env) (link : LinkResult) : Prop :=
  ∃ href params,
    link = mkLinkResult (Some (mkLinkData (Some href))) None
    ∧ url_search_params env href = Some params
    ∧ truthy_str (assoc "access_token" params) = true
    ∧ truthy_str (assoc "refresh_token" params) = true.

(** [{ password }], the attributes written by the password migration. *)
Definition password_attrs (password : json) : UpdateAttrs :=
  mkUpdateAttrs None (Some password).

(** The store after a successful password write on the record [id]. *)
Definition with_password (id : string) (password : json) (us : list User)
  : list User :=
  update_record id (password_attrs password) <$> us.

(** The posted e-mail address and password. *)
Definition posted_email (req : Request) : json :=
  shown (opt_field "email" (req_json req)).
Definition posted_password (req : Request) : json :=
  shown (opt_field "password" (req_json req)).

Definition migrated_response (session : Session) : Response :=
  login_response session true "Password successfully migrated and logged in".
Definition native_response (session : Session) : Response :=
  login_response session false "Login successful".

(** The posted e-mail value is a string and names the record's address,
    ignoring letter case. *)
Definition email_is_of (email : json) (u : User) : Prop :=
  ∃ e, email = JStr e ∧ has_email e u = true.

(** Answers of the password login on its failure paths. *)
Definition unknown_address_response : Response :=
  json_response 404 [("error", JStr "User not found")].

Definition listing_failed_response (e : string) : Response :=
  json_response 401 [("error", JStr "Authentication failed"); ("details", JStr e)].

Definition not_configured_response : Response :=
  json_response 500 [("error", JStr "Password verification service not configured")].

Definition write_failed_response (e : string) : Response :=
  json_response 500 [("error", JStr "Failed to migrate password"); ("details", JStr e)].

Definition login_after_write_failed_response (e : string) : Response :=
  json_response 500
    [("error", JStr "Password migrated but login failed"); ("details", JStr e)].

(** [env] with another answer of the sign-in service. *)
Definition with_sign_in_fault (fault : option Fault) (env : Env) : Env :=
  {| token_verify_service := token_verify_service env;
     decode_claims := decode_claims env;
     FIREBASE_PW_VERIFY_URL := FIREBASE_PW_VERIFY_URL env;
     password_verify_service := password_verify_service env;
     default_per_page := default_per_page env;
     list_users_fault := list_users_fault env;
     generate_link := generate_link env;
     url_search_params := url_search_params env;
     update_user_fault := update_user_fault env;
     verify_otp := verify_otp env;
     sign_in_fault := fault;
     issue_session := issue_session env;
     now := now env |}.

(** [env] with a failing user listing. *)
Definition with_list_users_fault (fault : option Fault) (env : Env) : Env :=
  {| token_verify_service := token_verify_service env;
     decode_claims := decode_claims env;
     FIREBASE_PW_VERIFY_URL := FIREBASE_PW_VERIFY_URL env;
     password_verify_service := password_verify_service env;
     default_per_page := default_per_page env;
     list_users_fault := fault;
     generate_link := generate_link env;
     url_search_params := url_search_params env;
     update_user_fault := update_user_fault env;
     verify_otp := verify_otp env;
     sign_in_fault := sign_in_fault env;
     issue_session := issue_session env;
     now := now env |}.

(** [env] with another value of [FIREBASE_PW_VERIFY_URL]. *)
Definition with_pw_verify_url (url : option string) (env : Env) : Env :=
  {| token_verify_service := token_verify_service env;
     decode_claims := decode_claims env;
     FIREBASE_PW_VERIFY_URL := url;
     password_verify_service := password_verify_service env;
     default_per_page := default_per_page env;
     list_users_fault := list_users_fault env;
     generate_link := generate_link env;
     url_search_params := url_search_params env;
     update_user_fault := update_user_fault env;
     verify_otp := verify_otp env;
     sign_in_fault := sign_in_fault env;
     issue_session := issue_session env;
     now := now env |}.

(** ** The claims-verification service (verify-firebase-token) *)

(** An error of the Firebase Admin SDK: its [code] and [message]. *)
Record AuthError : Type := mkAuthError {
  auth_code : option string;
  auth_message : string
}.

(** The fields of the decoded token that the service answers; a field the
    token lacks is dropped by [JSON.stringify]. *)
Definition decoded_fields (decodedToken : json) : list (string * json) :=
  prop "uid" (opt_field "uid" (Some decodedToken))
  ++ prop "email" (opt_field "email" (Some decodedToken))
  ++ prop "email_verified" (opt_field "email_verified" (Some decodedToken))
  ++ prop "name" (opt_field "name" (Some decodedToken))
  ++ prop "picture" (opt_field "picture" (Some decodedToken))
  ++ prop "provider"
       (opt_field "sign_in_provider" (opt_field "firebase" (Some decodedToken)))
  ++ prop "auth_time" (opt_field "auth_time" (Some decodedToken))
  ++ prop "exp" (opt_field "exp" (Some decodedToken))
  ++ prop "iat" (opt_field "iat" (Some decodedToken)).

(** "Determine error type": the status and the message for an error code. *)
Definition error_type (code : option string) : Z * string :=
  if opt_str_eq code (Some "auth/id-token-expired") then (401, "Token expired")
  else if opt_str_eq code (Some "auth/id-token-revoked") then (401, "Token revoked")
  else if opt_str_eq code (Some "auth/argument-error")
       then (400, "Invalid token format")
  else (401, "Invalid or expired token").

(** [app.post('/', ...)]: the answer and the console lines, given what
    [admin.auth().verifyIdToken(token, true)] does and the parsed body. *)
Definition verify_token_post (verifyIdToken : json → json + AuthError)
    (req_body : json) : Response * list LogLine :=
  let token := opt_field "token" (Some req_body) in
  if negb (truthy token)
  then (json_response 400 [("error", JStr "Token is required")], [])
  else
    match verifyIdToken (shown token) with
    | inl decodedToken =>
        (json_response 200 (decoded_fields decodedToken),
         [mkLogLine LevelLog [JStr "Verifying Firebase token..."];
          mkLogLine LevelLog
            [JStr "✅ Token verified for user:";
             shown (opt_field "uid" (Some decodedToken))]])
    | inr error =>
        (json_response (error_type (auth_code error)).1
           (("error", JStr (error_type (auth_code error)).2)
              :: prop "code" (JStr <$> auth_code error)
              ++ [("details", JStr (auth_message error))]),
         [mkLogLine LevelLog [JStr "Verifying Firebase token..."];
          mkLogLine LevelError
            [JStr "❌ Token verification failed:"; JStr (auth_message error)]])
    end.

(** The service as the collaborator of the edge functions: they post
    [{ token }] and read the status and the text of the answer. *)
Definition token_service (stringify : ResponseBody → string)
    (verifyIdToken : json → json + AuthError) (token : json) : FetchOutcome :=
  let answer := (verify_token_post verifyIdToken (JObj [("token", token)])).1 in
  Responded (mkHttpResponse (status answer) (stringify (body answer))).

(** [env] with the verify-firebase-token service as its claims-verification
    collaborator. *)
Definition with_token_service (stringify : ResponseBody → string)
    (verifyIdToken : json → json + AuthError) (env : Env) : Env :=
  {| token_verify_service := token_service stringify verifyIdToken;
     decode_claims := decode_claims env;
     FIREBASE_PW_VERIFY_URL := FIREBASE_PW_VERIFY_URL env;
     password_verify_service := password_verify_service env;
     default_per_page := default_per_page env;
     list_users_fault := list_users_fault env;
     generate_link := generate_link env;
     url_search_params := url_search_params env;
     update_user_fault := update_user_fault env;
     verify_otp := verify_otp env;
     sign_in_fault := sign_in_fault env;
     issue_session := issue_session env;
     now := now env |}.

(** A verifier that knows one token and finds every other one malformed. *)
Definition sample_verifier (token : json) : json + AuthError :=
  if strict_eq (Some token) (Some (JStr "good"))
  then inl (JObj [("uid", JStr "U1"); ("email", JStr "a@x.com");
                  ("firebase", JObj [("sign_in_provider", JStr "password")])])
  else inr (mkAuthError (Some "auth/argument-error")
              "Decoding Firebase ID token failed").

Definition sample_stringify (b : ResponseBody) : string :=
  match b with
  | BodyText t => t
  | BodyJson _ => "{}"
  end.

(** ** The React Native helpers

    The client side: [authMigration.ts], [sessionExchange.ts] and the login
    screen.  A device holds the [AsyncStorage] map, the session of the
    Supabase client, the console, the alerts shown and the calls made. *)

Inductive ClientCall : Type :=
  | ClientSignInWithPassword (email password : json)
  | ClientSetSession (access_token refresh_token : option json)
  | ClientGetSession
  | ClientSignOut
  | EdgeMigratePassword (email password : json)
  | EdgeExchangeSession (firebaseToken : json)
  | FirebaseGetIdToken.

Record Device : Type := mkDevice {
  storage : gmap string string;
  current_session : option json;
  device_console : list LogLine;
  alerts : list (string * json);
  loading : bool;
  client_calls : list ClientCall
}.

Definition CM (A : Type) : Type := Device → Outcome A * Device.

#[global] Instance CM_ret : MRet CM := λ A (a : A) d, (Returned a, d).

#[global] Instance CM_bind : MBind CM := λ A B (k : A → CM B) (m : CM A) d,
  match m d with
  | (Returned a, d') => k a d'
  | (Thrown e, d') => (Thrown e, d')
  end.

Definition client_throw {A : Type} (message : string) : CM A :=
  λ d, (Thrown message, d).

(** [try { body } catch (err) { handler(err.message) }] *)
Definition client_try {A : Type} (body : CM A) (handler : string → CM A) : CM A :=
  λ d, match body d with
       | (Returned a, d') => (Returned a, d')
       | (Thrown e, d') => handler e d'
       end.

(** [try { body } finally { cleanup }] *)
Definition client_finally {A : Type} (body : CM A) (cleanup : CM unit) : CM A :=
  λ d, match body d with
       | (out, d') =>
           match cleanup d' with
           | (Returned _, d'') => (out, d'')
           | (Thrown e, d'') => (Thrown e, d'')
           end
       end.

Definition client_write (lvl : Level) (args : list json) : CM unit :=
  λ d, (Returned tt,
        mkDevice (storage d) (current_session d)
          (device_console d ++ [mkLogLine lvl args]) (alerts d) (loading d)
          (client_calls d)).

Definition client_call (c : ClientCall) : CM unit :=
  λ d, (Returned tt,
        mkDevice (storage d) (current_session d) (device_console d) (alerts d)
          (loading d) (client_calls d ++ [c])).

(** [Alert.alert(title, message, ...)] *)
Definition alert (title : string) (message : json) : CM unit :=
  λ d, (Returned tt,
        mkDevice (storage d) (current_session d) (device_console d)
          (alerts d ++ [(title, message)]) (loading d) (client_calls d)).

Definition setLoading (b : bool) : CM unit :=
  λ d, (Returned tt,
        mkDevice (storage d) (current_session d) (device_console d) (alerts d) b
          (client_calls d)).

Definition put_session (s : option json) : CM unit :=
  λ d, (Returned tt,
        mkDevice (storage d) s (device_console d) (alerts d) (loading d)
          (client_calls d)).

Definition put_storage (m : gmap string string) : CM unit :=
  λ d, (Returned tt,
        mkDevice m (current_session d) (device_console d) (alerts d) (loading d)
          (client_calls d)).

(** [{ data: { session, user }, error }] of the Supabase client. *)
Record AuthResult : Type := mkAuthResult {
  auth_session : option json;
  auth_user : option json;
  auth_error : option json
}.

(** What [fetch] to an edge function gives. *)
Inductive EdgeOutcome : Type :=
  | EdgeUnreachable (message : string)
  | EdgeAnswered (r : Response).

(** What the device gets from outside: the Supabase client, the two edge
    functions, and [AsyncStorage], each of whose three operations works or
    rejects on its own. *)
Record ClientEnv : Type := mkClientEnv {
  supabase_sign_in : json → json → AuthResult + string;
  supabase_set_session : option json → option json → AuthResult + string;
  supabase_get_session_fault : option string;
  supabase_sign_out : option json + string;
  migrate_endpoint : json → json → EdgeOutcome;
  exchange_endpoint : json → EdgeOutcome;
  get_item_fault : option string;
  set_item_fault : option string;
  remove_item_fault : option string
}.

(** [AsyncStorage.getItem], [setItem], [removeItem] *)
Definition getItem (cenv : ClientEnv) (k : string) : CM (option string) :=
  λ d, match get_item_fault cenv with
       | Some e => (Thrown e, d)
       | None => (Returned (storage d !! k), d)
       end.

Definition setItem (cenv : ClientEnv) (k v : string) : CM unit :=
  λ d, match set_item_fault cenv with
       | Some e => (Thrown e, d)
       | None => put_storage (<[ k := v ]> (storage d)) d
       end.

Definition removeItem (cenv : ClientEnv) (k : string) : CM unit :=
  λ d, match remove_item_fault cenv with
       | Some e => (Thrown e, d)
       | None => put_storage (delete k (storage d)) d
       end.

(** [supabase.auth.signInWithPassword]: a session it returns becomes the
    session of the client. *)
Definition auth_signInWithPassword (cenv : ClientEnv) (email password : json)
  : CM AuthResult :=
  client_call (ClientSignInWithPassword email password);;
  match supabase_sign_in cenv email password with
  | inr e => client_throw e
  | inl r =>
      (if truthy (auth_session r) then put_session (auth_session r) else mret tt);;
      mret r
  end.

(** [supabase.auth.setSession({ access_token, refresh_token })] *)
Definition auth_setSession (cenv : ClientEnv) (access refresh : option json)
  : CM AuthResult :=
  client_call (ClientSetSession access refresh);;
  match supabase_set_session cenv access refresh with
  | inr e => client_throw e
  | inl r =>
      (if truthy (auth_error r) then mret tt else put_session (auth_session r));;
      mret r
  end.

(** [supabase.auth.getSession()]: [data.session] *)
Definition auth_getSession (cenv : ClientEnv) : CM (option json) :=
  client_call ClientGetSession;;
  match supabase_get_session_fault cenv with
  | Some e => client_throw e
  | None => λ d, (Returned (current_session d), d)
  end.

(** [supabase.auth.signOut()]: [error]; the session of the client is
    dropped when no error is reported. *)
Definition auth_signOut (cenv : ClientEnv) : CM (option json) :=
  client_call ClientSignOut;;
  match supabase_sign_out cenv with
  | inr e => client_throw e
  | inl error =>
      (if truthy error then mret tt else put_session None);;
      mret error
  end.

(** [response.ok] and [await response.json()] *)
Definition response_ok (r : Response) : bool :=
  (200 <=? status r) && (status r <=? 299).

Definition response_json (r : Response) : CM json :=
  match body r with
  | BodyJson fields => mret (JObj fields)
  | BodyText _ => client_throw "Unexpected token in JSON"
  end.

(** [a || b] on values. *)
Definition or_else (a : option json) (b : json) : json :=
  if truthy a then shown a else b.

(** [err.message || 'Network error'] *)
Definition message_or (e fallback : string) : json :=
  if String.eqb e "" then JStr fallback else JStr e.

(** *** authMigration.ts *)

Definition MIGRATION_STORAGE_KEY : string := "firebase_auth_migration_complete".

Record MigrationResult : Type := mkMigrationResult {
  mr_session : option json;
  mr_error : option json;
  mr_migrated : option json
}.

(** [migrateFirebasePassword(email, password)] *)
Definition migrateFirebasePassword (cenv : ClientEnv) (email password : json)
  : CM MigrationResult :=
  client_try
    (client_call (EdgeMigratePassword email password);;
     match migrate_endpoint cenv email password with
     | EdgeUnreachable e => client_throw e
     | EdgeAnswered response =>
         result ← response_json response;
         let session := opt_field "session" (Some result) in
         if response_ok response && truthy session
         then
           auth_setSession cenv (opt_field "access_token" session)
             (opt_field "refresh_token" session);;
           mret (mkMigrationResult session (Some JNull)
                   (opt_field "migrated" (Some result)))
         else
           mret (mkMigrationResult None
                   (Some (or_else (opt_field "error" (Some result))
                            (JStr "Migration failed")))
                   (Some (JBool false)))
     end)
    (λ err,
       client_write LevelError
         [JStr "❌ Error migrating Firebase password:"; JStr err];;
       mret (mkMigrationResult None (Some (message_or err "Network error"))
               (Some (JBool false)))).

Record SignInResult : Type := mkSignInResult {
  si_session : option json;
  si_user : option json;
  si_error : option json;
  si_migrated : bool
}.

(** [signInWithPassword(email, password)] *)
Definition signInWithPassword_client (cenv : ClientEnv) (email password : json)
  : CM SignInResult :=
  client_try
    (r ← auth_signInWithPassword cenv email password;
     if truthy (auth_session r)
     then
       client_write LevelLog
         [JStr "✅ Signed in successfully with Supabase password"];;
       setItem cenv MIGRATION_STORAGE_KEY "true";;
       mret (mkSignInResult (auth_session r) (auth_user r) (Some JNull) false)
     else if truthy (auth_error r)
     then
       client_write LevelLog
         [JStr "⚠️ Supabase login failed, attempting Firebase password migration..."];;
       migrationResult ← migrateFirebasePassword cenv email password;
       if truthy (mr_session migrationResult)
       then
         client_write LevelLog [JStr "✅ Password migrated successfully!"];;
         setItem cenv MIGRATION_STORAGE_KEY "true";;
         mret (mkSignInResult (mr_session migrationResult)
                 (opt_field "user" (mr_session migrationResult)) (Some JNull) true)
       else
         mret (mkSignInResult (Some JNull) (Some JNull)
                 (Some (or_else (mr_error migrationResult) (shown (auth_error r))))
                 false)
     else mret (mkSignInResult (auth_session r) (auth_user r) (auth_error r) false))
    (λ err,
       client_write LevelError [JStr "❌ Error in signInWithPassword:"; JStr err];;
       mret (mkSignInResult (Some JNull) (Some JNull)
               (Some (JObj [("message", JStr err)])) false)).

(** [checkMigrationStatus()]: [{ needsMigration, hasSupabaseSession }] *)
Definition checkMigrationStatus (cenv : ClientEnv) : CM (bool * bool) :=
  client_try
    (migrationComplete ← getItem cenv MIGRATION_STORAGE_KEY;
     if opt_str_eq migrationComplete (Some "true")
     then
       client_write LevelLog [JStr "✅ Migration already complete"];;
       mret (false, true)
     else
       session ← auth_getSession cenv;
       if truthy session
       then
         client_write LevelLog [JStr "✅ Active Supabase session found"];;
         setItem cenv MIGRATION_STORAGE_KEY "true";;
         mret (false, true)
       else
         client_write LevelLog
           [JStr "⚠️ No Supabase session found - user needs to sign in"];;
         mret (true, false))
    (λ err,
       client_write LevelError
         [JStr "❌ Error checking migration status:"; JStr err];;
       mret (true, false)).

(** [signOut()]: [{ error }] *)
Definition signOut (cenv : ClientEnv) : CM (option json) :=
  client_try
    (error ← auth_signOut cenv;
     removeItem cenv MIGRATION_STORAGE_KEY;;
     mret error)
    (λ err,
       client_write LevelError [JStr "❌ Error signing out:"; JStr err];;
       mret (Some (JObj [("message", JStr err)]))).

(** *** sessionExchange.ts *)

Definition SESSION_EXCHANGE_KEY : string := "firebase_session_exchanged".

(** The result object of [exchangeFirebaseSession]. *)
Record ExchangeResult : Type := mkExchangeResult {
  ex_success : bool;
  ex_session : option json;
  ex_user : option json;
  ex_error : option json;
  ex_hint : option json
}.

(** [exchangeFirebaseSession(firebaseToken)] *)
Definition exchangeFirebaseSession (cenv : ClientEnv) (firebaseToken : json)
  : CM ExchangeResult :=
  client_try
    (client_write LevelLog
       [JStr "🔄 Exchanging Firebase session for Supabase session..."];;
     client_call (EdgeExchangeSession firebaseToken);;
     match exchange_endpoint cenv firebaseToken with
     | EdgeUnreachable e => client_throw e
     | EdgeAnswered response =>
         result ← response_json response;
         if response_ok response && truthy (opt_field "access_token" (Some result))
         then
           r ← auth_setSession cenv (opt_field "access_token" (Some result))
                  (opt_field "refresh_token" (Some result));
           if truthy (auth_error r)
           then
             client_write LevelError
               [JStr "❌ Failed to set Supabase session:"; shown (auth_error r)];;
             mret (mkExchangeResult false None None (auth_error r) None)
           else
             client_write LevelLog [JStr "✅ Session exchanged successfully!"];;
             setItem cenv SESSION_EXCHANGE_KEY "true";;
             mret (mkExchangeResult true (auth_session r) (auth_user r) None None)
         else
           client_write LevelWarn
             [JStr "⚠️ Session exchange failed:";
              shown (opt_field "error" (Some result))];;
           mret (mkExchangeResult false None None
                   (Some (or_else (opt_field "error" (Some result))
                            (JStr "Failed to exchange session")))
                   (opt_field "hint" (Some result)))
     end)
    (λ err,
       client_write LevelError [JStr "❌ Error exchanging session:"; JStr err];;
       mret (mkExchangeResult false None None
               (Some (message_or err "Network error")) None)).

(** The part of the Firebase auth instance that is used: [currentUser],
    and what its [getIdToken(false)] resolves to or throws. *)
Record FirebaseAuth : Type := mkFirebaseAuth {
  currentUser : option (json + string)
}.

(** The result object of [checkAndExchangeFirebaseSession]; a flag the
    object does not carry reads as [false], as it does in the caller's
    [if (result.exchanged)] and [else if (result.needsSignIn)]. *)
Record SessionCheck : Type := mkSessionCheck {
  hasSupabaseSession : bool;
  check_session : option json;
  check_exchanged : bool;
  needsSignIn : bool;
  check_error : option string
}.

(** The inner [try] of [checkAndExchangeFirebaseSession]: get the Firebase
    token and exchange it; [None] when the function goes on to its last
    [return]. *)
Definition try_firebase_exchange (cenv : ClientEnv) (getIdToken : json + string)
  : CM (option SessionCheck) :=
  client_write LevelLog
    [JStr "🔍 Found Firebase user, attempting session exchange..."];;
  client_try
    (client_call FirebaseGetIdToken;;
     match getIdToken with
     | inr e => client_throw e
     | inl firebaseToken =>
         result ← exchangeFirebaseSession cenv firebaseToken;
         if ex_success result
         then mret (Some (mkSessionCheck true (ex_session result) true false None))
         else
           client_write LevelWarn
             [JStr "⚠️ Session exchange failed, user needs to sign in"];;
           mret None
     end)
    (λ err,
       client_write LevelError [JStr "❌ Error getting Firebase token:"; JStr err];;
       mret None).

(** [checkAndExchangeFirebaseSession(firebaseAuth)] *)
Definition checkAndExchangeFirebaseSession (cenv : ClientEnv)
    (firebaseAuth : option FirebaseAuth) : CM SessionCheck :=
  client_try
    (exchanged ← getItem cenv SESSION_EXCHANGE_KEY;
     early ←
       (if opt_str_eq exchanged (Some "true")
        then
          client_write LevelLog
            [JStr "✅ Session already exchanged, checking Supabase session..."];;
          session ← auth_getSession cenv;
          if truthy session
          then mret (Some (mkSessionCheck true session false false None))
          else removeItem cenv SESSION_EXCHANGE_KEY;; mret None
        else mret None);
     match early with
     | Some answer => mret answer
     | None =>
         session ← auth_getSession cenv;
         if truthy session
         then
           client_write LevelLog [JStr "✅ Active Supabase session found"];;
           setItem cenv SESSION_EXCHANGE_KEY "true";;
           mret (mkSessionCheck true session false false None)
         else
           attempt ←
             match firebaseAuth with
             | Some (mkFirebaseAuth (Some getIdToken)) =>
                 try_firebase_exchange cenv getIdToken
             | _ => mret None
             end;
           match attempt with
           | Some answer => mret answer
           | None =>
               client_write LevelLog
                 [JStr "⚠️ No active session found, user needs to sign in"];;
               mret (mkSessionCheck false None false true None)
           end
     end)
    (λ err,
       client_write LevelError [JStr "❌ Error checking sessions:"; JStr err];;
       mret (mkSessionCheck false None false false (Some err))).

(** [clearSessionExchangeStatus()] *)
Definition clearSessionExchangeStatus (cenv : ClientEnv) : CM unit :=
  removeItem cenv SESSION_EXCHANGE_KEY;;
  client_write LevelLog [JStr "🧹 Session exchange status cleared"].

(** *** The login screen *)

(** [error.hint?.includes('OAuth')]: [None] when the call throws because
    the hint is neither a string nor an array. *)
Definition hint_includes_OAuth (error : option json) : option bool :=
  match opt_field "hint" error with
  | None | Some JNull => Some false
  | Some (JStr h) => Some (includes "OAuth" h)
  | Some (JArr items) =>
      Some (existsb (λ x, strict_eq (Some x) (Some (JStr "OAuth"))) items)
  | Some _ => None
  end.

Definition migrated_message : json :=
  JStr "Your password has been securely migrated. You're now logged in!".

(** [handleEmailLogin()], with the [email] and [password] of the form. *)
Definition handleEmailLogin (cenv : ClientEnv) (email password : string)
  : CM unit :=
  if String.eqb email "" || String.eqb password ""
  then alert "Error" (JStr "Please enter email and password")
  else
    setLoading true;;
    client_finally
      (client_try
         (r ← signInWithPassword_client cenv (JStr email) (JStr password);
          if truthy (si_error r)
          then
            client_write LevelError [JStr "Login error:"; shown (si_error r)];;
            match hint_includes_OAuth (si_error r) with
            | None => client_throw "error.hint.includes is not a function"
            | Some true =>
                alert "OAuth Account Detected" (shown (opt_field "hint" (si_error r)))
            | Some false =>
                alert "Login Failed"
                  (or_else (opt_field "message" (si_error r))
                     (JStr "Invalid email or password"))
            end
          else if truthy (si_session r)
          then
            if si_migrated r
            then alert "Success!" migrated_message
            else client_write LevelLog [JStr "✅ Logged in successfully"]
          else mret tt)
         (λ err,
            client_write LevelError [JStr "Unexpected error:"; JStr err];;
            alert "Error" (JStr "An unexpected error occurred")))
      (setLoading false).

(** *** Wiring the device to the edge functions *)

(** What [fetch] gives when the edge function [handler] runs on the store
    [us]: its response. *)
Definition served (handler : Env → Request → M Response) (env : Env)
    (us : list User) (req : Request) : EdgeOutcome :=
  match (handler env req (fresh us)).1 with
  | Returned r => EdgeAnswered r
  | Thrown e => EdgeUnreachable e
  end.

(** A device whose edge functions are the two handlers over the store [us]
    and whose Supabase client accepts nothing on its own. *)
Definition sample_client (env : Env) (us : list User) : ClientEnv :=
  {| supabase_sign_in := λ _ _,
       inl (mkAuthResult None None
              (Some (JObj [("message", JStr "Invalid login credentials")])));
     supabase_set_session := λ access refresh,
       inl (mkAuthResult
              (Some (JObj (prop "access_token" access
                           ++ prop "refresh_token" refresh)))
              (Some (JObj [("id", JStr "user-1")])) None);
     supabase_get_session_fault := None;
     supabase_sign_out := inl None;
     migrate_endpoint := λ email password,
       served migrate_firebase_password env us
         (mkRequest "POST" (Some (JObj [("email", email); ("password", password)])));
     exchange_endpoint := λ token,
       served exchange_firebase_session env us
         (mkRequest "POST" (Some (JObj [("firebaseToken", token)])));
     get_item_fault := None;
     set_item_fault := None;
     remove_item_fault := None |}.

(** A device that has never run the helpers. *)
Definition new_device : Device := mkDevice ∅ None [] [] false [].

(** The device [cenv] with a Supabase client whose [setSession] answers
    with [error] instead of storing the session. *)
Definition with_set_session_error (error : json) (cenv : ClientEnv) : ClientEnv :=
  {| supabase_sign_in := supabase_sign_in cenv;
     supabase_set_session := λ _ _, inl (mkAuthResult (Some JNull) (Some JNull) (Some error));
     supabase_get_session_fault := supabase_get_session_fault cenv;
     supabase_sign_out := supabase_sign_out cenv;
     migrate_endpoint := migrate_endpoint cenv;
     exchange_endpoint := exchange_endpoint cenv;
     get_item_fault := get_item_fault cenv;
     set_item_fault := set_item_fault cenv;
     remove_item_fault := remove_item_fault cenv |}.

(** The device [cenv] with a Supabase client whose [signOut] throws. *)
Definition with_sign_out_throwing (message : string) (cenv : ClientEnv) : ClientEnv :=
  {| supabase_sign_in := supabase_sign_in cenv;
     supabase_set_session := supabase_set_session cenv;
     supabase_get_session_fault := supabase_get_session_fault cenv;
     supabase_sign_out := inr message;
     migrate_endpoint := migrate_endpoint cenv;
     exchange_endpoint := exchange_endpoint cenv;
     get_item_fault := get_item_fault cenv;
     set_item_fault := set_item_fault cenv;
     remove_item_fault := remove_item_fault cenv |}.

(** The device [cenv] on which [AsyncStorage.setItem] rejects while
    [getItem] and [removeItem] work. *)
Definition with_set_item_rejecting (message : string) (cenv : ClientEnv)
  : ClientEnv :=
  {| supabase_sign_in := supabase_sign_in cenv;
     supabase_set_session := supabase_set_session cenv;
     supabase_get_session_fault := supabase_get_session_fault cenv;
     supabase_sign_out := supabase_sign_out cenv;
     migrate_endpoint := migrate_endpoint cenv;
     exchange_endpoint := exchange_endpoint cenv;
     get_item_fault := get_item_fault cenv;
     set_item_fault := Some message;
     remove_item_fault := remove_item_fault cenv |}.

(** The failure result of [exchangeFirebaseSession] for an answer that
    carries no [error] text and the hint [hint]. *)
Definition exchange_failed (hint : string) : ExchangeResult :=
  mkExchangeResult false None None (Some (JStr "Failed to exchange session"))
    (Some (JStr hint)).

(** A device that has completed the migration and then lost its session. *)
Definition flagged_device : Device :=
  mkDevice {[ MIGRATION_STORAGE_KEY := "true" ]} None [] [] false [].

(** A signed-in device that has completed the migration. *)
Definition signed_in_device : Device :=
  mkDevice {[ MIGRATION_STORAGE_KEY := "true" ]}
    (Some (JObj [("access_token", JStr "access-1")])) [] [] false [].

(** ** Proof automation *)

#[global] Arguments exchange_metadata : simpl never.
#[global] Arguments exchange_attrs : simpl never.
#[global] Arguments apply_attrs : simpl never.
#[global] Arguments update_record : simpl never.
#[global] Arguments page_of : simpl never.
#[global] Arguments user_summary : simpl never.
#[global] Arguments toLowerCase : simpl never.

(** Unfold the monad and the store API down to functions on worlds. *)
Ltac unfold_monad :=
  unfold try_catch, updateUserById, generateLink, verifyOtp, signInWithPassword,
    listUsers, fetch_token_verify, fetch_password_verify, response_claims,
    destructure, unexpected_error, console_log, console_warn, console_error,
    console_write, record_call, get_users, put_users, throw,
    mbind, M_bind, mret, M_ret in *.

(** Split on every scrutinee left in the goal or the hypotheses. *)
Ltac split_cases := repeat (case_match; simplify_eq); cbn in *.

(** The steps of a login that reaches the lookup of a record. *)
Ltac run_login :=
  unfold migrate_firebase_password, migrate_try, check_firebase_password,
    migrate_and_login, find_by_email, login_request;
  unfold_monad; cbn.

#[global] Arguments findUserByEmail : simpl never.
#[global] Arguments with_password : simpl never.

(** Rewrite with every equation of the context that applies to the goal. *)
Ltac use_eqs :=
  repeat match goal with
         | H : ?x = _ |- context [?x] => rewrite H
         end.

(** Unfold the client monad down to functions on devices. *)
Ltac unfold_client :=
  unfold client_try, client_finally, auth_signInWithPassword, auth_setSession,
    auth_getSession, auth_signOut, response_json, getItem, setItem, removeItem,
    client_write, client_call, alert, setLoading, put_session, put_storage,
    client_throw, mbind, CM_bind, mret, CM_ret in *.

(** Run a client computation through its binds, leaving the tests on
    values alone. *)
Ltac client_cbn :=
  cbn beta iota zeta delta
    [auth_session auth_error auth_user body opt_field
     mr_session mr_error mr_migrated
     ex_success ex_session ex_user ex_error ex_hint
     storage current_session device_console alerts loading client_calls
     fst snd].

Tactic Notation "client_run" constr(H) :=
  repeat (progress (rewrite ?H; client_cbn)).

(** * Properties *)

(** ** Basic facts on JavaScript values *)

Lemma opt_str_eq_spec (a b : option string) : opt_str_eq a b = true ↔ a = b.
Proof.
  destruct a as [x|], b as [y|]; simpl; try (split; congruence).
  rewrite String.eqb_eq. split; congruence.
Qed.

Lemma strict_eq_string (a : option json) (s : option string) :
  strict_eq a (JStr <$> s) = true ↔ a = JStr <$> s.
Proof.
  destruct a as [[]|], s as [y|]; simpl; try (split; congruence).
  rewrite String.eqb_eq. split; congruence.
Qed.

Lemma truthy_str_nonempty (s : option string) :
  truthy_str s = true ↔ ∃ x, s = Some x ∧ x ≠ "".
Proof.
  destruct s as [x|]; simpl.
  - rewrite negb_true_iff, String.eqb_neq. split.
    + intros H. exists x. auto.
    + intros (y & Hy & Hne). congruence.
  - split; [discriminate | intros (y & Hy & _); discriminate].
Qed.

(** ** Identity resolution *)

(** What the handler's predicate decides. *)
Lemma matches_spec (c : FirebaseUser) (u : User) :
  matches c u = true
  ↔ same_external_id c u
    ∨ (truthy_str (fb_email c) = true ∧ same_email_ignoring_case c u).
Proof.
  unfold matches, matchesUid, matchesEmail, same_external_id,
    same_email_ignoring_case.
  rewrite orb_true_iff, andb_true_iff, strict_eq_string, opt_str_eq_spec.
  reflexivity.
Qed.

(** [Array.prototype.find] returns the first accepted element. *)
Lemma find_first {A : Type} (p : A → bool) (l : list A) :
  first_satisfying (λ x, p x = true) l (List.find p l).
Proof.
  induction l as [|x l IH]; simpl.
  - constructor.
  - destruct (p x) eqn:Hx; simpl.
    + exists [], l. split; [reflexivity | split; [assumption | constructor]].
    + destruct (List.find p l) as [y|]; simpl in *.
      * destruct IH as (pre & post & -> & Hy & Hpre).
        exists (x :: pre), post. split; [reflexivity | split; [assumption |]].
        constructor; [congruence | assumption].
      * constructor; [congruence | assumption].
Qed.

Lemma first_satisfying_iff {A : Type} (P Q : A → Prop) (l : list A) (r : option A) :
  (∀ x, P x ↔ Q x) → first_satisfying P l r → first_satisfying Q l r.
Proof.
  intros HPQ. destruct r as [x|]; simpl.
  - intros (pre & post & -> & Hx & Hpre). exists pre, post.
    split; [reflexivity | split; [by apply HPQ |]].
    eapply Forall_impl; [exact Hpre |]. intros y Hy HQ. apply Hy. by apply HPQ.
  - intros Hall. eapply Forall_impl; [exact Hall |].
    intros y Hy HQ. apply Hy. by apply HPQ.
Qed.

(** The diagnostic lines of the callback do not change what [find]
    returns. *)
Lemma users_find_result (c : FirebaseUser) (l : list User) (w : World) :
  (users_find c l w).1 = Returned (find_user c l)
  ∧ users (users_find c l w).2 = users w
  ∧ calls (users_find c l w).2 = calls w.
Proof.
  revert w. induction l as [|u l IH]; intros w; [done |].
  unfold find_user in *. simpl.
  unfold mbind, M_bind, find_callback, mbind, M_bind.
  destruct (email_equal c u); simpl;
    (destruct (matches c u); simpl; [done |]);
    match goal with |- context [users_find c l ?w'] => exact (IH w') end.
Qed.

(** C3, amended: for every claims object and every list of stored records,
    identity resolution returns the first record in iteration order for
    which the embedded source external id equals the claims' subject id, or
    the claims' e-mail address is non-empty and equals the stored one
    ignoring letter case; it returns a record whenever some record
    satisfies either condition.  The handler's [users.find], which also
    prints diagnostics, returns that same record and leaves the store and
    the call trace alone. *)
Theorem identity_resolution_first_match (c : FirebaseUser) (l : list User) :
  first_satisfying
    (λ u, same_external_id c u
          ∨ (truthy_str (fb_email c) = true ∧ same_email_ignoring_case c u))
    l (find_user c l)
  ∧ ((∃ u, In u l
           ∧ (same_external_id c u
              ∨ (truthy_str (fb_email c) = true ∧ same_email_ignoring_case c u)))
     → is_Some (find_user c l))
  ∧ ∀ w, (users_find c l w).1 = Returned (find_user c l).
Proof.
  assert (Hfirst : first_satisfying
    (λ u, same_external_id c u
          ∨ (truthy_str (fb_email c) = true ∧ same_email_ignoring_case c u))
    l (find_user c l)).
  { eapply first_satisfying_iff; [| apply find_first].
    intros u. apply matches_spec. }
  split; [exact Hfirst | split].
  - intros (u & Hin & Hu). destruct (find_user c l) as [x|]; [by eexists |].
    simpl in Hfirst. rewrite List.Forall_forall in Hfirst.
    destruct (Hfirst u Hin Hu).
  - intros w. apply users_find_result.
Qed.


(** ** Running the monad *)

Lemma writes_only_ret {A : Type} (a : A) : writes_only (mret a) a.
Proof. intros w. exists []. rewrite app_nil_r. by destruct w. Qed.

Lemma writes_only_console (lvl : Level) (args : list json) :
  writes_only (console_write lvl args) tt.
Proof. intros w. by exists [mkLogLine lvl args]. Qed.

Lemma writes_only_bind {A B : Type} (m : M A) (k : A → M B) (a : A) (b : B) :
  writes_only m a → writes_only (k a) b → writes_only (m ≫= k) b.
Proof.
  intros Hm Hk w. destruct (Hm w) as [l1 H1].
  destruct (Hk (mkWorld (users w) (console w ++ l1) (calls w))) as [l2 H2].
  exists (l1 ++ l2). unfold mbind, M_bind. rewrite H1, H2. cbn.
  by rewrite app_assoc.
Qed.

Lemma writes_only_forEach {A : Type} (f : A → nat → M unit) (start : nat)
    (l : list A) :
  (∀ x i, writes_only (f x i) tt) → writes_only (forEach f start l) tt.
Proof.
  intros Hf. revert start. induction l as [|x l IH]; intros start; simpl.
  - apply writes_only_ret.
  - eapply writes_only_bind; [apply Hf | apply IH].
Qed.

Lemma log_first_users_writes_only (l : list User) :
  writes_only (log_first_users l) tt.
Proof.
  apply writes_only_forEach. intros u i. apply writes_only_console.
Qed.

Lemma users_find_writes_only (c : FirebaseUser) (l : list User) :
  writes_only (users_find c l) (find_user c l).
Proof.
  induction l as [|u l IH]; [apply writes_only_ret |].
  unfold find_user in *. simpl.
  eapply writes_only_bind with (a := matches c u).
  - unfold find_callback. eapply writes_only_bind; [| apply writes_only_ret].
    destruct (email_equal c u);
      [apply writes_only_console | apply (writes_only_ret tt)].
  - destruct (matches c u); [apply writes_only_ret | exact IH].
Qed.

Lemma user_not_found_writes_only (c : FirebaseUser) (l : list User) :
  ∃ r, status r = 404 ∧ writes_only (user_not_found c l) r.
Proof.
  eexists. split; [| unfold user_not_found;
    repeat (eapply writes_only_bind;
            [first [apply writes_only_console
                   | apply writes_only_forEach; intros; apply writes_only_console] |]);
    apply writes_only_ret].
  reflexivity.
Qed.

(** ** Session exchange: the shape of every run *)

(** From the resolved user on: which calls are made, what is written to the
    store, and what a 200 answer looks like. *)
Lemma exchange_for_user_run (env : Env) (user : User) (w : World)
    (out : Outcome Response) (w' : World) :
  exchange_for_user env user w = (out, w') →
  (∃ extra,
      calls w' = calls w ++ CallGenerateLink (user_email user) :: extra
      ∧ ((extra = [] ∧ users w' = users w)
         ∨ (extra = [CallUpdateUserById (user_id user) (exchange_attrs env user)]
            ∧ (users w' = users w
               ∨ users w' = update_record (user_id user)
                               (exchange_attrs env user) <$> users w))))
  ∧ ∀ r, out = Returned r → status r = 200 →
      (r = fallback_response user
       ∧ ∃ link, generate_link env (user_email user) = inl link
                 ∧ link_unusable link)
      ∨ carries_session user r.
Proof.
  unfold exchange_for_user, link_search_params, track_exchange,
    exchange_fallback, carries_session, nonempty_string, link_unusable.
  unfold_monad. cbn. intros H. split_cases.
  all: split; [eexists; rewrite <- ?app_assoc; split; [reflexivity | cbn; tauto] |].
  all: intros r Hr Hst; simplify_eq; cbn in *; try done.
  all: try (left; split; [reflexivity |]; eexists; split; [reflexivity |];
            first [left; congruence | right; assumption]).
  all: right;
    match goal with
    | Hb : negb (truthy_str ?a) || negb (truthy_str ?b) = false |- _ =>
        apply orb_false_elim in Hb as [Ha Hb];
        apply negb_false_iff, truthy_str_nonempty in Ha as (x & Hx & Hxne);
        apply negb_false_iff, truthy_str_nonempty in Hb as (y & Hy & Hyne);
        rewrite Hx, Hy
    end; cbn; eauto 10.
Qed.


(** From the verified claims on: either the request ends without a 200
    answer and without touching the store, or the first matching record of
    the listed page is handed to [exchange_for_user]. *)
Lemma exchange_for_claims_run (env : Env) (c : FirebaseUser) (w : World)
    (out : Outcome Response) (w' : World) :
  exchange_for_claims env c w = (out, w') →
  (users w' = users w
   ∧ calls w' = calls w ++ [CallListUsers None]
   ∧ ∀ r, out = Returned r → status r ≠ 200)
  ∨ ∃ user w0,
      find_user c (first_page env (users w)) = Some user
      ∧ users w0 = users w
      ∧ calls w0 = calls w ++ [CallListUsers None]
      ∧ exchange_for_user env user w0 = (out, w').
Proof.
  unfold exchange_for_claims, first_page. unfold_monad. cbn.
  destruct (list_users_fault env) as [[e|e]|]; cbn.
  - intros H. simplify_eq. left. cbn. split; [done | split; [done |]].
    by intros ? [= <-].
  - intros H. simplify_eq. left. cbn. split; [done | split; [done |]].
    by intros ? [= <-].
  - match goal with
    | |- context [log_first_users ?l ?w0] =>
        destruct (log_first_users_writes_only l w0) as [lines1 ->]
    end.
    match goal with
    | |- context [users_find c ?l ?w0] =>
        destruct (users_find_writes_only c l w0) as [lines2 ->]
    end.
    cbn. destruct (find_user c _) as [user|] eqn:Hfind.
    + intros H. right. eexists _, _. split; [reflexivity |].
      split; [| split; [| exact H]]; reflexivity.
    + destruct (user_not_found_writes_only c
                  (page_of 1 (default_per_page env) (users w)))
        as (r & Hr & Hrun).
      match goal with
      | |- context [user_not_found c ?l ?w0] =>
          destruct (Hrun w0) as [lines3 ->]
      end.
      intros H. simplify_eq. left. cbn. split; [done | split; [done |]].
      intros ? [= <-]. rewrite Hr. done.
Qed.

(** The body of the [try] block: before the claims are verified nothing
    but the verification call happens. *)
Lemma exchange_try_run (env : Env) (req : Request) (w : World)
    (out : Outcome Response) (w' : World) :
  exchange_try env req w = (out, w') →
  (users w' = users w
   ∧ (∀ c, In c (calls w') → In c (calls w) ∨ ∃ t, c = CallTokenVerify t)
   ∧ ∀ r, out = Returned r → status r ≠ 200)
  ∨ ∃ c w0,
      verified_claims env req c
      ∧ users w0 = users w
      ∧ calls w0 = calls w ++ [CallTokenVerify (posted_token req)]
      ∧ exchange_for_claims env c w0 = (out, w').
Proof.
  unfold exchange_try, verified_claims, posted_token. unfold_monad. cbn.
  intros H. split_cases.
  all: try (left; split; [done | split; [| by intros ? [= <-]]];
            intros c Hc; rewrite ?in_app_iff in Hc; cbn in Hc;
            intuition (subst; eauto)).
  all: right; eexists _, _; split; [| split; [| split; [| eassumption]]];
    [| done | done].
  all: eexists; split; [eassumption | split; [| eassumption]].
  all: by apply negb_false_iff.
Qed.

(** Every handler answers: an exception of the [try] block is turned into
    a 500 response. *)
Lemma try_catch_unexpected (title : string) (m : M Response) (w : World) :
  ∃ r w', try_catch m (unexpected_error title) w = (Returned r, w')
    ∧ users w' = users (m w).2
    ∧ calls w' = calls (m w).2
    ∧ ((m w).1 = Returned r ∨ ∃ e, (m w).1 = Thrown e ∧ status r = 500).
Proof.
  unfold_monad. destruct (m w) as [[r|e] w1]; cbn; eauto 10.
Qed.

Lemma exchange_firebase_session_returns (env : Env) (req : Request) (w : World) :
  ∃ r w', exchange_firebase_session env req w = (Returned r, w').
Proof.
  unfold exchange_firebase_session. destruct (String.eqb _ _).
  - by eexists _, _.
  - destruct (try_catch_unexpected "Internal server error"
                (exchange_try env req) w) as (r & w' & -> & _). eauto.
Qed.

(** The whole handler, from a fresh world: what a 200 answer is, and what
    was written. *)
Lemma exchange_firebase_session_run (env : Env) (req : Request)
    (us : list User) (r : Response) (w' : World) :
  exchange_firebase_session env req (fresh us) = (Returned r, w') →
  req_method req ≠ "OPTIONS" →
  (status r ≠ 200 ∧ users w' = us ∧ Forall (λ c, is_update c = false) (calls w'))
  ∨ ∃ c user,
      verified_claims env req c
      ∧ find_user c (first_page env us) = Some user
      ∧ (status r = 200 →
           (r = fallback_response user
            ∧ ∃ link, generate_link env (user_email user) = inl link
                      ∧ link_unusable link)
           ∨ carries_session user r)
      ∧ Forall (λ c, is_update c = true →
                     c = CallUpdateUserById (user_id user) (exchange_attrs env user))
          (calls w')
      ∧ (users w' = us
         ∨ users w' = update_record (user_id user) (exchange_attrs env user) <$> us).
Proof.
  unfold exchange_firebase_session. intros Hrun Hmethod.
  apply String.eqb_neq in Hmethod. rewrite Hmethod in Hrun.
  destruct (try_catch_unexpected "Internal server error"
              (exchange_try env req) (fresh us)) as (r0 & w0 & Htc & Hus & Hcs & Hout).
  rewrite Htc in Hrun. simplify_eq.
  destruct (exchange_try env req (fresh us)) as [out w1] eqn:Htry. cbn in *.
  apply exchange_try_run in Htry
    as [(Hu & Hc & Hst) | (c & w2 & Hver & Hu2 & Hc2 & Hclaims)].
  { left. rewrite Hus, Hcs. split; [| split; [done |]].
    - destruct Hout as [-> | (e & -> & ->)]; [by apply Hst | done].
    - apply List.Forall_forall. intros call Hin.
      destruct (Hc call Hin) as [[] | [t ->]]. done. }
  apply exchange_for_claims_run in Hclaims
    as [(Hu & Hc & Hst) | (user & w3 & Hfind & Hu3 & Hc3 & Huser)].
  { left. rewrite Hus, Hcs, Hu, Hc, Hu2, Hc2. split; [| split; [done |]].
    - destruct Hout as [-> | (e & -> & ->)]; [by apply Hst | done].
    - cbn. repeat constructor. }
  right. exists c, user. rewrite Hu2 in Hfind.
  split; [exact Hver | split; [exact Hfind |]].
  apply exchange_for_user_run in Huser as [(extra & Hcalls & Hextra) H200].
  rewrite Hus, Hcs, Hcalls, Hc3, Hc2, Hu3, Hu2 in *. cbn in *.
  split; [| split].
  - intros Hst. destruct Hout as [-> | (e & -> & Hst')]; [by apply H200 |].
    rewrite Hst' in Hst. done.
  - destruct Hextra as [[-> _] | [-> _]]; repeat constructor; done.
  - destruct Hextra as [[_ ->] | [_ [-> | ->]]]; auto.
Qed.

(** C2, amended: for every exchange-session request other than a CORS
    preflight, if the response status is 200 then the posted token was
    verified, its claims resolved to a stored user, and either the body
    carries a non-empty access token, a non-empty refresh token and that
    user's id and e-mail address, or the magic link could not be generated
    and the body is the fallback answer: that user's id and e-mail address
    and no session token. *)
Theorem exchange_ok_response (env : Env) (req : Request) (us : list User)
    (r : Response) (w' : World) :
  exchange_firebase_session env req (fresh us) = (Returned r, w') →
  req_method req ≠ "OPTIONS" →
  status r = 200 →
  ∃ c user,
    verified_claims env req c
    ∧ find_user c (first_page env us) = Some user
    ∧ (carries_session user r
       ∨ (r = fallback_response user
          ∧ body_field "access_token" r = None
          ∧ body_field "refresh_token" r = None
          ∧ ∃ link, generate_link env (user_email user) = inl link
                    ∧ link_unusable link)).
Proof.
  intros Hrun Hmethod Hst.
  destruct (exchange_firebase_session_run env req us r w' Hrun Hmethod)
    as [(Hne & _) | (c & user & Hver & Hfind & H200 & _)]; [done |].
  exists c, user. split; [exact Hver | split; [exact Hfind |]].
  destruct (H200 Hst) as [[-> Hlink] | Hsession]; [right | by left].
  by repeat split.
Qed.

(** ** The metadata written on an exchange *)

Lemma metadata_key_default (k : string) (u : User) :
  default ∅ (user_metadata u) !! k = metadata_key k u.
Proof. unfold metadata_key. destruct (user_metadata u); [done | apply lookup_empty]. Qed.

(** The spread keeps every key but the timestamp. *)
Lemma exchange_metadata_other (env : Env) (u : User) (k : string) :
  k ≠ last_exchange_key → exchange_metadata env u !! k = metadata_key k u.
Proof.
  intros Hk. unfold exchange_metadata.
  rewrite lookup_insert_ne; [apply metadata_key_default | done].
Qed.

Lemma exchange_metadata_timestamp (env : Env) (u : User) :
  exchange_metadata env u !! last_exchange_key = Some (JStr (now env)).
Proof. unfold exchange_metadata. apply lookup_insert_eq. Qed.

(** Writing it on the record it was read from keeps them as well. *)
Lemma apply_exchange_attrs_other (env : Env) (u : User) (k : string) :
  k ≠ last_exchange_key →
  metadata_key k (apply_attrs (exchange_attrs env u) u) = metadata_key k u.
Proof.
  intros Hk. unfold apply_attrs, exchange_attrs, metadata_key at 1. cbn.
  rewrite lookup_union, exchange_metadata_other, metadata_key_default by done.
  by destruct (metadata_key k u).
Qed.

Lemma update_record_same (env : Env) (u : User) :
  update_record (user_id u) (exchange_attrs env u) u
  = apply_attrs (exchange_attrs env u) u.
Proof. unfold update_record. by rewrite String.eqb_refl. Qed.

Lemma find_user_In (c : FirebaseUser) (l : list User) (u : User) :
  find_user c l = Some u → In u l.
Proof. intros H. by apply List.find_some in H as [H _]. Qed.

Lemma page_of_In (page perPage : nat) (l : list User) (u : User) :
  In u (page_of page perPage l) → In u l.
Proof.
  unfold page_of. intros H.
  rewrite <- (take_drop ((page - 1) * perPage) l), in_app_iff. right.
  rewrite <- (take_drop perPage (drop _ l)), in_app_iff. by left.
Qed.

(** C10: whenever the session-exchange handler calls [updateUserById], it
    does so on the resolved record of the store, and the metadata it writes
    is that record's [user_metadata] with [last_firebase_session_exchange]
    set to the current time: every other key of the written object, and
    hence of the stored record after the write, is the one the record had;
    in particular the [fbuser] snapshot is unchanged, as are the id, the
    e-mail address and the native password. *)
Theorem exchange_update_keeps_metadata (env : Env) (req : Request)
    (us : list User) (r : Response) (w' : World) (id : string)
    (attrs : UpdateAttrs) :
  exchange_firebase_session env req (fresh us) = (Returned r, w') →
  In (CallUpdateUserById id attrs) (calls w') →
  ∃ user,
    In user us
    ∧ id = user_id user
    ∧ attr_password attrs = None
    ∧ attr_user_metadata attrs
      = Some (<[ last_exchange_key := JStr (now env) ]>
                (default ∅ (user_metadata user)))
    ∧ (∀ k, k ≠ last_exchange_key →
            exchange_metadata env user !! k = metadata_key k user)
    ∧ ∀ i, us !! i = Some user →
        ∃ user', users w' !! i = Some user'
          ∧ user_id user' = user_id user
          ∧ user_email user' = user_email user
          ∧ user_password user' = user_password user
          ∧ fbuser_of user' = fbuser_of user
          ∧ ∀ k, k ≠ last_exchange_key →
                 metadata_key k user' = metadata_key k user.
Proof.
  intros Hrun Hcall.
  destruct (String.eqb (req_method req) "OPTIONS") eqn:Hmethod.
  { unfold exchange_firebase_session in Hrun. rewrite Hmethod in Hrun.
    cbv in Hrun. simplify_eq. destruct Hcall. }
  apply String.eqb_neq in Hmethod.
  destruct (exchange_firebase_session_run env req us r w' Hrun Hmethod)
    as [(_ & _ & Hnone) | (c & user & _ & Hfind & _ & Hupd & Hstore)].
  { rewrite List.Forall_forall in Hnone. by specialize (Hnone _ Hcall). }
  rewrite List.Forall_forall in Hupd. specialize (Hupd _ Hcall eq_refl).
  simplify_eq. exists user.
  split; [eapply page_of_In, find_user_In, Hfind |].
  split; [done | split; [done | split; [done |]]].
  split; [intros k Hk; by apply exchange_metadata_other |].
  intros i Hi. destruct Hstore as [-> | ->].
  - exists user. by repeat split.
  - rewrite list_lookup_fmap, Hi. cbn. rewrite update_record_same.
    eexists. split; [reflexivity |]. repeat split; try done.
    + apply apply_exchange_attrs_other. done.
    + intros k Hk. by apply apply_exchange_attrs_other.
Qed.

(** ** Tracking is observational *)

(** The tracking step never throws and never fails the request; only a
    thrown failure reaches its [catch] and is written as a warning. *)
Lemma track_exchange_swallows (env : Env) (user : User) (w : World) :
  ∃ w', track_exchange env user w = (Returned tt, w')
    ∧ (∀ e, update_user_fault env (user_id user) = Some (Exception e) →
            failure_logged w' = true)
    ∧ (∀ e, update_user_fault env (user_id user) = Some (ErrorResult e) →
            console w'
            = console w ++ [mkLogLine LevelLog
                              [JStr "📊 Tracked session exchange for user:";
                               JStr (user_id user)]]).
Proof.
  unfold track_exchange. unfold_monad. cbn.
  destruct (update_user_fault env (user_id user)) as [[e|e]|]; cbn.
  - eexists. split; [reflexivity |]. split; [done |]. by intros ? [= <-].
  - eexists. split; [reflexivity |]. split; [| done]. intros ? _.
    unfold failure_logged. cbn. rewrite existsb_app. cbn. apply orb_true_r.
  - destruct (existsb _ _); cbn; eexists; (split; [reflexivity | done]).
Qed.

(** ** The magic link and the console *)

(** Whatever happens afterwards, redeeming a generated link starts by
    writing the link to the console, as it is. *)
Lemma redeem_link_logs_link (env : Env) (otpData : LinkData) (link : string)
    (w : World) :
  properties_action_link otpData = Some link →
  logged link (redeem_link env otpData w).2 = true.
Proof.
  intros Hlink. unfold redeem_link, logged. rewrite Hlink. unfold_monad.
  cbn. split_cases.
  all: apply existsb_exists;
    exists (mkLogLine LevelLog [JStr "Full action link:"; JStr link]);
    (split; [rewrite !in_app_iff; cbn; auto 10 |]);
    cbn; rewrite String.eqb_refl; by rewrite !orb_true_r.
Qed.

(** ** Failures of the claims-verification service *)

(** C4, amended: for every exchange-session request that posts a token, in
    either variant of the handler, a transport failure of the
    claims-verification service yields a 500 response and a non-success
    HTTP response from it, whatever its status, yields the 401 response of
    a rejected token.  In neither case is the token treated as valid: the
    verification call is the only call made, no user is looked up, no link
    is generated and the store is unchanged. *)
Theorem verification_failure_never_valid (env : Env) (req : Request)
    (us : list User) (handler : Env → Request → M Response) :
  handler = exchange_firebase_session ∨ handler = exchange_firebase_session_otp →
  req_method req ≠ "OPTIONS" →
  truthy (opt_field "firebaseToken" (req_json req)) = true →
  (∀ resp, token_verify_service env (posted_token req) = Responded resp →
           resp_ok resp = false) →
  ∃ r w',
    handler env req (fresh us) = (Returned r, w')
    ∧ users w' = us
    ∧ calls w' = [CallTokenVerify (posted_token req)]
    ∧ match token_verify_service env (posted_token req) with
      | NetworkError _ => status r = 500
      | Responded _ => status r = 401
      end.
Proof.
  intros Hh Hmethod Htoken Hfail. apply String.eqb_neq in Hmethod.
  unfold posted_token in *.
  destruct (req_json req) as [payload|] eqn:Hjson; [| discriminate].
  destruct payload; try discriminate. cbn in Htoken, Hfail.
  destruct Hh as [-> | ->];
    unfold exchange_firebase_session, exchange_firebase_session_otp,
      exchange_try, exchange_otp_try;
    rewrite Hmethod; unfold_monad; rewrite Hjson; cbn; rewrite Htoken; cbn;
    (destruct (token_verify_service env _) as [e|resp] eqn:Hsvc; cbn;
     [by eexists _, _ |]);
    rewrite (Hfail resp eq_refl); cbn; by eexists _, _.
Qed.

(** ** Password login with lazy migration *)


Lemma find_some_any {A : Type} (f : A → bool) (l : list A) (x : A) :
  In x l → f x = true → is_Some (List.find f l).
Proof.
  intros Hin Hx. destruct (List.find f l) eqn:Hfind; [by eexists |].
  rewrite (List.find_none _ _ Hfind x Hin) in Hx. discriminate.
Qed.


Lemma migrate_firebase_password_returns (env : Env) (req : Request) (w : World) :
  ∃ r w', migrate_firebase_password env req w = (Returned r, w').
Proof.
  unfold migrate_firebase_password. destruct (String.eqb _ _).
  - by eexists _, _.
  - destruct (try_catch_unexpected "Internal server error"
                (migrate_try env req) w) as (r & w' & -> & _). eauto.
Qed.






(** Steps 4 and 5 call the store only. *)
Lemma migrate_and_login_run (env : Env) (user : User) (email password : json)
    (w : World) (out : Outcome Response) (w' : World) :
  migrate_and_login env user email password w = (out, w') →
  ∃ extra,
    calls w' = calls w ++ extra
    ∧ Forall (λ c, is_password_verify c = false) extra.
Proof.
  unfold migrate_and_login. unfold_monad. cbn. intros H. split_cases.
  all: eexists; rewrite <- ?app_assoc; (split; [reflexivity |]);
    repeat constructor.
Qed.

(** Steps 2 and 3: either the credential-verification service is not
    called, or it is called once and does not confirm, which ends the
    request, or it confirms and the migration goes on. *)
Lemma check_firebase_password_run (env : Env) (email password : json)
    (w : World) (out : Outcome Response) (w' : World) :
  check_firebase_password env email password w = (out, w') →
  (calls w' = calls w ++ [CallListUsers None])
  ∨ ∃ user,
      let verify := CallPasswordVerify (shown (passwordSalt user))
                      (shown (passwordHash user)) password in
      let answer := password_verify_service env (shown (passwordSalt user))
                      (shown (passwordHash user)) password in
      (calls w' = calls w ++ [CallListUsers None; verify]
       ∧ users w' = users w
       ∧ ((∃ e, answer = NetworkError e ∧ out = Thrown e)
          ∨ (∃ resp, answer = Responded resp ∧ out = Returned credential_mismatch)))
      ∨ (confirms answer
         ∧ ∃ extra, calls w' = calls w ++ [CallListUsers None; verify] ++ extra
                    ∧ Forall (λ c, is_password_verify c = false) extra).
Proof.
  unfold check_firebase_password, find_by_email. unfold_monad. cbn.
  intros H. split_cases.
  all: try (left; by rewrite <- ?app_assoc).
  all: right; eexists; cbn.
  all: try (left; rewrite <- ?app_assoc; split; [reflexivity |];
            split; [reflexivity |]; eauto; fail).
  all: right;
    match goal with
    | H : migrate_and_login _ _ _ _ _ = _ |- _ =>
        apply migrate_and_login_run in H as (extra & Hcalls & Hextra)
    end; cbn in *; rewrite <- ?app_assoc in *; cbn in *.
  all: split; [eexists; split; [eassumption |];
               match goal with
               | H : negb (String.eqb _ "valid") = false |- _ =>
                   by apply negb_false_iff, String.eqb_eq in H
               end |].
  all: eexists; split; [eassumption | assumption].
Qed.

(** The body of the [try] block of the password login. *)
Lemma migrate_try_run (env : Env) (req : Request) (us : list User)
    (out : Outcome Response) (w' : World) :
  migrate_try env req (fresh us) = (out, w') →
  Forall (λ c, is_password_verify c = false) (calls w')
  ∨ ∃ salt hash password,
      let verify := CallPasswordVerify salt hash password in
      let answer := password_verify_service env salt hash password in
      (Forall (λ c, is_password_verify c = true → c = verify) (calls w')
       ∧ Forall (λ c, is_update c = false) (calls w')
       ∧ users w' = us
       ∧ ((∃ e, answer = NetworkError e ∧ out = Thrown e)
          ∨ (∃ resp, answer = Responded resp ∧ out = Returned credential_mismatch)))
      ∨ (confirms answer
         ∧ Forall (λ c, is_password_verify c = true → c = verify) (calls w')).
Proof.
  unfold migrate_try. unfold_monad. cbn. intros H. split_cases.
  all: try (left; repeat constructor; fail).
  all: match goal with
       | H : check_firebase_password _ _ _ _ = _ |- _ =>
           apply check_firebase_password_run in H
             as [Hcalls | (user & [(Hcalls & Husers & Hout) | (Hok & extra & Hcalls & Hextra)])]
       end; cbn in *.
  all: try (left; rewrite Hcalls; repeat constructor; fail).
  all: right; eexists _, _, _.
  all: first
    [ left; rewrite Hcalls, Husers; split; [repeat constructor; done |];
      split; [repeat constructor |]; split; [done | exact Hout]
    | right; split; [exact Hok |]; rewrite Hcalls; repeat constructor; try done;
      eapply Forall_impl; [exact Hextra |]; cbn; intros c -> ?; done ].
Qed.

(** C5: whenever a migrate-password request calls the
    credential-verification service and the call fails at transport level
    or answers anything other than ["valid"], the request fails without a
    session: the response is not a 200 and has no session, no
    [updateUserById] call is made and the store is unchanged.  A transport
    failure yields a 500 response; any other answer yields the 401
    "Invalid credentials" response. *)
Theorem verification_failure_fails_closed (env : Env) (req : Request)
    (us : list User) (salt hash password : json) :
  In (CallPasswordVerify salt hash password)
     (calls (migrate_firebase_password env req (fresh us)).2) →
  ¬ confirms (password_verify_service env salt hash password) →
  ∃ r w',
    migrate_firebase_password env req (fresh us) = (Returned r, w')
    ∧ status r ≠ 200
    ∧ body_field "session" r = None
    ∧ Forall (λ c, is_update c = false) (calls w')
    ∧ users w' = us
    ∧ match password_verify_service env salt hash password with
      | NetworkError _ => status r = 500 ∧ server_error r
      | Responded _ => r = credential_mismatch ∧ status r = 401
      end.
Proof.
  unfold migrate_firebase_password. intros Hcall Hfail.
  destruct (String.eqb (req_method req) "OPTIONS"); [destruct Hcall |].
  revert Hcall. unfold_monad.
  destruct (migrate_try env req (fresh us)) as [out w1] eqn:Htry.
  apply migrate_try_run in Htry
    as [Hnone | (s & h & p & [(Hone & Hupd & Husers & Hout) | (Hok & Hone)])];
    intros Hcall.
  - assert (Hin : In (CallPasswordVerify salt hash password) (calls w1))
      by (by destruct out).
    rewrite List.Forall_forall in Hnone. by specialize (Hnone _ Hin).
  - assert (Hin : In (CallPasswordVerify salt hash password) (calls w1))
      by (by destruct out).
    rewrite List.Forall_forall in Hone. specialize (Hone _ Hin eq_refl).
    simplify_eq. cbn in Hout.
    destruct Hout as [(e & -> & ->) | (resp & -> & ->)]; cbn.
    + eexists _, _. split; [reflexivity |]. cbn.
      repeat split; try done; unfold server_error; cbn; lia.
    + eexists _, _. split; [reflexivity |]. by repeat split.
  - assert (Hin : In (CallPasswordVerify salt hash password) (calls w1))
      by (by destruct out).
    rewrite List.Forall_forall in Hone. specialize (Hone _ Hin eq_refl).
    simplify_eq. done.
Qed.

(** Step 1: when the native login succeeds, the request is answered at
    once; the sign-in is its only call. *)
Lemma native_login_fast_path (env : Env) (us : list User)
    (email password : string) (u : User) :
  email ≠ "" → password ≠ "" →
  sign_in_fault env = None →
  List.find (credentials_match email password) us = Some u →
  migrate_firebase_password env (login_request email password) (fresh us)
  = (Returned (login_response (issue_session env u) false "Login successful"),
     mkWorld us [] [CallSignInWithPassword (JStr email) (JStr password)]).
Proof.
  intros He Hp Hsign Hfind. apply String.eqb_neq in He, Hp.
  run_login. rewrite He, Hp, Hsign. cbn. rewrite Hfind. reflexivity.
Qed.

(** The record after [updateUserById(id, { password })]. *)
Lemma migrated_record_matches (email password : string) (u : User) :
  has_email email u = true →
  credentials_match email password
    (update_record (user_id u) (mkUpdateAttrs None (Some (JStr password))) u)
  = true.
Proof.
  intros He. unfold update_record, credentials_match, apply_attrs, has_email in *.
  rewrite String.eqb_refl. cbn. rewrite He. cbn. apply String.eqb_refl.
Qed.



Lemma login_response_grants (s : Session) (migrated : bool) (message : string) :
  grants_session s (login_response s migrated message).
Proof. by split. Qed.


(** * Further properties of the code *)

(** ** The paginated lookup by e-mail address *)

Lemma find_app {A : Type} (p : A → bool) (l1 l2 : list A) :
  List.find p (l1 ++ l2)
  = match List.find p l1 with
    | Some x => Some x
    | None => List.find p l2
    end.
Proof. induction l1 as [|x l1 IH]; [done |]. simpl. by destruct (p x). Qed.

(** The loop over [remaining] pages from [page] on returns what a single
    [find] over those pages of the store returns, lists at most [remaining]
    pages, in order, and leaves the store and the console alone. *)
Lemma findUserByEmail_pages_run (env : Env) (email : string)
    (remaining page : nat) (w : World) :
  list_users_fault env = None →
  (1 ≤ page)%nat →
  ∃ count,
    (count ≤ remaining)%nat
    ∧ ((length (drop ((page - 1) * 1000) (users w)) < 1000)%nat →
       (count ≤ 1)%nat)
    ∧ findUserByEmail_pages env email remaining page w
      = (Returned (List.find (has_email email)
                     (take (remaining * 1000)
                        (drop ((page - 1) * 1000) (users w)))),
         mkWorld (users w) (console w) (calls w ++ page_calls page count)).
Proof.
  intros Hfault. revert page w.
  induction remaining as [|n IH]; intros page w Hpage.
  - exists 0%nat. split; [lia |]. split; [lia |]. cbn. rewrite app_nil_r.
    by destruct w.
  - set (rest := drop ((page - 1) * 1000) (users w)).
    assert (Hsplit : take (S n * 1000) rest
                     = take 1000 rest ++ take (n * 1000) (drop 1000 rest)).
    { replace (S n * 1000)%nat with (1000 + n * 1000)%nat by lia.
      by rewrite take_take_drop. }
    rewrite Hsplit, find_app. clear Hsplit.
    cbn [findUserByEmail_pages]. unfold_monad. rewrite Hfault. cbn.
    unfold page_of. fold rest.
    destruct (List.find (has_email email) (take 1000 rest)) as [u|] eqn:Hfind.
    + exists 1%nat. split; [lia |]. split; [lia |]. reflexivity.
    + destruct (Nat.leb_spec (length (take 1000 rest)) 999) as [Hshort | Hfull].
      * exists 1%nat. split; [lia |]. split; [lia |].
        rewrite length_take in Hshort.
        rewrite (drop_ge rest 1000) by lia. rewrite take_nil. reflexivity.
      * destruct (IH (S page)
                    (mkWorld (users w) (console w)
                       (calls w ++ [CallListUsers (Some (page, 1000%nat))])))
          as (count & Hcount & _ & Hrun); [lia |].
        exists (S count). split; [lia |].
        split; [rewrite length_take in Hfull; lia |]. rewrite Hrun. cbn [users console calls].
        subst rest. rewrite drop_drop.
        replace ((page - 1) * 1000 + 1000)%nat with ((S page - 1) * 1000)%nat by lia.
        unfold page_calls. cbn [seq fmap list_fmap]. by rewrite <- app_assoc.
Qed.

(** [findUserByEmail] returns the first record with the address among the
    first ten thousand records of the store, whatever lies beyond them; it
    lists at most ten pages, a single one when the store holds fewer than
    a thousand records, and does nothing else. *)
Theorem findUserByEmail_scans_ten_pages (env : Env) (email : string) (w : World) :
  list_users_fault env = None →
  ∃ count,
    (count ≤ 10)%nat
    ∧ ((length (users w) < 1000)%nat → (count ≤ 1)%nat)
    ∧ findUserByEmail env email w
      = (Returned (List.find (has_email email) (scanned (users w))),
         mkWorld (users w) (console w) (calls w ++ page_calls 1 count)).
Proof.
  intros Hfault.
  destruct (findUserByEmail_pages_run env email 10 1 w Hfault)
    as (count & Hcount & Hshort & Hrun); [lia |].
  exists count. split; [exact Hcount |]. split; [exact Hshort |]. exact Hrun.
Qed.

(** A failing [listUsers] makes the lookup throw after that one call,
    whether the failure is reported in the result or thrown. *)
Lemma findUserByEmail_listing_fault (env : Env) (email : string) (w : World)
    (fault : Fault) :
  list_users_fault env = Some fault →
  ∃ e, findUserByEmail env email w
       = (Thrown e,
          mkWorld (users w) (console w)
            (calls w ++ [CallListUsers (Some (1%nat, 1000%nat))])).
Proof.
  intros Hfault. unfold findUserByEmail. cbn [findUserByEmail_pages].
  unfold_monad. rewrite Hfault. destruct fault; cbn; by eexists.
Qed.

(** ** Session exchange through [verifyOtp]: the shape of every run *)

(** Whatever [listUsers] answers, the lookup only lists. *)
Lemma findUserByEmail_pages_only_lists (env : Env) (email : string)
    (remaining page : nat) (w : World) :
  ∃ extra,
    (findUserByEmail_pages env email remaining page w).2
    = mkWorld (users w) (console w) (calls w ++ extra)
    ∧ Forall (λ c, is_list_users c = true) extra
    ∧ ∀ u, (findUserByEmail_pages env email remaining page w).1
           = Returned (Some u) →
           In u (users w) ∧ has_email email u = true.
Proof.
  revert page w. induction remaining as [|n IH]; intros page w.
  - exists []. cbn. rewrite app_nil_r. split; [by destruct w |]. split; [done |].
    intros u [=].
  - cbn [findUserByEmail_pages]. unfold_monad.
    destruct (list_users_fault env) as [[e|e]|]; cbn.
    + exists [CallListUsers (Some (page, 1000%nat))].
      split; [done |]. split; [by repeat constructor | intros u [=]].
    + exists [CallListUsers (Some (page, 1000%nat))].
      split; [done |]. split; [by repeat constructor | intros u [=]].
    + destruct (List.find (has_email email) (page_of page 1000 (users w)))
        as [u|] eqn:Hfind; cbn.
      * exists [CallListUsers (Some (page, 1000%nat))].
        split; [done |]. split; [by repeat constructor |].
        intros u' [= <-]. apply List.find_some in Hfind as [Hin He].
        split; [by eapply page_of_In | done].
      * destruct (length (page_of page 1000 (users w)) <=? 999)%nat; cbn.
        -- exists [CallListUsers (Some (page, 1000%nat))].
           split; [done |]. split; [by repeat constructor | intros u [=]].
        -- destruct (IH (S page)
                       (mkWorld (users w) (console w)
                          (calls w ++ [CallListUsers (Some (page, 1000%nat))])))
             as (extra & Hw & Hextra & Hfound).
           exists (CallListUsers (Some (page, 1000%nat)) :: extra).
           rewrite Hw. cbn. rewrite <- app_assoc. split; [done |].
           split; [by constructor | exact Hfound].
Qed.

(** From the generated link on: at most one call, [verifyOtp], with the
    token and the type read off the link; a 200 answer carries the session
    and the user that [verifyOtp] returned. *)
Lemma redeem_link_run (env : Env) (otpData : LinkData) (w : World)
    (out : Outcome Response) (w' : World) :
  redeem_link env otpData w = (out, w') →
  users w' = users w
  ∧ (calls w' = calls w
     ∨ ∃ link params,
         properties_action_link otpData = Some link
         ∧ url_search_params env link = Some params
         ∧ truthy_str (link_token params) = true
         ∧ calls w' = calls w ++ [CallVerifyOtp (link_type params) (link_token params)])
  ∧ ∀ r, out = Returned r → status r = 200 →
      ∃ link params session id email,
        properties_action_link otpData = Some link
        ∧ url_search_params env link = Some params
        ∧ verify_otp env (link_type params) (link_token params)
          = inl (mkOtpResult (Some session) (Some (id, email)) None)
        ∧ r = otp_success session id email.
Proof.
  unfold redeem_link, link_token, link_type, otp_success. unfold_monad. cbn.
  intros H. split_cases.
  all: split; [done |].
  all: rewrite ?negb_true_iff, ?negb_false_iff in *.
  all: split; [try (by left) |].
  all: try (right; eexists _, _; split; [reflexivity |];
            split; [eassumption |]; rewrite <- ?app_assoc;
            use_eqs; cbn; use_eqs; cbn; split; done).
  all: intros r Hr Hst; simplify_eq; cbn in *; try done.
  all: match goal with
       | H : verify_otp _ _ _ = inl ?o |- _ => destruct o as [? ? ?]
       end; cbn in *; simplify_eq.
  all: eexists _, _, _, _, _; split; [reflexivity |]; split; [eassumption |].
  all: use_eqs; cbn; use_eqs; cbn; split; reflexivity.
Qed.

Lemma findUserByEmail_only_lists (env : Env) (email : string) (w : World)
    (out : Outcome (option User)) (w' : World) :
  findUserByEmail env email w = (out, w') →
  ∃ extra,
    w' = mkWorld (users w) (console w) (calls w ++ extra)
    ∧ Forall (λ c, is_list_users c = true) extra
    ∧ ∀ u, out = Returned (Some u) → In u (users w) ∧ has_email email u = true.
Proof.
  intros H. unfold findUserByEmail in H.
  destruct (findUserByEmail_pages_only_lists env email 10 1 w)
    as (extra & Hw & Hextra & Hfound).
  rewrite H in Hw, Hfound. cbn in Hw, Hfound. by exists extra.
Qed.

Lemma not_update_of_list (extra : list Call) :
  Forall (λ c, is_list_users c = true) extra →
  Forall (λ c, is_update c = false) extra.
Proof. intros H. eapply Forall_impl; [exact H |]. by intros []. Qed.

(** The body of the [try] block of the [verifyOtp] variant. *)
Lemma exchange_otp_try_run (env : Env) (req : Request) (w : World)
    (out : Outcome Response) (w' : World) :
  exchange_otp_try env req w = (out, w') →
  users w' = users w
  ∧ (∃ extra, calls w' = calls w ++ extra
              ∧ Forall (λ c, is_update c = false) extra)
  ∧ ∀ r, out = Returned r → status r = 200 →
      ∃ c email user link params session id user_email',
        verified_claims env req c
        ∧ fb_email c = Some email
        ∧ In user (users w) ∧ has_email email user = true
        ∧ generate_link env (user_email user)
          = inl (mkLinkResult (Some (mkLinkData (Some link))) None)
        ∧ url_search_params env link = Some params
        ∧ verify_otp env (link_type params) (link_token params)
          = inl (mkOtpResult (Some session) (Some (id, user_email')) None)
        ∧ r = otp_success session id user_email'.
Proof.
  unfold exchange_otp_try, verified_claims, posted_token. unfold_monad. cbn.
  intros H. split_cases.
  all: repeat match goal with
       | H : findUserByEmail _ _ _ = _ |- _ =>
           apply findUserByEmail_only_lists in H
             as (pages & -> & Hpages%not_update_of_list & Hfound)
       | H : redeem_link _ _ _ = _ |- _ =>
           apply redeem_link_run in H as (Husers & Hcalls & H200)
       end; cbn in *.
  all: split; [first [done | by rewrite Husers] |].
  all: split;
    [ try (destruct Hcalls as [-> | (? & ? & _ & _ & _ & ->)]);
      first
        [ exists []; rewrite app_nil_r; split; [reflexivity | constructor]
        | eexists; rewrite <- ?app_assoc; (split; [reflexivity |]);
          rewrite ?Forall_app, ?Forall_cons; cbn; repeat split; try done;
          by constructor ]
    | ].
  all: intros r Hr Hst; simplify_eq; cbn in *; try done.
  all: destruct (H200 _ eq_refl Hst)
         as (link & params & session & id & uemail & Hlink & Hparams & Hotp & ->).
  all: destruct (Hfound _ eq_refl) as [Hin Hemail].
  all: match goal with
       | H : generate_link _ _ = inl ?a |- _ => destruct a as [? ?]
       end; cbn in *; simplify_eq.
  all: match goal with
       | l : LinkData |- _ => destruct l as [?]
       end; cbn in *; simplify_eq.
  all: eexists _, _, _, _, _, _, _, _.
  all: split; [eexists; split; [eassumption |];
               split; [by apply negb_false_iff | eassumption] |].
  all: split; [eassumption |]. all: split; [eassumption |].
  all: split; [eassumption |]. all: split; [eassumption |].
  all: split; [eassumption |]. all: split; [eassumption | reflexivity].
Qed.

(** The [verifyOtp] variant never writes to the user store: on every
    request, whatever the collaborators answer, the store is left as it was
    and [updateUserById] is not called, so this variant never records the
    exchange on the user record. *)
Theorem otp_exchange_never_writes (env : Env) (req : Request) (us : list User) :
  users (exchange_firebase_session_otp env req (fresh us)).2 = us
  ∧ Forall (λ c, is_update c = false)
      (calls (exchange_firebase_session_otp env req (fresh us)).2).
Proof.
  unfold exchange_firebase_session_otp.
  destruct (String.eqb (req_method req) "OPTIONS"); [by split |].
  destruct (try_catch_unexpected "Internal error" (exchange_otp_try env req)
              (fresh us)) as (r & w' & -> & Hus & Hcs & _).
  cbn [snd]. rewrite Hus, Hcs.
  destruct (exchange_otp_try env req (fresh us)) as [out w1] eqn:Htry.
  apply exchange_otp_try_run in Htry as (Husers & (extra & Hcalls & Hextra) & _).
  cbn. by rewrite Husers, Hcalls.
Qed.

(** Every 200 answer of the [verifyOtp] variant to a request other than a
    preflight comes from a verified token whose claims carry an e-mail
    address, a stored record with that address, a generated link, and a
    [verifyOtp] call made with the token and type read off the link
    ([token_hash] before [token], ["magiclink"] when the link has no type);
    the body carries the tokens of the session and the id and address of
    the user that [verifyOtp] returned. *)
Theorem otp_exchange_ok_response (env : Env) (req : Request) (us : list User)
    (r : Response) (w' : World) :
  exchange_firebase_session_otp env req (fresh us) = (Returned r, w') →
  req_method req ≠ "OPTIONS" →
  status r = 200 →
  ∃ c email user link params session id address,
    verified_claims env req c
    ∧ fb_email c = Some email
    ∧ In user us ∧ has_email email user = true
    ∧ generate_link env (user_email user)
      = inl (mkLinkResult (Some (mkLinkData (Some link))) None)
    ∧ url_search_params env link = Some params
    ∧ verify_otp env (link_type params) (link_token params)
      = inl (mkOtpResult (Some session) (Some (id, address)) None)
    ∧ body_field "access_token" r = Some (JStr (access_token session))
    ∧ body_field "refresh_token" r = Some (JStr (refresh_token session))
    ∧ body_field "user" r
      = Some (JObj (("id", JStr id) :: prop "email" (JStr <$> address))).
Proof.
  unfold exchange_firebase_session_otp. intros Hrun Hmethod Hst.
  apply String.eqb_neq in Hmethod. rewrite Hmethod in Hrun.
  destruct (try_catch_unexpected "Internal error" (exchange_otp_try env req)
              (fresh us)) as (r0 & w0 & Htc & _ & _ & Hout).
  rewrite Htc in Hrun. simplify_eq.
  destruct (exchange_otp_try env req (fresh us)) as [out w1] eqn:Htry.
  cbn in Hout. destruct Hout as [-> | (e & _ & Hst')]; [| congruence].
  apply exchange_otp_try_run in Htry as (_ & _ & H200).
  destruct (H200 r eq_refl Hst)
    as (c & email & user & link & params & session & id & address
        & Hc & He & Hin & Hemail & Hlink & Hparams & Hotp & ->).
  exists c, email, user, link, params, session, id, address.
  by repeat split.
Qed.

(** ** Session exchange, link-reading variant: following a request *)

Lemma user_not_found_response (c : FirebaseUser) (l : list User) :
  writes_only (user_not_found c l) (not_found_response c l).
Proof.
  unfold user_not_found, not_found_response.
  repeat (eapply writes_only_bind;
          [first [apply writes_only_console
                 | apply writes_only_forEach; intros; apply writes_only_console] |]).
  apply writes_only_ret.
Qed.

(** Once the claims are verified and the listing succeeds, the request is
    decided by the first matching record of the listed page. *)
Lemma exchange_for_claims_forward (env : Env) (c : FirebaseUser) (w : World) :
  list_users_fault env = None →
  ∃ lines,
    exchange_for_claims env c w
    = match find_user c (first_page env (users w)) with
      | Some user =>
          exchange_for_user env user
            (mkWorld (users w) (console w ++ lines)
               (calls w ++ [CallListUsers None]))
      | None =>
          (Returned (not_found_response c (first_page env (users w))),
           mkWorld (users w) (console w ++ lines)
             (calls w ++ [CallListUsers None]))
      end.
Proof.
  intros Hlist. unfold exchange_for_claims, first_page. unfold_monad.
  rewrite Hlist. cbn.
  match goal with
  | |- context [log_first_users ?l ?w0] =>
      destruct (log_first_users_writes_only l w0) as [lines1 ->]
  end.
  match goal with
  | |- context [users_find c ?l ?w0] =>
      destruct (users_find_writes_only c l w0) as [lines2 ->]
  end.
  cbn. destruct (find_user c _) as [user|] eqn:Hfind.
  - eexists. rewrite <- !app_assoc. reflexivity.
  - match goal with
    | |- context [user_not_found c ?l ?w0] =>
        destruct (user_not_found_response c l w0) as [lines3 ->]
    end.
    cbn. eexists. rewrite <- !app_assoc. reflexivity.
Qed.

(** A request with a verified token reaches the lookup. *)
Lemma exchange_try_forward (env : Env) (req : Request) (c : FirebaseUser)
    (w : World) :
  truthy (opt_field "firebaseToken" (req_json req)) = true →
  verified_claims env req c →
  exchange_try env req w
  = exchange_for_claims env c
      (mkWorld (users w)
         (console w ++ [mkLogLine LevelLog [JStr "Validating Firebase token..."]])
         (calls w ++ [CallTokenVerify (posted_token req)])).
Proof.
  intros Htoken (resp & Hsvc & Hok & Hclaims).
  unfold posted_token in *.
  destruct (req_json req) as [payload|] eqn:Hjson; [| discriminate].
  destruct payload; try discriminate.
  unfold exchange_try. unfold_monad. rewrite Hjson. cbn in *.
  rewrite Htoken. cbn. rewrite Hsvc. cbn. rewrite Hok. cbn.
  rewrite Hclaims. reflexivity.
Qed.

(** When the verified claims match no record of the listed page, the
    request is answered 404 after the verification and the listing; the
    body reports the searched subject id and address and the number of
    records listed, no link is generated and the store is unchanged. *)
Theorem unmatched_claims_answered_404 (env : Env) (req : Request)
    (us : list User) (c : FirebaseUser) :
  req_method req ≠ "OPTIONS" →
  truthy (opt_field "firebaseToken" (req_json req)) = true →
  verified_claims env req c →
  list_users_fault env = None →
  find_user c (first_page env us) = None →
  ∃ w',
    exchange_firebase_session env req (fresh us)
    = (Returned (not_found_response c (first_page env us)), w')
    ∧ status (not_found_response c (first_page env us)) = 404
    ∧ calls w' = [CallTokenVerify (posted_token req); CallListUsers None]
    ∧ users w' = us.
Proof.
  intros Hmethod Htoken Hver Hlist Hfind. apply String.eqb_neq in Hmethod.
  unfold exchange_firebase_session. rewrite Hmethod.
  unfold try_catch. rewrite (exchange_try_forward env req c _ Htoken Hver).
  destruct (exchange_for_claims_forward env c
              (mkWorld (users (fresh us))
                 (console (fresh us)
                  ++ [mkLogLine LevelLog [JStr "Validating Firebase token..."]])
                 (calls (fresh us) ++ [CallTokenVerify (posted_token req)]))
              Hlist) as [lines ->].
  cbn [users fresh]. rewrite Hfind. eexists. split; [reflexivity |]. by cbn.
Qed.

(** A request with a verified token and a resolved record is decided by
    [exchange_for_user]. *)
Lemma exchange_reaches_user (env : Env) (req : Request) (us : list User)
    (c : FirebaseUser) (user : User) :
  req_method req ≠ "OPTIONS" →
  truthy (opt_field "firebaseToken" (req_json req)) = true →
  verified_claims env req c →
  list_users_fault env = None →
  find_user c (first_page env us) = Some user →
  ∃ lines,
    exchange_firebase_session env req (fresh us)
    = try_catch (exchange_for_user env user)
        (unexpected_error "Internal server error")
        (mkWorld us lines
           [CallTokenVerify (posted_token req); CallListUsers None]).
Proof.
  intros Hmethod Htoken Hver Hlist Hfind. apply String.eqb_neq in Hmethod.
  unfold exchange_firebase_session. rewrite Hmethod.
  unfold try_catch. rewrite (exchange_try_forward env req c _ Htoken Hver).
  destruct (exchange_for_claims_forward env c
              (mkWorld (users (fresh us))
                 (console (fresh us)
                  ++ [mkLogLine LevelLog [JStr "Validating Firebase token..."]])
                 (calls (fresh us) ++ [CallTokenVerify (posted_token req)]))
              Hlist) as [lines ->].
  cbn [users fresh]. rewrite Hfind. by eexists.
Qed.

(** Without an e-mail address in the claims, only the subject id can match. *)
Lemma find_user_without_email (c : FirebaseUser) (l : list User) :
  truthy_str (fb_email c) = false →
  find_user c l = List.find (matchesUid c) l.
Proof.
  intros Hemail. unfold find_user. induction l as [|u l IH]; [done |]. simpl.
  unfold matches at 1, matchesEmail. rewrite Hemail, IH. cbn.
  by rewrite orb_false_r.
Qed.

(** The two variants disagree on verified claims that carry no e-mail
    address: the [verifyOtp] variant answers 400 right after the
    verification, without looking anybody up, while the link-reading
    variant resolves the record by the subject id alone and goes on to
    generate a link for it. *)
Theorem claims_without_email (env : Env) (req : Request) (us : list User)
    (c : FirebaseUser) (user : User) :
  req_method req ≠ "OPTIONS" →
  truthy (opt_field "firebaseToken" (req_json req)) = true →
  verified_claims env req c →
  truthy_str (fb_email c) = false →
  list_users_fault env = None →
  List.find (matchesUid c) (first_page env us) = Some user →
  (∃ w',
     exchange_firebase_session_otp env req (fresh us)
     = (Returned no_email_response, w')
     ∧ calls w' = [CallTokenVerify (posted_token req)]
     ∧ users w' = us)
  ∧ In (CallGenerateLink (user_email user))
       (calls (exchange_firebase_session env req (fresh us)).2).
Proof.
  intros Hmethod Htoken Hver Hemail Hlist Hfind. split.
  - destruct Hver as (resp & Hsvc & Hok & Hclaims).
    apply String.eqb_neq in Hmethod. unfold posted_token in *.
    destruct (req_json req) as [payload|] eqn:Hjson; [| discriminate].
    destruct payload; try discriminate.
    unfold exchange_firebase_session_otp, exchange_otp_try. rewrite Hmethod.
    unfold_monad. rewrite Hjson. cbn in *. rewrite Htoken. cbn.
    rewrite Hsvc. cbn. rewrite Hok. cbn. rewrite Hclaims.
    destruct (fb_email c) as [email|]; cbn in *; [rewrite Hemail |];
      by eexists.
  - rewrite <- find_user_without_email in Hfind by done.
    destruct (exchange_reaches_user env req us c user Hmethod Htoken Hver
                Hlist Hfind) as [lines ->].
    destruct (try_catch_unexpected "Internal server error"
                (exchange_for_user env user)
                (mkWorld us lines
                   [CallTokenVerify (posted_token req); CallListUsers None]))
      as (r & w' & -> & _ & Hcs & _).
    cbn [snd]. rewrite Hcs.
    destruct (exchange_for_user env user _) as [out w1] eqn:Hrun.
    apply exchange_for_user_run in Hrun as [(extra & Hcalls & _) _].
    cbn [snd]. rewrite Hcalls. cbn. auto.
Qed.

(** When the generated link cannot be read as a URL with a non-empty
    [access_token] and a non-empty [refresh_token], the link-reading
    variant answers 500; it does not call [updateUserById], so the exchange
    is not recorded, and the store is unchanged. *)
Theorem link_without_tokens_answered_500 (env : Env) (req : Request)
    (us : list User) (c : FirebaseUser) (user : User) (link : string) :
  req_method req ≠ "OPTIONS" →
  truthy (opt_field "firebaseToken" (req_json req)) = true →
  verified_claims env req c →
  list_users_fault env = None →
  find_user c (first_page env us) = Some user →
  generate_link env (user_email user)
  = inl (mkLinkResult (Some (mkLinkData (Some link))) None) →
  (∀ params, url_search_params env link = Some params →
             truthy_str (assoc "access_token" params) = false
             ∨ truthy_str (assoc "refresh_token" params) = false) →
  ∃ r w',
    exchange_firebase_session env req (fresh us) = (Returned r, w')
    ∧ status r = 500
    ∧ (is_Some (url_search_params env link) → r = no_tokens_response)
    ∧ calls w'
      = [CallTokenVerify (posted_token req); CallListUsers None;
         CallGenerateLink (user_email user)]
    ∧ users w' = us.
Proof.
  intros Hmethod Htoken Hver Hlist Hfind Hlink Hparams.
  destruct (exchange_reaches_user env req us c user Hmethod Htoken Hver
              Hlist Hfind) as [lines ->].
  unfold exchange_for_user, link_search_params. unfold_monad. rewrite Hlink.
  cbn. destruct (url_search_params env link) as [params|] eqn:Hurl; cbn.
  - assert (Hmissing : negb (truthy_str (assoc "access_token" params))
                       || negb (truthy_str (assoc "refresh_token" params)) = true).
    { destruct (Hparams params eq_refl) as [-> | ->]; cbn;
        [done | apply orb_true_r]. }
    rewrite Hmissing. cbn. eexists _, _. split; [reflexivity |]. by cbn.
  - eexists _, _. split; [reflexivity |]. cbn. repeat split; done.
Qed.

(** ** What an exchange writes *)

Lemma apply_exchange_attrs_timestamp (env : Env) (u : User) :
  metadata_key last_exchange_key (apply_attrs (exchange_attrs env u) u)
  = Some (JStr (now env)).
Proof.
  unfold apply_attrs, exchange_attrs, metadata_key. cbn.
  apply lookup_union_Some_l, exchange_metadata_timestamp.
Qed.

Lemma update_record_other (id : string) (attrs : UpdateAttrs) (u : User) :
  user_id u ≠ id → update_record id attrs u = u.
Proof. intros H. unfold update_record. by apply String.eqb_neq in H as ->. Qed.

Lemma listed_user_exists (env : Env) (c : FirebaseUser) (us : list User)
    (user : User) :
  find_user c (first_page env us) = Some user →
  existsb (λ u, String.eqb (user_id u) (user_id user)) us = true.
Proof.
  intros Hfind. apply existsb_exists. exists user.
  split; [eapply page_of_In, find_user_In, Hfind | apply String.eqb_refl].
Qed.

(** Whenever the link-reading variant gets an answer from [generateLink]
    that is either unusable or carries both session tokens, and the store
    accepts the update, the request is answered 200 and the resolved record
    is stamped: its [last_firebase_session_exchange] reads the current
    time afterwards, also on the fallback that issues no session.  Records
    with another id are left as they were. *)
Theorem exchange_stamps_resolved_record (env : Env) (req : Request)
    (us : list User) (c : FirebaseUser) (user : User) (link : LinkResult) :
  req_method req ≠ "OPTIONS" →
  truthy (opt_field "firebaseToken" (req_json req)) = true →
  verified_claims env req c →
  list_users_fault env = None →
  find_user c (first_page env us) = Some user →
  generate_link env (user_email user) = inl link →
  link_unusable link ∨ link_has_tokens env link →
  update_user_fault env (user_id user) = None →
  ∃ r w',
    exchange_firebase_session env req (fresh us) = (Returned r, w')
    ∧ status r = 200
    ∧ (∀ i, us !! i = Some user →
         ∃ user', users w' !! i = Some user'
           ∧ metadata_key last_exchange_key user' = Some (JStr (now env)))
    ∧ ∀ i u, us !! i = Some u → user_id u ≠ user_id user →
        users w' !! i = Some u.
Proof.
  intros Hmethod Htoken Hver Hlist Hfind Hlink Hshape Hupd.
  pose proof (listed_user_exists env c us user Hfind) as Hexists.
  destruct (exchange_reaches_user env req us c user Hmethod Htoken Hver
              Hlist Hfind) as [lines ->].
  assert (Hstore :
    (∀ i, us !! i = Some user →
       ∃ user', (update_record (user_id user) (exchange_attrs env user) <$> us) !! i
                = Some user'
         ∧ metadata_key last_exchange_key user' = Some (JStr (now env)))
    ∧ ∀ i u, us !! i = Some u → user_id u ≠ user_id user →
        (update_record (user_id user) (exchange_attrs env user) <$> us) !! i
        = Some u).
  { split.
    - intros i Hi. rewrite list_lookup_fmap, Hi. cbn.
      rewrite update_record_same. eexists. split; [reflexivity |].
      apply apply_exchange_attrs_timestamp.
    - intros i u Hi Hid. rewrite list_lookup_fmap, Hi. cbn.
      by rewrite update_record_other. }
  unfold exchange_for_user, link_search_params, track_exchange,
    exchange_fallback. unfold_monad. rewrite Hlink. cbn.
  destruct Hshape as [Hbad | (href & params & -> & Hurl & Hacc & Href)].
  - assert (Hfallback :
      match link_error link, link_data link with
      | None, Some _ => False
      | _, _ => True
      end).
    { destruct Hbad as [Herr | ->]; destruct (link_error link); try done. }
    destruct (link_error link) as [e|], (link_data link) as [d|];
      try done; cbn; rewrite Hupd; cbn; rewrite Hexists; cbn;
      eexists _, _; (split; [reflexivity |]); by cbn.
  - cbn. rewrite Hurl. cbn. rewrite Hacc, Href. cbn. rewrite Hupd. cbn.
    rewrite Hexists. cbn. eexists _, _. split; [reflexivity |]. by cbn.
Qed.

(** Recording an exchange on a record that already carries the stamp of an
    earlier one replaces the stamp and nothing else: the record is the one
    obtained by recording the later exchange alone. *)
Theorem exchange_stamp_overwrites (env1 env2 : Env) (u : User) :
  let stamped := apply_attrs (exchange_attrs env1 u) u in
  apply_attrs (exchange_attrs env2 stamped) stamped
  = apply_attrs (exchange_attrs env2 u) u.
Proof.
  cbv zeta. unfold apply_attrs, exchange_attrs. cbn. f_equal. f_equal.
  apply map_eq. intros k. unfold exchange_metadata. cbn.
  destruct (decide (k = last_exchange_key)) as [-> | Hk].
  - rewrite !lookup_union, !lookup_insert_eq.
    by destruct (default ∅ (user_metadata u) !! last_exchange_key).
  - rewrite !lookup_union, !lookup_insert_ne, !lookup_union, !lookup_insert_ne
      by done.
    by destruct (default ∅ (user_metadata u) !! k).
Qed.

(** ** Password login: the shape of every run *)

(** Steps 4 and 5: the store is either untouched or holds the new password
    on the record; a 200 answer says [migrated: true] and comes after the
    write. *)
Lemma migrate_and_login_shape (env : Env) (user : User) (email password : json)
    (w : World) (out : Outcome Response) (w' : World) :
  migrate_and_login env user email password w = (out, w') →
  (users w' = users w ∨ users w' = with_password (user_id user) password (users w))
  ∧ ∀ r, out = Returned r → status r = 200 →
      ∃ e p native,
        email = JStr e ∧ password = JStr p
        ∧ List.find (credentials_match e p) (users w') = Some native
        ∧ r = migrated_response (issue_session env native)
        ∧ users w' = with_password (user_id user) password (users w).
Proof.
  unfold migrate_and_login, with_password, password_attrs, migrated_response.
  unfold_monad. cbn. intros H. split_cases.
  all: split; [tauto |].
  all: intros r Hr Hst; simplify_eq; cbn in *; try done.
  all: eexists _, _, _; split; [reflexivity |]; split; [reflexivity |].
  all: split; [eassumption |]; by split.
Qed.

Lemma check_firebase_password_shape (env : Env) (email password : json)
    (w : World) (out : Outcome Response) (w' : World) :
  check_firebase_password env email password w = (out, w') →
  (users w' = users w
   ∨ ∃ user, In user (users w)
             ∧ users w' = with_password (user_id user) password (users w))
  ∧ ∀ r, out = Returned r → status r = 200 →
      ∃ user e p native,
        In user (first_page env (users w))
        ∧ email_is_of email user
        ∧ truthy (passwordHash user) = true
        ∧ truthy (passwordSalt user) = true
        ∧ confirms (password_verify_service env (shown (passwordSalt user))
                      (shown (passwordHash user)) password)
        ∧ email = JStr e ∧ password = JStr p
        ∧ List.find (credentials_match e p) (users w') = Some native
        ∧ r = migrated_response (issue_session env native)
        ∧ users w' = with_password (user_id user) password (users w).
Proof.
  unfold check_firebase_password, find_by_email, first_page, email_is_of,
    confirms. unfold_monad. cbn. intros H. split_cases.
  all: try (split; [by left | by intros r Hr Hst; simplify_eq]).
  all: match goal with
       | H : migrate_and_login _ _ _ _ _ = _ |- _ =>
           apply migrate_and_login_shape in H as (Hstore & H200)
       end; cbn in *.
  all: match goal with
       | Hp : page_of _ _ _ = ?u :: _, He : has_email _ ?u = true |- _ =>
           assert (Hin : In u (page_of 1 (default_per_page env) (users w)))
             by (rewrite Hp; by left);
           pose proof He as Hemail
       | Hp : page_of _ _ _ = _ :: ?l, Hf : List.find _ ?l = Some ?v |- _ =>
           apply List.find_some in Hf as [Hin0 Hemail];
           assert (Hin : In v (page_of 1 (default_per_page env) (users w)))
             by (rewrite Hp; by right)
       end.
  all: split;
    [ destruct Hstore as [-> | ->]; [by left |];
      right; eexists; split; [eapply page_of_In; eassumption | reflexivity]
    | ].
  all: intros r Hr Hst; simplify_eq.
  all: destruct (H200 _ eq_refl Hst)
         as (e0 & p0 & native & He0 & Hp0 & Hnative & -> & Husers).
  all: eexists _, e0, p0, native; split; [exact Hin |].
  all: split; [eexists; split; [reflexivity | exact Hemail] |].
  all: rewrite ?orb_false_iff, ?negb_false_iff in *.
  all: repeat match goal with H : _ ∧ _ |- _ => destruct H end.
  all: split; [assumption |]. all: split; [assumption |].
  all: split; [eexists; split; [eassumption |]; by apply String.eqb_eq |].
  all: by repeat split.
Qed.

Lemma migrate_try_shape (env : Env) (req : Request) (us : list User)
    (out : Outcome Response) (w' : World) :
  migrate_try env req (fresh us) = (out, w') →
  (users w' = us
   ∨ ∃ user, In user us
             ∧ users w' = with_password (user_id user) (posted_password req) us)
  ∧ ∀ r, out = Returned r → status r = 200 →
      ∃ e p native,
        posted_email req = JStr e ∧ posted_password req = JStr p
        ∧ List.find (credentials_match e p) (users w') = Some native
        ∧ ((r = native_response (issue_session env native)
            ∧ users w' = us
            ∧ calls w'
              = [CallSignInWithPassword (posted_email req) (posted_password req)])
           ∨ (∃ user,
                 In user (first_page env us)
                 ∧ email_is_of (posted_email req) user
                 ∧ truthy (passwordHash user) = true
                 ∧ truthy (passwordSalt user) = true
                 ∧ confirms (password_verify_service env
                               (shown (passwordSalt user))
                               (shown (passwordHash user)) (posted_password req))
                 ∧ r = migrated_response (issue_session env native)
                 ∧ users w'
                   = with_password (user_id user) (posted_password req) us)).
Proof.
  unfold migrate_try, posted_email, posted_password, native_response.
  unfold_monad. cbn. intros H. split_cases.
  all: try (split; [by left | by intros r Hr Hst; simplify_eq]).
  all: try (split; [by left |]; intros r Hr Hst; simplify_eq;
            use_eqs; cbn;
            eexists _, _, _; split; [reflexivity |]; split; [reflexivity |];
            split; [eassumption |]; left; by repeat split).
  all: match goal with
       | H : check_firebase_password _ _ _ _ = _ |- _ =>
           apply check_firebase_password_shape in H as (Hstore & H200)
       end; cbn in *.
  all: use_eqs; split; [exact Hstore |].
  all: intros r Hr Hst.
  all: destruct (H200 r Hr Hst)
         as (user & e0 & p0 & native & Hin & Hemail & Hhash & Hsalt & Hok
             & He0 & Hp0 & Hnative & Hresp & Husers).
  all: exists e0, p0, native; split; [exact He0 |]; split; [exact Hp0 |].
  all: split; [exact Hnative |]; right; exists user; by repeat split.
Qed.

Lemma with_password_keeps_identity (id : string) (password : json)
    (us : list User) (i : nat) (u : User) :
  us !! i = Some u →
  ∃ u', with_password id password us !! i = Some u'
        ∧ user_id u' = user_id u
        ∧ user_email u' = user_email u
        ∧ user_metadata u' = user_metadata u.
Proof.
  intros Hi. unfold with_password. rewrite list_lookup_fmap, Hi. cbn.
  eexists. split; [reflexivity |]. unfold update_record.
  by destruct (String.eqb (user_id u) id).
Qed.

(** The password login never alters who a record is: on every request,
    whatever the collaborators answer, each record of the store keeps its
    id, its e-mail address and its whole [user_metadata]; in particular the
    source password hash and salt under [fbuser] are still there after a
    successful migration. *)
Theorem password_login_keeps_identity (env : Env) (req : Request)
    (us : list User) (i : nat) (u : User) :
  us !! i = Some u →
  ∃ u', users (migrate_firebase_password env req (fresh us)).2 !! i = Some u'
        ∧ user_id u' = user_id u
        ∧ user_email u' = user_email u
        ∧ user_metadata u' = user_metadata u
        ∧ passwordHash u' = passwordHash u
        ∧ passwordSalt u' = passwordSalt u.
Proof.
  intros Hi.
  assert (Hgoal : ∀ us', (us' = us ∨ ∃ user, In user us
                            ∧ us' = with_password (user_id user)
                                      (posted_password req) us) →
    ∃ u', us' !! i = Some u'
          ∧ user_id u' = user_id u
          ∧ user_email u' = user_email u
          ∧ user_metadata u' = user_metadata u
          ∧ passwordHash u' = passwordHash u
          ∧ passwordSalt u' = passwordSalt u).
  { intros us' [-> | (user & _ & ->)]; [by exists u |].
    destruct (with_password_keeps_identity (user_id user) (posted_password req)
                us i u Hi) as (u' & Hu' & Hid & Hemail & Hmeta).
    exists u'. unfold passwordHash, passwordSalt, fbuser_of, metadata_key.
    rewrite Hmeta. by repeat split. }
  unfold migrate_firebase_password.
  destruct (String.eqb (req_method req) "OPTIONS"); [apply Hgoal; by left |].
  destruct (try_catch_unexpected "Internal server error" (migrate_try env req)
              (fresh us)) as (r & w' & -> & Hus & _ & _).
  cbn [snd]. rewrite Hus.
  destruct (migrate_try env req (fresh us)) as [out w1] eqn:Htry.
  apply migrate_try_shape in Htry as [Hstore _]. by apply Hgoal.
Qed.

(** Every 200 answer of the password login to a request other than a
    preflight carries a session: its [session] member holds the access
    token and the refresh token of the session that the sign-in service
    issued for the record that holds the posted credentials when the run
    ends.  The answer says [migrated: false] when the native login
    succeeded at once, and then the sign-in is the only call and the store
    is unchanged; it says [migrated: true] only after the
    credential-verification service confirmed the posted password against
    the hash and salt of a listed record with the posted address, and then
    that record's id holds the posted password. *)
Theorem password_login_ok_response (env : Env) (req : Request) (us : list User)
    (r : Response) (w' : World) :
  migrate_firebase_password env req (fresh us) = (Returned r, w') →
  req_method req ≠ "OPTIONS" →
  status r = 200 →
  ∃ email password native,
    posted_email req = JStr email
    ∧ posted_password req = JStr password
    ∧ List.find (credentials_match email password) (users w') = Some native
    ∧ grants_session (issue_session env native) r
    ∧ ((body_field "migrated" r = Some (JBool false)
        ∧ users w' = us
        ∧ calls w'
          = [CallSignInWithPassword (posted_email req) (posted_password req)])
       ∨ (body_field "migrated" r = Some (JBool true)
          ∧ ∃ user,
              In user (first_page env us)
              ∧ email_is_of (posted_email req) user
              ∧ confirms (password_verify_service env
                            (shown (passwordSalt user))
                            (shown (passwordHash user)) (posted_password req))
              ∧ users w'
                = with_password (user_id user) (posted_password req) us)).
Proof.
  unfold migrate_firebase_password. intros Hrun Hmethod Hst.
  apply String.eqb_neq in Hmethod. rewrite Hmethod in Hrun.
  destruct (try_catch_unexpected "Internal server error" (migrate_try env req)
              (fresh us)) as (r0 & w0 & Htc & Hus & Hcs & Hout).
  rewrite Htc in Hrun. simplify_eq.
  destruct (migrate_try env req (fresh us)) as [out w1] eqn:Htry.
  cbn in *. destruct Hout as [-> | (e & _ & Hst')]; [| congruence].
  apply migrate_try_shape in Htry as [_ H200].
  destruct (H200 r eq_refl Hst)
    as (email & password & native & Hemail & Hpassword & Hnative
        & [(-> & Husers & Hcalls)
          | (user & Hin & Hof & _ & _ & Hok & -> & Husers)]).
  - exists email, password, native. rewrite Hus, Hcs.
    split; [exact Hemail |]. split; [exact Hpassword |].
    split; [exact Hnative |]. split; [apply login_response_grants |].
    left. by repeat split.
  - exists email, password, native. rewrite Hus.
    split; [exact Hemail |]. split; [exact Hpassword |].
    split; [exact Hnative |]. split; [apply login_response_grants |].
    right. split; [reflexivity |]. exists user. by repeat split.
Qed.

(** ** Password login: failure paths *)

(** When the native login fails and no record of the listed page has the
    posted address, the login is answered 404 after the sign-in and the
    listing, and nothing else happens; this is also the answer for a record
    that the store holds beyond the listed page. *)
Theorem unknown_address_answered_404 (env : Env) (us : list User)
    (email password : string) :
  email ≠ "" → password ≠ "" →
  store_available env →
  List.find (credentials_match email password) us = None →
  List.find (has_email email) (first_page env us) = None →
  ∃ lines,
    migrate_firebase_password env (login_request email password) (fresh us)
    = (Returned unknown_address_response,
       mkWorld us lines
         [CallSignInWithPassword (JStr email) (JStr password); CallListUsers None]).
Proof.
  intros He Hp [Hsign Hlist] Hnative Hfind. unfold first_page in Hfind.
  apply String.eqb_neq in He, Hp.
  run_login. rewrite He, Hp, Hsign. cbn. rewrite Hnative, Hlist. cbn.
  destruct (page_of 1 (default_per_page env) us) as [|u0 page] eqn:Hpage;
    [cbn; by eexists |].
  rewrite Hfind. cbn. by eexists.
Qed.

(** A failure of the user listing that the store reports in its result is
    answered 401 "Authentication failed" with the store's message, not a
    500; the credential-verification service is not called and the store
    is not written. *)
Theorem listing_failure_answered_401 (env : Env) (us : list User)
    (email password : string) (e : string) :
  email ≠ "" → password ≠ "" →
  sign_in_fault env = None →
  List.find (credentials_match email password) us = None →
  list_users_fault env = Some (ErrorResult e) →
  ∃ lines,
    migrate_firebase_password env (login_request email password) (fresh us)
    = (Returned (listing_failed_response e),
       mkWorld us lines
         [CallSignInWithPassword (JStr email) (JStr password); CallListUsers None]).
Proof.
  intros He Hp Hsign Hnative Hlist. apply String.eqb_neq in He, Hp.
  run_login. rewrite He, Hp, Hsign. cbn. rewrite Hnative, Hlist. cbn.
  by eexists.
Qed.

(** With [FIREBASE_PW_VERIFY_URL] missing or empty, a login that needs the
    source hash is answered 500 "Password verification service not
    configured": the credential-verification service is not called and the
    store is not written.  An already migrated user is not affected, since
    the variable is read only after the native login failed. *)
Theorem unconfigured_verifier_answered_500 (env : Env) (us : list User)
    (email password : string) (u : User) :
  email ≠ "" → password ≠ "" →
  store_available env →
  truthy_str (FIREBASE_PW_VERIFY_URL env) = false →
  resolves_to env us email u →
  has_source_password u →
  match List.find (credentials_match email password) us with
  | Some native =>
      migrate_firebase_password env (login_request email password) (fresh us)
      = (Returned (native_response (issue_session env native)),
         mkWorld us [] [CallSignInWithPassword (JStr email) (JStr password)])
  | None =>
      ∃ lines,
        migrate_firebase_password env (login_request email password) (fresh us)
        = (Returned not_configured_response,
           mkWorld us lines
             [CallSignInWithPassword (JStr email) (JStr password);
              CallListUsers None])
  end.
Proof.
  intros He Hp [Hsign Hlist] Hurl Hfind [Hhash Hsalt].
  destruct (List.find (credentials_match email password) us) as [native|]
    eqn:Hnative.
  - by apply native_login_fast_path.
  - unfold resolves_to, first_page in Hfind. apply String.eqb_neq in He, Hp.
    run_login. rewrite He, Hp, Hsign. cbn. rewrite Hnative, Hlist. cbn.
    destruct (page_of 1 (default_per_page env) us) as [|u0 page] eqn:Hpage;
      [discriminate |].
    rewrite Hfind. cbn. rewrite Hhash, Hsalt, Hurl. cbn. by eexists.
Qed.

(** When the sign-in service reports a failure on both attempts, the login
    is answered 500 "Password migrated but login failed" although the
    password of the record has been written; the same login, repeated
    once the sign-in service answers again, succeeds through the native
    login with [migrated: false], without another verification or write. *)
Theorem write_survives_failed_login (env : Env) (us : list User)
    (email password : string) (u : User) (e : string) :
  email ≠ "" → password ≠ "" →
  sign_in_fault env = Some (ErrorResult e) →
  list_users_fault env = None →
  update_user_fault env (user_id u) = None →
  truthy_str (FIREBASE_PW_VERIFY_URL env) = true →
  resolves_to env us email u →
  has_source_password u →
  confirms (verification_of env u password) →
  ∃ lines,
    migrate_firebase_password env (login_request email password) (fresh us)
    = (Returned (login_after_write_failed_response e),
       mkWorld (with_password (user_id u) (JStr password) us) lines
         [CallSignInWithPassword (JStr email) (JStr password);
          CallListUsers None;
          CallPasswordVerify (shown (passwordSalt u)) (shown (passwordHash u))
            (JStr password);
          CallUpdateUserById (user_id u) (password_attrs (JStr password));
          CallSignInWithPassword (JStr email) (JStr password)])
    ∧ ∃ session,
        migrate_firebase_password (with_sign_in_fault None env)
          (login_request email password)
          (fresh (with_password (user_id u) (JStr password) us))
        = (Returned (native_response session),
           mkWorld (with_password (user_id u) (JStr password) us) []
             [CallSignInWithPassword (JStr email) (JStr password)]).
Proof.
  intros He Hp Hsign Hlist Hupd Hurl Hfind [Hhash Hsalt]
    (resp & Hverify & Hvalid).
  unfold resolves_to, first_page, verification_of in *.
  assert (Hin : In u us).
  { apply List.find_some in Hfind as [Hin _]. by eapply page_of_In. }
  assert (Hemail : has_email email u = true)
    by (by apply List.find_some in Hfind as [_ Hemail]).
  assert (Hexists : existsb (λ u0, String.eqb (user_id u0) (user_id u)) us = true).
  { apply existsb_exists. exists u. split; [done | apply String.eqb_refl]. }
  destruct (find_some_any (credentials_match email password)
              (with_password (user_id u) (JStr password) us)
              (update_record (user_id u) (password_attrs (JStr password)) u))
    as [u1 Hu1].
  { apply list_elem_of_In, list_elem_of_fmap. exists u.
    split; [done | by apply list_elem_of_In]. }
  { by apply migrated_record_matches. }
  eexists. split.
  - apply String.eqb_neq in He, Hp.
    run_login. rewrite He, Hp, Hsign. cbn. rewrite Hlist. cbn.
    destruct (page_of 1 (default_per_page env) us) as [|u0 page] eqn:Hpage;
      [discriminate |].
    rewrite Hfind. cbn. rewrite Hhash, Hsalt, Hurl. cbn.
    rewrite Hverify. cbn. rewrite Hvalid. cbn. rewrite Hupd. cbn.
    rewrite Hexists. cbn. reflexivity.
  - exists (issue_session env u1).
    by apply (native_login_fast_path (with_sign_in_fault None env)).
Qed.

(** ** The claims-verification service *)

Lemma error_type_status (code : option string) :
  (error_type code).1 = 400 ∧ code = Some "auth/argument-error"
  ∨ (error_type code).1 = 401 ∧ code ≠ Some "auth/argument-error".
Proof.
  unfold error_type.
  destruct (opt_str_eq code (Some "auth/id-token-expired")) eqn:H1.
  { apply opt_str_eq_spec in H1 as ->. by right. }
  destruct (opt_str_eq code (Some "auth/id-token-revoked")) eqn:H2.
  { apply opt_str_eq_spec in H2 as ->. by right. }
  destruct (opt_str_eq code (Some "auth/argument-error")) eqn:H3.
  - apply opt_str_eq_spec in H3 as ->. by left.
  - right. split; [done |]. intros ->. by vm_compute in H3.
Qed.

(** The verification service answers 200 exactly when a token was posted
    and [verifyIdToken] accepted it, and then with fields of the decoded
    token only; every failure is a 400 (no token posted, or a malformed
    one) or a 401 (expired, revoked or otherwise invalid): the service has
    no 5xx answer of its own. *)
Theorem token_service_statuses (verifyIdToken : json → json + AuthError)
    (req_body : json) :
  let answer := (verify_token_post verifyIdToken req_body).1 in
  let token := opt_field "token" (Some req_body) in
  (status answer = 200
   ↔ truthy token = true ∧ ∃ decoded, verifyIdToken (shown token) = inl decoded)
  ∧ (status answer = 400
     ↔ truthy token = false
       ∨ ∃ e, verifyIdToken (shown token) = inr e
              ∧ auth_code e = Some "auth/argument-error")
  ∧ (status answer = 200 ∨ status answer = 400 ∨ status answer = 401)
  ∧ (∀ decoded, truthy token = true →
       verifyIdToken (shown token) = inl decoded →
       answer = json_response 200 (decoded_fields decoded)).
Proof.
  cbv zeta. unfold verify_token_post.
  destruct (truthy (opt_field "token" (Some req_body))) eqn:Htoken; cbn.
  - destruct (verifyIdToken _) as [decoded|e] eqn:Hverify; cbn.
    + split; [split; [intros _; split; [done | by eexists] | done] |].
      split; [split; [done | intros [H | (e & He & _)]; done] |].
      split; [by left |]. by intros ? _ [= <-].
    + destruct (error_type_status (auth_code e)) as [[Hst Hc] | [Hst Hc]];
        rewrite Hst.
      * split; [split; [done | by intros [_ [? ?]]] |].
        split; [split; [intros _; right; by exists e | done] |].
        split; [by right; left | done].
      * split; [split; [done | by intros [_ [? ?]]] |].
        split; [split; [done | intros [H | (e' & He' & Hc')]; [done |]] |].
        -- simplify_eq.
        -- split; [by right; right | done].
  - split; [split; [done | by intros [? _]] |].
    split; [split; [by left | done] |].
    split; [by right; left | done].
Qed.

(** With this service as their collaborator, both variants of the session
    exchange answer 401 whenever [verifyIdToken] rejects the posted token,
    also for a malformed token, which the service itself reports as a 400;
    the service's "Token is required" answer is never produced for a token
    that a handler posts.  Nothing but the verification call happens. *)
Theorem rejected_token_answered_401 (stringify : ResponseBody → string)
    (verifyIdToken : json → json + AuthError) (env : Env) (req : Request)
    (us : list User) (e : AuthError)
    (handler : Env → Request → M Response) :
  handler = exchange_firebase_session ∨ handler = exchange_firebase_session_otp →
  req_method req ≠ "OPTIONS" →
  truthy (opt_field "firebaseToken" (req_json req)) = true →
  verifyIdToken (posted_token req) = inr e →
  (verify_token_post verifyIdToken (JObj [("token", posted_token req)])).1
  ≠ json_response 400 [("error", JStr "Token is required")]
  ∧ ∃ r lines,
      handler (with_token_service stringify verifyIdToken env) req (fresh us)
      = (Returned r,
         mkWorld us lines [CallTokenVerify (posted_token req)])
      ∧ status r = 401.
Proof.
  intros Hh Hmethod Htoken Hreject. apply String.eqb_neq in Hmethod.
  assert (Hposted : truthy (Some (posted_token req)) = true).
  { unfold posted_token. by destruct (opt_field "firebaseToken" (req_json req)). }
  split.
  { unfold verify_token_post. change (opt_field "token" (Some (JObj [("token", posted_token req)]))) with (Some (posted_token req)).
    rewrite Hposted. cbn. rewrite Hreject. cbn.
    destruct (error_type_status (auth_code e)) as [[Hst Hc] | [Hst Hc]];
      [rewrite Hc; by cbn | intros [= H _]; rewrite H in Hst; done]. }
  assert (Hsvc : ∃ resp,
    token_service stringify verifyIdToken (posted_token req) = Responded resp
    ∧ resp_ok resp = false).
  { unfold token_service, verify_token_post. change (opt_field "token" (Some (JObj [("token", posted_token req)]))) with (Some (posted_token req)).
    rewrite Hposted. cbn. rewrite Hreject. cbn. eexists.
    split; [reflexivity |]. unfold resp_ok. cbn.
    by destruct (error_type_status (auth_code e)) as [[-> _] | [-> _]]. }
  destruct Hsvc as (resp & Hsvc & Hok).
  change (token_service stringify verifyIdToken (posted_token req))
    with (token_verify_service (with_token_service stringify verifyIdToken env)
            (posted_token req)) in Hsvc.
  generalize dependent (with_token_service stringify verifyIdToken env).
  intros env' Hsvc. unfold posted_token in *.
  destruct (req_json req) as [payload|] eqn:Hjson; [| discriminate].
  destruct payload; try discriminate. cbn in Htoken, Hsvc |- *.
  destruct Hh as [-> | ->];
    unfold exchange_firebase_session, exchange_firebase_session_otp,
      exchange_try, exchange_otp_try;
    rewrite Hmethod; unfold_monad; rewrite Hjson; cbn; rewrite Htoken; cbn;
    rewrite Hsvc; cbn; rewrite Hok; cbn; by eexists _, _.
Qed.

(** ** Requests without their fields *)

(** A request whose JSON body carries no token, or a falsy one (the empty
    string, [null], [false], [0]), is answered 400 by both variants of the
    session exchange before anything else happens: no collaborator is
    called, nothing is logged and the store is not read. *)
Theorem missing_token_answered_400 (env : Env) (req : Request) (w : World)
    (payload : json) :
  req_method req ≠ "OPTIONS" →
  req_json req = Some payload →
  payload ≠ JNull →
  truthy (opt_field "firebaseToken" (Some payload)) = false →
  exchange_firebase_session env req w
  = (Returned (json_response 400 [("error", JStr "Firebase token is required")]), w)
  ∧ exchange_firebase_session_otp env req w
    = (Returned (json_response 400 [("error", JStr "Firebase token required")]), w).
Proof.
  intros Hmethod Hjson Hnull Htoken. apply String.eqb_neq in Hmethod.
  unfold exchange_firebase_session, exchange_firebase_session_otp,
    exchange_try, exchange_otp_try.
  rewrite Hmethod. unfold_monad. rewrite Hjson.
  destruct payload; try done; cbn in *; rewrite ?Htoken; by destruct w.
Qed.

(** A login whose JSON body lacks a truthy [email] or a truthy [password]
    is answered 400 before the native login is tried: no call is made. *)
Theorem missing_credentials_answered_400 (env : Env) (req : Request) (w : World)
    (payload : json) :
  req_method req ≠ "OPTIONS" →
  req_json req = Some payload →
  payload ≠ JNull →
  truthy (opt_field "email" (Some payload)) = false
  ∨ truthy (opt_field "password" (Some payload)) = false →
  migrate_firebase_password env req w
  = (Returned (json_response 400 [("error", JStr "Email and password are required")]),
     w).
Proof.
  intros Hmethod Hjson Hnull Hmissing. apply String.eqb_neq in Hmethod.
  unfold migrate_firebase_password, migrate_try.
  rewrite Hmethod. unfold_monad. rewrite Hjson.
  assert (Hfalsy : negb (truthy (opt_field "email" (Some payload)))
                   || negb (truthy (opt_field "password" (Some payload))) = true).
  { destruct Hmissing as [-> | ->]; [done | apply orb_true_r]. }
  destruct payload; try done; cbn in *; rewrite ?Hfalsy; by destruct w.
Qed.

(** ** The React Native helpers *)

(** The login screen never shows the OAuth hint of the password-migration
    endpoint: [migrateFirebasePassword] forwards only the [error] text of
    the answer, so the endpoint's answer for an account without a source
    password and its answer for a wrong password reach the screen as the
    same result, and both end in the "Login Failed" alert. *)
Theorem oauth_hint_lost_in_client (cenv : ClientEnv) (email password : string)
    (d : Device) (direct : AuthResult) (r : Response) :
  email ≠ "" → password ≠ "" →
  supabase_sign_in cenv (JStr email) (JStr password) = inl direct →
  truthy (auth_session direct) = false →
  truthy (auth_error direct) = true →
  migrate_endpoint cenv (JStr email) (JStr password) = EdgeAnswered r →
  r = no_source_password ∨ r = credential_mismatch →
  (signInWithPassword_client cenv (JStr email) (JStr password) d).1
  = Returned (mkSignInResult (Some JNull) (Some JNull)
                (Some (JStr "Invalid credentials")) false)
  ∧ ∃ d',
      handleEmailLogin cenv email password d = (Returned tt, d')
      ∧ alerts d' = alerts d ++ [("Login Failed", JStr "Invalid email or password")]
      ∧ storage d' = storage d
      ∧ loading d' = false.
Proof.
  intros He Hp Hdirect Hsession Herror Hedge Hr.
  destruct direct as [ds du de]. cbn in Hsession, Herror.
  apply String.eqb_neq in He, Hp.
  unfold handleEmailLogin, signInWithPassword_client, migrateFirebasePassword.
  rewrite He, Hp. unfold_client. rewrite Hdirect, Hedge.
  repeat (progress (rewrite ?Hsession, ?Herror;
                    cbn beta iota zeta delta [auth_session auth_error auth_user])).
  cbn.
  destruct Hr as [-> | ->]; cbn; (split; [reflexivity |]);
    eexists; (split; [reflexivity |]); by cbn.
Qed.

(** What a run of the client's [signInWithPassword] gives and leaves
    behind. *)
Lemma signInWithPassword_client_run (cenv : ClientEnv) (email password : json)
    (d : Device) :
  ∃ r d',
    signInWithPassword_client cenv email password d = (Returned r, d')
    ∧ alerts d' = alerts d ∧ loading d' = loading d
    ∧ storage d'
      = (if truthy (si_session r)
         then <[ MIGRATION_STORAGE_KEY := "true" ]> (storage d)
         else storage d)
    ∧ (si_migrated r = true →
         truthy (si_session r) = true
         ∧ ∃ response,
             migrate_endpoint cenv email password = EdgeAnswered response
             ∧ response_ok response = true
             ∧ si_session r = body_field "session" response).
Proof.
  unfold signInWithPassword_client, migrateFirebasePassword, body_field.
  unfold_client.
  destruct (supabase_sign_in cenv email password) as [[ds du de]|e] eqn:Hdirect;
    client_cbn.
  2: { eexists _, _. split; [reflexivity |]. by cbn. }
  destruct (truthy ds) eqn:Hds; client_run Hds.
  { destruct (set_item_fault cenv) eqn:Hfault.
    - eexists _, _. split; [reflexivity |]. by cbn.
    - eexists _, _. split; [reflexivity |]. cbn. by rewrite Hds. }
  destruct (truthy de) eqn:Hde; client_run Hde.
  2: { eexists _, _. split; [reflexivity |]. cbn. by rewrite Hds. }
  destruct (migrate_endpoint cenv email password) as [e|response] eqn:Hedge.
  { eexists _, _. split; [reflexivity |]. by cbn. }
  destruct response as [st [text|fields]]; client_cbn.
  { eexists _, _. split; [reflexivity |]. by cbn. }
  destruct (response_ok _ && truthy (assoc "session" fields)) eqn:Hok.
  2: { eexists _, _. split; [reflexivity |]. by cbn. }
  apply andb_true_iff in Hok as [Hok Hsession].
  destruct (supabase_set_session cenv _ _) as [[ss su se]|e] eqn:Hset;
    client_cbn.
  2: { eexists _, _. split; [reflexivity |]. by cbn. }
  destruct (truthy se) eqn:Hse; client_run Hsession;
    (destruct (set_item_fault cenv) eqn:Hfault;
     [ eexists _, _; split; [reflexivity |]; by cbn
     | eexists _, _; split; [reflexivity |]; cbn; rewrite Hsession;
       split; [done |]; split; [done |]; split; [done |];
       intros _; split; [done |];
       eexists; split; [reflexivity |]; split; [done | reflexivity] ]).
Qed.

(** [signInWithPassword] of the client always returns a result, whatever
    the Supabase client, the endpoint and [AsyncStorage] do.  The migration
    flag is stored exactly when the result carries a session, and
    [migrated: true] is reported only for a session that the
    password-migration endpoint answered with an ok status. *)
Theorem client_sign_in_outcome (cenv : ClientEnv) (email password : json)
    (d : Device) :
  ∃ r d',
    signInWithPassword_client cenv email password d = (Returned r, d')
    ∧ storage d'
      = (if truthy (si_session r)
         then <[ MIGRATION_STORAGE_KEY := "true" ]> (storage d)
         else storage d)
    ∧ (si_migrated r = true →
         truthy (si_session r) = true
         ∧ ∃ response,
             migrate_endpoint cenv email password = EdgeAnswered response
             ∧ response_ok response = true
             ∧ si_session r = body_field "session" response).
Proof.
  destruct (signInWithPassword_client_run cenv email password d)
    as (r & d' & Hrun & _ & _ & Hstorage & Hmigrated).
  by exists r, d'.
Qed.

(** The login screen's handler always comes back once both fields are
    filled in: it clears the loading state and shows at most one alert,
    whatever the sign-in helper reports or throws. *)
Theorem login_screen_always_settles (cenv : ClientEnv) (email password : string)
    (d : Device) :
  email ≠ "" → password ≠ "" →
  ∃ d',
    handleEmailLogin cenv email password d = (Returned tt, d')
    ∧ loading d' = false
    ∧ (alerts d' = alerts d ∨ ∃ raised, alerts d' = alerts d ++ [raised]).
Proof.
  intros He Hp. apply String.eqb_neq in He, Hp.
  unfold handleEmailLogin. rewrite He, Hp. cbn [orb].
  destruct (signInWithPassword_client_run cenv (JStr email) (JStr password)
              (mkDevice (storage d) (current_session d) (device_console d)
                 (alerts d) true (client_calls d)))
    as (r & d1 & Hrun & Halerts & _ & _).
  cbn in Halerts.
  unfold_client. client_cbn. rewrite Hrun.
  destruct (truthy (si_error r)); client_cbn.
  - destruct (hint_includes_OAuth (si_error r)) as [[|]|];
      eexists; (split; [reflexivity |]); cbn; rewrite Halerts; eauto.
  - destruct (truthy (si_session r)); [destruct (si_migrated r) |];
      eexists; (split; [reflexivity |]); cbn; rewrite Halerts; eauto.
Qed.

(** [migrateFirebasePassword] does not look at what [setSession] answers:
    when the endpoint hands out a session but the Supabase client refuses
    it, the helper still reports the session with [migrated: true] and
    stores the migration flag, while the client holds no new session. *)
Theorem migrated_reported_without_client_session (cenv : ClientEnv)
    (email password : json) (d : Device) (direct refused : AuthResult)
    (response : Response) :
  supabase_sign_in cenv email password = inl direct →
  truthy (auth_session direct) = false →
  truthy (auth_error direct) = true →
  migrate_endpoint cenv email password = EdgeAnswered response →
  response_ok response = true →
  truthy (body_field "session" response) = true →
  supabase_set_session cenv
    (opt_field "access_token" (body_field "session" response))
    (opt_field "refresh_token" (body_field "session" response)) = inl refused →
  truthy (auth_error refused) = true →
  set_item_fault cenv = None →
  ∃ d',
    signInWithPassword_client cenv email password d
    = (Returned (mkSignInResult (body_field "session" response)
                   (opt_field "user" (body_field "session" response))
                   (Some JNull) true), d')
    ∧ current_session d' = current_session d
    ∧ storage d' = <[ MIGRATION_STORAGE_KEY := "true" ]> (storage d).
Proof.
  intros Hdirect Hds Hde Hedge Hok Hsession Hset Hse Hfault.
  destruct direct as [ds du de], refused as [ss su se],
    response as [st [text|fields]]; cbn in Hds, Hde, Hse, Hsession; [done |].
  unfold body_field in *; cbn [body] in *.
  unfold signInWithPassword_client, migrateFirebasePassword.
  unfold_client. rewrite Hdirect, Hedge. client_cbn.
  client_run Hds. client_run Hde. rewrite Hok, Hsession. cbn [andb].
  rewrite Hset. client_cbn. client_run Hse. client_run Hsession.
  rewrite Hfault. client_cbn.
  eexists. split; [reflexivity |]. by cbn.
Qed.

(** What a run of [exchangeFirebaseSession] gives and leaves behind. *)
Lemma exchangeFirebaseSession_run (cenv : ClientEnv) (token : json) (d : Device) :
  ∃ r d',
    exchangeFirebaseSession cenv token d = (Returned r, d')
    ∧ alerts d' = alerts d ∧ loading d' = loading d
    ∧ ((ex_success r = true
        ∧ set_item_fault cenv = None
        ∧ storage d' = <[ SESSION_EXCHANGE_KEY := "true" ]> (storage d)
        ∧ ∃ response accepted,
            exchange_endpoint cenv token = EdgeAnswered response
            ∧ response_ok response = true
            ∧ truthy (body_field "access_token" response) = true
            ∧ supabase_set_session cenv (body_field "access_token" response)
                (body_field "refresh_token" response) = inl accepted
            ∧ truthy (auth_error accepted) = false
            ∧ ex_session r = auth_session accepted
            ∧ current_session d' = auth_session accepted)
       ∨ (ex_success r = false
          ∧ storage d' = storage d
          ∧ (set_item_fault cenv = None → current_session d' = current_session d))).
Proof.
  unfold exchangeFirebaseSession, body_field. unfold_client.
  destruct (exchange_endpoint cenv token) as [e|[st [text|fields]]] eqn:Hedge;
    client_cbn.
  1, 2: eexists _, _; split; [reflexivity |]; cbn; split; [done |];
        split; [done |]; right; done.
  destruct (response_ok _ && truthy (assoc "access_token" fields)) eqn:Hok.
  2: { eexists _, _. split; [reflexivity |]. cbn. split; [done |].
       split; [done |]. right. done. }
  apply andb_true_iff in Hok as [Hok Htoken].
  destruct (supabase_set_session cenv _ _) as [[ss su se]|e] eqn:Hset;
    client_cbn.
  2: { eexists _, _. split; [reflexivity |]. cbn. split; [done |].
       split; [done |]. right. done. }
  destruct (truthy se) eqn:Hse; client_run Hse.
  { eexists _, _. split; [reflexivity |]. cbn. split; [done |].
    split; [done |]. right. done. }
  destruct (set_item_fault cenv) eqn:Hfault.
  { eexists _, _. split; [reflexivity |]. cbn. split; [done |].
    split; [done |]. right. done. }
  eexists _, _. split; [reflexivity |]. cbn. split; [done |].
  split; [done |]. left. split; [done |]. split; [done |]. split; [done |].
  eexists _, _. split; [reflexivity |]. cbn. rewrite Hset. done.
Qed.

(** [exchangeFirebaseSession] always returns a result.  It reports success
    only for an ok answer with an access token whose session the Supabase
    client accepted, and then that session is the client's and the exchange
    flag is stored; on every other result [AsyncStorage] is as it was. *)
Theorem client_exchange_outcome (cenv : ClientEnv) (token : json) (d : Device) :
  ∃ r d',
    exchangeFirebaseSession cenv token d = (Returned r, d')
    ∧ storage d'
      = (if ex_success r
         then <[ SESSION_EXCHANGE_KEY := "true" ]> (storage d)
         else storage d)
    ∧ (ex_success r = true →
         current_session d' = ex_session r
         ∧ ∃ response accepted,
             exchange_endpoint cenv token = EdgeAnswered response
             ∧ response_ok response = true
             ∧ truthy (body_field "access_token" response) = true
             ∧ supabase_set_session cenv (body_field "access_token" response)
                 (body_field "refresh_token" response) = inl accepted
             ∧ truthy (auth_error accepted) = false
             ∧ ex_session r = auth_session accepted).
Proof.
  destruct (exchangeFirebaseSession_run cenv token d)
    as (r & d' & Hrun & _ & _ & Hcases).
  exists r, d'. split; [exact Hrun |].
  destruct Hcases as [(Hok & _ & Hstorage & response & accepted & Hedge & Hresp
                        & Htoken & Hset & Herr & Hsession & Hcurrent)
                     | (Hko & Hstorage & _)].
  - rewrite Hok. split; [exact Hstorage |]. intros _.
    split; [congruence |]. by exists response, accepted.
  - rewrite Hko. split; [exact Hstorage |]. done.
Qed.

(** The link-reading exchange endpoint answers 200 when it cannot generate
    a link (its fallback answer, without tokens).  The client treats that
    answer as a failed exchange: no session is set, nothing is stored, and
    the result carries the endpoint's hint. *)
Theorem fallback_answer_fails_on_client (cenv : ClientEnv) (token : json)
    (user : User) (d : Device) :
  exchange_endpoint cenv token = EdgeAnswered (fallback_response user) →
  ∃ d',
    exchangeFirebaseSession cenv token d
    = (Returned (exchange_failed "Use the migrated password or OAuth"), d')
    ∧ storage d' = storage d
    ∧ current_session d' = current_session d
    ∧ client_calls d' = client_calls d ++ [EdgeExchangeSession token].
Proof.
  intros Hedge.
  unfold exchangeFirebaseSession. unfold_client. rewrite Hedge.
  eexists. split; [reflexivity |]. by cbn.
Qed.

(** The inner attempt of the start-up check: an answer only after a
    successful exchange; otherwise the device keeps its storage and
    session. *)
Lemma try_firebase_exchange_run (cenv : ClientEnv) (getIdToken : json + string)
    (d : Device) :
  ∃ o d',
    try_firebase_exchange cenv getIdToken d = (Returned o, d')
    ∧ match o with
      | Some answer =>
          hasSupabaseSession answer = true ∧ needsSignIn answer = false
          ∧ check_exchanged answer = true ∧ check_error answer = None
          ∧ storage d' = <[ SESSION_EXCHANGE_KEY := "true" ]> (storage d)
          ∧ ∃ token, getIdToken = inl token
      | None =>
          storage d' = storage d
          ∧ (set_item_fault cenv = None → current_session d' = current_session d)
      end.
Proof.
  unfold try_firebase_exchange.
  destruct getIdToken as [token|e].
  2: { unfold_client. eexists _, _. split; [reflexivity |]. by cbn. }
  destruct (exchangeFirebaseSession_run cenv token
              (mkDevice (storage d) (current_session d)
                 (device_console d ++
                  [mkLogLine LevelLog
                     [JStr "🔍 Found Firebase user, attempting session exchange..."]])
                 (alerts d) (loading d) (client_calls d ++ [FirebaseGetIdToken])))
    as (r & d' & Hrun & _ & _ & Hcases).
  unfold_client. client_cbn. rewrite Hrun.
  destruct Hcases as [(Hok & Hfault & Hstorage & _) | (Hko & Hstorage & Hcurrent)].
  - rewrite Hok. eexists _, _. split; [reflexivity |]. cbn.
    repeat (split; [done |]). by exists token.
  - rewrite Hko. eexists _, _. split; [reflexivity |]. by cbn.
Qed.

(** [checkAndExchangeFirebaseSession] always returns a result, and the
    exchange flag follows it: a result with [hasSupabaseSession] leaves the
    flag set and does not ask for a sign-in; a result with [needsSignIn]
    leaves the flag unset, and leaves the Supabase client without a session
    unless [setItem] rejects; and [exchanged] is reported only when a
    Firebase user's token was there. *)
Theorem session_check_keeps_flag_in_step (cenv : ClientEnv)
    (firebaseAuth : option FirebaseAuth) (d : Device) :
  ∃ r d',
    checkAndExchangeFirebaseSession cenv firebaseAuth d = (Returned r, d')
    ∧ (hasSupabaseSession r = true →
         needsSignIn r = false ∧ check_error r = None
         ∧ storage d' !! SESSION_EXCHANGE_KEY = Some "true")
    ∧ (needsSignIn r = true →
         check_error r = None
         ∧ storage d' !! SESSION_EXCHANGE_KEY ≠ Some "true"
         ∧ (set_item_fault cenv = None → truthy (current_session d') = false))
    ∧ (check_exchanged r = true →
         ∃ token, firebaseAuth = Some (mkFirebaseAuth (Some (inl token)))).
Proof.
  unfold checkAndExchangeFirebaseSession. unfold_client.
  destruct (get_item_fault cenv) as [e|] eqn:Hfault.
  { eexists _, _. split; [reflexivity |]. by cbn. }
  client_cbn.
  assert (Hkey : ∀ m : gmap string string,
             opt_str_eq (m !! SESSION_EXCHANGE_KEY) (Some "true") = false →
             m !! SESSION_EXCHANGE_KEY ≠ Some "true").
  { intros m Hm Heq. rewrite Heq in Hm. discriminate. }
  assert (Hset : ∀ m : gmap string string,
             opt_str_eq (m !! SESSION_EXCHANGE_KEY) (Some "true") = true →
             m !! SESSION_EXCHANGE_KEY = Some "true").
  { intros m Hm. by apply opt_str_eq_spec in Hm. }
  destruct (opt_str_eq (storage d !! SESSION_EXCHANGE_KEY) (Some "true")) eqn:Hflag;
    destruct (supabase_get_session_fault cenv) as [e|] eqn:Hget; client_cbn;
    try (eexists _, _; split; [reflexivity |]; by cbn);
    destruct (truthy (current_session d)) eqn:Hsession; client_run Hsession.
  - (* the flag is set and the session is there *)
    eexists _, _. split; [reflexivity |]. cbn.
    split; [intros _; repeat (split; [done |]); by apply Hset |]. by split.
  - (* the flag is stale *)
    destruct (remove_item_fault cenv) as [e|] eqn:Hremove; client_run Hsession.
    { eexists _, _. split; [reflexivity |]. by cbn. }
    destruct firebaseAuth as [[[getIdToken|]]|].
    + match goal with
      | |- context [try_firebase_exchange cenv getIdToken ?d0] =>
          destruct (try_firebase_exchange_run cenv getIdToken d0)
            as ([answer|] & d1 & Hrun & Hcase); rewrite Hrun; cbn in Hcase
      end; eexists _, _; (split; [reflexivity |]); cbn.
      * destruct Hcase as (Hhas & Hneeds & Hexchanged & Herror & Hstorage
                           & token & ->).
        split; [intros _; rewrite Hstorage, lookup_insert_eq; done |].
        split; [intros Hn; congruence | intros _; by exists token].
      * destruct Hcase as [Hstorage Hcurrent]. rewrite Hstorage.
        split; [done |]. split; [| done]. intros _. split; [done |].
        split; [by rewrite lookup_delete_eq |].
        intros Hworks. by rewrite (Hcurrent Hworks).
    + eexists _, _. split; [reflexivity |]. cbn. split; [done |].
      split; [| done]. intros _. split; [done |].
      split; [by rewrite lookup_delete_eq | done].
    + eexists _, _. split; [reflexivity |]. cbn. split; [done |].
      split; [| done]. intros _. split; [done |].
      split; [by rewrite lookup_delete_eq | done].
  - (* no flag, but a session *)
    destruct (set_item_fault cenv) as [e|] eqn:Hstore.
    { eexists _, _. split; [reflexivity |]. by cbn. }
    eexists _, _. split; [reflexivity |]. cbn.
    split; [intros _; repeat (split; [done |]); by rewrite lookup_insert_eq |].
    by split.
  - (* no flag and no session *)
    destruct firebaseAuth as [[[getIdToken|]]|].
    + match goal with
      | |- context [try_firebase_exchange cenv getIdToken ?d0] =>
          destruct (try_firebase_exchange_run cenv getIdToken d0)
            as ([answer|] & d1 & Hrun & Hcase); rewrite Hrun; cbn in Hcase
      end; eexists _, _; (split; [reflexivity |]); cbn.
      * destruct Hcase as (Hhas & Hneeds & Hexchanged & Herror & Hstorage
                           & token & ->).
        split; [intros _; rewrite Hstorage, lookup_insert_eq; done |].
        split; [intros Hn; congruence | intros _; by exists token].
      * destruct Hcase as [Hstorage Hcurrent]. rewrite Hstorage.
        split; [done |]. split; [| done]. intros _. split; [done |].
        split; [by apply Hkey |].
        intros Hworks. by rewrite (Hcurrent Hworks).
    + eexists _, _. split; [reflexivity |]. cbn. split; [done |].
      split; [| done]. intros _. split; [done |]. split; [by apply Hkey | done].
    + eexists _, _. split; [reflexivity |]. cbn. split; [done |].
      split; [| done]. intros _. split; [done |]. split; [by apply Hkey | done].
Qed.

(** When [setItem] rejects right after the Supabase client accepted the
    exchanged session, [exchangeFirebaseSession] reports a failure from its
    [catch], and the start-up check answers [needsSignIn] although the
    client now holds that session; the exchange flag is not stored. *)
Theorem rejected_flag_write_hides_session (cenv : ClientEnv) (token : json)
    (d : Device) (response : Response) (accepted : AuthResult) (e : string) :
  get_item_fault cenv = None →
  storage d !! SESSION_EXCHANGE_KEY = None →
  supabase_get_session_fault cenv = None →
  truthy (current_session d) = false →
  exchange_endpoint cenv token = EdgeAnswered response →
  response_ok response = true →
  truthy (body_field "access_token" response) = true →
  supabase_set_session cenv (body_field "access_token" response)
    (body_field "refresh_token" response) = inl accepted →
  truthy (auth_error accepted) = false →
  set_item_fault cenv = Some e →
  ∃ d',
    checkAndExchangeFirebaseSession cenv
      (Some (mkFirebaseAuth (Some (inl token)))) d
    = (Returned (mkSessionCheck false None false true None), d')
    ∧ current_session d' = auth_session accepted
    ∧ storage d' = storage d.
Proof.
  intros Hget Hflag Hsessionfault Hsession Hedge Hok Htoken Hset Herror Hstore.
  destruct accepted as [ss su se], response as [st [text|fields]];
    cbn in Herror, Htoken; [done |].
  unfold body_field in *; cbn [body] in *.
  unfold checkAndExchangeFirebaseSession, try_firebase_exchange,
    exchangeFirebaseSession.
  unfold_client. rewrite Hget, Hflag. cbn [opt_str_eq]. rewrite Hsessionfault.
  client_cbn. client_run Hsession. rewrite Hedge. client_cbn.
  rewrite Hok, Htoken. cbn [andb]. rewrite Hset. client_cbn.
  client_run Herror. rewrite Hstore. client_cbn.
  eexists. split; [reflexivity |]. by cbn.
Qed.


(** [checkMigrationStatus] trusts the stored flag: with the flag set it
    answers that there is a Supabase session without asking the Supabase
    client, whether or not the client holds one, and leaves the device's
    storage and session as they were. *)
Theorem migration_flag_answers_for_session (cenv : ClientEnv) (d : Device) :
  get_item_fault cenv = None →
  storage d !! MIGRATION_STORAGE_KEY = Some "true" →
  ∃ d',
    checkMigrationStatus cenv d = (Returned (false, true), d')
    ∧ client_calls d' = client_calls d
    ∧ storage d' = storage d
    ∧ current_session d' = current_session d.
Proof.
  intros Hfault Hflag.
  unfold checkMigrationStatus. unfold_client. rewrite Hfault, Hflag.
  eexists. split; [reflexivity |]. by cbn.
Qed.

(** [checkMigrationStatus] always returns, its two answers are each
    other's negation, and when [getItem] works the flag is set afterwards
    exactly when it reports a Supabase session, also when [setItem]
    rejects. *)
Theorem migration_status_follows_flag (cenv : ClientEnv) (d : Device) :
  ∃ hasSession d',
    checkMigrationStatus cenv d = (Returned (negb hasSession, hasSession), d')
    ∧ (get_item_fault cenv = None →
         (hasSession = true ↔ storage d' !! MIGRATION_STORAGE_KEY = Some "true")).
Proof.
  unfold checkMigrationStatus. unfold_client.
  destruct (get_item_fault cenv) as [e|] eqn:Hfault.
  { exists false. eexists. split; [reflexivity | done]. }
  client_cbn.
  destruct (opt_str_eq (storage d !! MIGRATION_STORAGE_KEY) (Some "true")) eqn:Hflag.
  { exists true. eexists. split; [reflexivity |]. cbn. intros _.
    split; [intros _ | done]. by apply opt_str_eq_spec in Hflag. }
  destruct (supabase_get_session_fault cenv) as [e|] eqn:Hget; client_cbn.
  { exists false. eexists. split; [reflexivity |]. cbn. intros _.
    split; [done |]. intros Heq. rewrite Heq in Hflag. discriminate. }
  destruct (truthy (current_session d)) eqn:Hsession; client_run Hsession.
  - destruct (set_item_fault cenv) as [e|] eqn:Hstore.
    + exists false. eexists. split; [reflexivity |]. cbn. intros _.
      split; [done |]. intros Heq. rewrite Heq in Hflag. discriminate.
    + exists true. eexists. split; [reflexivity |]. cbn. intros _.
      by rewrite lookup_insert_eq.
  - exists false. eexists. split; [reflexivity |]. cbn. intros _.
    split; [done |]. intros Heq. rewrite Heq in Hflag. discriminate.
Qed.

(** [signOut] always returns.  When the Supabase client's [signOut] comes
    back, the migration flag is removed and the reported error is the
    result: the flag goes even when an error is reported and the client
    keeps its session.  When it throws, the flag and the session stay and
    the exception is the result. *)
Theorem sign_out_clears_flag (cenv : ClientEnv) (d : Device) :
  remove_item_fault cenv = None →
  ∃ error d',
    signOut cenv d = (Returned error, d')
    ∧ match supabase_sign_out cenv with
      | inl reported =>
          error = reported
          ∧ storage d' !! MIGRATION_STORAGE_KEY = None
          ∧ current_session d'
            = (if truthy reported then current_session d else None)
      | inr message =>
          error = Some (JObj [("message", JStr message)])
          ∧ storage d' = storage d
          ∧ current_session d' = current_session d
      end.
Proof.
  intros Hfault. unfold signOut. unfold_client.
  destruct (supabase_sign_out cenv) as [reported|message]; client_cbn.
  - destruct (truthy reported) eqn:Hreported; client_cbn;
      rewrite Hfault; eexists _, _; (split; [reflexivity |]); cbn;
      (split; [done |]); (split; [| done]); by rewrite lookup_delete_eq.
  - eexists _, _. split; [reflexivity |]. by cbn.
Qed.

End Gateway.

(** * The statements on the sample data

    The sample data are ASCII strings; on them the statements are
    evaluated with the ASCII case mapping. *)

#[global] Existing Instance ascii_folding.

(** C3, as stated: the match policy without the guard on the claims'
    e-mail address.  It fails on claims whose e-mail address is the empty
    string, against a record whose stored address is empty as well: the
    two addresses are equal, yet the handler resolves nobody. *)
Lemma identity_resolution_literal_fails :
  find_user blank_claims [blank_user] = None
  ∧ same_email_ignoring_case blank_claims blank_user
  ∧ ¬ first_satisfying
        (λ u, same_external_id blank_claims u
              ∨ same_email_ignoring_case blank_claims u)
        [blank_user] (find_user blank_claims [blank_user]).
Proof.
  split; [reflexivity | split; [reflexivity |]].
  intros H. change (find_user blank_claims [blank_user]) with (@None User) in H.
  simpl in H. apply Forall_cons in H as [H _]. apply H. right. reflexivity.
Qed.

(** The claims of the sample token resolve to the sample record, whose
    stored address differs from the claims' address in letter case only. *)
Lemma identity_resolution_first_match_witness :
  is_Some (find_user sample_claims sample_store).
Proof.
  apply (proj1 (proj2 (identity_resolution_first_match sample_claims sample_store))).
  exists alice. split; [by left |]. right. split; reflexivity.
Defined.

(** C2, as stated: a verified token of a stored user, in an environment
    where no magic link can be generated.  The handler takes its fallback
    and answers 200 with the user only: neither token is in the body. *)
Lemma exchange_ok_without_tokens :
  (exchange_firebase_session
     (sample_env rejected rejected link_failed [] None)
     (exchange_request "good") (fresh sample_store)).1
  = Returned (fallback_response alice)
  ∧ status (fallback_response alice) = 200
  ∧ ¬ nonempty_string (body_field "access_token" (fallback_response alice))
  ∧ ¬ nonempty_string (body_field "refresh_token" (fallback_response alice)).
Proof.
  split; [vm_compute; reflexivity | split; [reflexivity |]].
  split; intros (s & Hs & _); discriminate.
Qed.

(** A run that answers 200 with both tokens of the sample session. *)
Lemma exchange_ok_response_witness :
  ∃ c user,
    verified_claims (sample_env rejected rejected token_link_ok token_params None)
      (exchange_request "good") c
    ∧ find_user c
        (first_page (sample_env rejected rejected token_link_ok token_params None)
           sample_store) = Some user
    ∧ (carries_session user
         (exchange_success (Some "access-1") (Some "refresh-1") alice)
       ∨ (exchange_success (Some "access-1") (Some "refresh-1") alice
            = fallback_response user
          ∧ body_field "access_token"
              (exchange_success (Some "access-1") (Some "refresh-1") alice) = None
          ∧ body_field "refresh_token"
              (exchange_success (Some "access-1") (Some "refresh-1") alice) = None
          ∧ ∃ link,
              generate_link (sample_env rejected rejected token_link_ok token_params None)
                (user_email user) = inl link
              ∧ link_unusable link)).
Proof.
  apply (exchange_ok_response
           (sample_env rejected rejected token_link_ok token_params None)
           (exchange_request "good") sample_store
           (exchange_success (Some "access-1") (Some "refresh-1") alice)
           (exchange_firebase_session
              (sample_env rejected rejected token_link_ok token_params None)
              (exchange_request "good") (fresh sample_store)).2).
  - vm_compute. reflexivity.
  - discriminate.
  - reflexivity.
Defined.

(** A run that tracks the exchange on the sample record. *)
Lemma exchange_update_keeps_metadata_witness :
  ∃ user,
    In user sample_store
    ∧ "user-1" = user_id user
    ∧ attr_password
        (exchange_attrs (sample_env rejected rejected token_link_ok token_params None)
           alice) = None
    ∧ attr_user_metadata
        (exchange_attrs (sample_env rejected rejected token_link_ok token_params None)
           alice)
      = Some (<[ last_exchange_key :=
                   JStr (now (sample_env rejected rejected token_link_ok token_params None)) ]>
                (default ∅ (user_metadata user)))
    ∧ (∀ k, k ≠ last_exchange_key →
            exchange_metadata
              (sample_env rejected rejected token_link_ok token_params None) user !! k
            = metadata_key k user)
    ∧ ∀ i, sample_store !! i = Some user →
        ∃ user',
          users (exchange_firebase_session
                   (sample_env rejected rejected token_link_ok token_params None)
                   (exchange_request "good") (fresh sample_store)).2 !! i
          = Some user'
          ∧ user_id user' = user_id user
          ∧ user_email user' = user_email user
          ∧ user_password user' = user_password user
          ∧ fbuser_of user' = fbuser_of user
          ∧ ∀ k, k ≠ last_exchange_key →
                 metadata_key k user' = metadata_key k user.
Proof.
  apply (exchange_update_keeps_metadata
           (sample_env rejected rejected token_link_ok token_params None)
           (exchange_request "good") sample_store
           (exchange_success (Some "access-1") (Some "refresh-1") alice)
           (exchange_firebase_session
              (sample_env rejected rejected token_link_ok token_params None)
              (exchange_request "good") (fresh sample_store)).2
           "user-1"
           (exchange_attrs (sample_env rejected rejected token_link_ok token_params None)
              alice)).
  - vm_compute. reflexivity.
  - vm_compute. do 3 right. left. reflexivity.
Defined.

(** C9, at a run where the store reports the failure of the tracking write
    in the [error] property of its result: the exchange still answers 200
    with the minted tokens and the store is unchanged, but the console
    holds no warning or error line; it holds the line that reports the
    exchange as tracked.  The fallback branch of the same handler does
    check [updateError] and logs it. *)
Theorem tracking_failure_unreported :
  let env := sample_env rejected rejected token_link_ok token_params
               (Some (ErrorResult "database unavailable")) in
  let run := exchange_firebase_session env (exchange_request "good")
               (fresh sample_store) in
  run.1 = Returned (exchange_success (Some "access-1") (Some "refresh-1") alice)
  ∧ In (CallUpdateUserById "user-1" (exchange_attrs env alice)) (calls run.2)
  ∧ users run.2 = sample_store
  ∧ failure_logged run.2 = false
  ∧ logged "📊 Tracked session exchange for user:" run.2 = true.
Proof.
  cbv zeta. split; [vm_compute; reflexivity |].
  split; [vm_compute; do 3 right; left; reflexivity |].
  split; [vm_compute; reflexivity |].
  split; vm_compute; reflexivity.
Qed.

(** C1, at a run of the [verifyOtp] variant for a verified token of a
    stored user: the handler answers 200 and its console holds the complete
    magic link and the one-time token taken from it. *)
Theorem magic_link_written_to_console :
  let env := sample_env rejected rejected link_ok otp_params None in
  let run := exchange_firebase_session_otp env (exchange_request "good")
               (fresh sample_store) in
  (∃ r, run.1 = Returned r ∧ status r = 200)
  ∧ generate_link env (user_email alice) = inl link_ok
  ∧ assoc "token" otp_params = Some "4f9c2a"
  ∧ In (CallVerifyOtp "magiclink" (Some "4f9c2a")) (calls run.2)
  ∧ logged sample_link run.2 = true
  ∧ logged "4f9c2a" run.2 = true.
Proof.
  cbv zeta. split; [eexists; split; vm_compute; reflexivity |].
  split; [reflexivity | split; [reflexivity |]].
  split; [vm_compute; do 3 right; left; reflexivity |].
  split; vm_compute; reflexivity.
Qed.

(** C4, as stated: the verification service is down and answers 503.  Both
    variants of the handler answer 401, the answer they give for a rejected
    token, not a 500-class failure. *)
Lemma verifier_outage_answered_401 :
  let env := sample_env outage rejected link_ok otp_params None in
  token_verify_service env (posted_token (exchange_request "stale")) = outage
  ∧ (∃ r, (exchange_firebase_session env (exchange_request "stale")
             (fresh sample_store)).1 = Returned r
          ∧ status r = 401 ∧ ¬ server_error r)
  ∧ (∃ r, (exchange_firebase_session_otp env (exchange_request "stale")
             (fresh sample_store)).1 = Returned r
          ∧ status r = 401 ∧ ¬ server_error r).
Proof.
  cbv zeta. split; [reflexivity |].
  split; eexists; (split; [vm_compute; reflexivity |]);
    (split; [reflexivity | unfold server_error; cbn; lia]).
Qed.

(** A run against a claims-verification service that answers 503. *)
Lemma verification_failure_never_valid_witness :
  ∃ r w',
    exchange_firebase_session (sample_env outage rejected link_ok otp_params None)
      (exchange_request "stale") (fresh sample_store) = (Returned r, w')
    ∧ users w' = sample_store
    ∧ calls w' = [CallTokenVerify (posted_token (exchange_request "stale"))]
    ∧ match token_verify_service
              (sample_env outage rejected link_ok otp_params None)
              (posted_token (exchange_request "stale")) with
      | NetworkError _ => status r = 500
      | Responded _ => status r = 401
      end.
Proof.
  apply (verification_failure_never_valid
           (sample_env outage rejected link_ok otp_params None)
           (exchange_request "stale") sample_store exchange_firebase_session).
  - left. reflexivity.
  - discriminate.
  - reflexivity.
  - intros resp H. vm_compute in H. injection H as <-. reflexivity.
Defined.





(** A login while the credential-verification service refuses connections. *)
Lemma verification_failure_fails_closed_witness :
  ∃ r w',
    migrate_firebase_password
      (sample_env rejected (NetworkError "connection refused") link_ok [] None)
      (login_request "a@x.com" "secret") (fresh sample_store) = (Returned r, w')
    ∧ status r ≠ 200
    ∧ body_field "session" r = None
    ∧ Forall (λ c, is_update c = false) (calls w')
    ∧ users w' = sample_store
    ∧ match password_verify_service
              (sample_env rejected (NetworkError "connection refused") link_ok [] None)
              (JStr "c2FsdA") (JStr "c2NyeXB0") (JStr "secret") with
      | NetworkError _ => status r = 500 ∧ server_error r
      | Responded _ => r = credential_mismatch ∧ status r = 401
      end.
Proof.
  apply (verification_failure_fails_closed
           (sample_env rejected (NetworkError "connection refused") link_ok [] None)
           (login_request "a@x.com" "secret") sample_store
           (JStr "c2FsdA") (JStr "c2NyeXB0") (JStr "secret")).
  - vm_compute. do 2 right. left. reflexivity.
  - intros (resp & H & _). vm_compute in H. discriminate.
Defined.



(** The sample store is listed once. *)
Lemma findUserByEmail_scans_ten_pages_witness :
  ∃ count,
    (count ≤ 10)%nat
    ∧ ((length (users (fresh sample_store)) < 1000)%nat → (count ≤ 1)%nat)
    ∧ findUserByEmail (sample_env rejected rejected link_ok otp_params None)
        "a@x.com" (fresh sample_store)
      = (Returned (List.find (has_email "a@x.com")
                     (scanned (users (fresh sample_store)))),
         mkWorld (users (fresh sample_store)) (console (fresh sample_store))
           (calls (fresh sample_store) ++ page_calls 1 count)).
Proof.
  apply (findUserByEmail_scans_ten_pages
           (sample_env rejected rejected link_ok otp_params None)
           "a@x.com" (fresh sample_store)).
  reflexivity.
Defined.

(** The sample token, redeemed through the link's [token]. *)
Lemma otp_exchange_ok_response_witness :
  ∃ c email user link params session id address,
    verified_claims sample_otp_env (exchange_request "good") c
    ∧ fb_email c = Some email
    ∧ In user sample_store ∧ has_email email user = true
    ∧ generate_link sample_otp_env (user_email user)
      = inl (mkLinkResult (Some (mkLinkData (Some link))) None)
    ∧ url_search_params sample_otp_env link = Some params
    ∧ verify_otp sample_otp_env (link_type params) (link_token params)
      = inl (mkOtpResult (Some session) (Some (id, address)) None)
    ∧ body_field "access_token" (otp_success sample_session "user-1" (Some "A@X.com"))
      = Some (JStr (access_token session))
    ∧ body_field "refresh_token" (otp_success sample_session "user-1" (Some "A@X.com"))
      = Some (JStr (refresh_token session))
    ∧ body_field "user" (otp_success sample_session "user-1" (Some "A@X.com"))
      = Some (JObj (("id", JStr id) :: prop "email" (JStr <$> address))).
Proof.
  apply (otp_exchange_ok_response sample_otp_env (exchange_request "good")
           sample_store (otp_success sample_session "user-1" (Some "A@X.com"))
           (exchange_firebase_session_otp sample_otp_env
              (exchange_request "good") (fresh sample_store)).2).
  - vm_compute. reflexivity.
  - discriminate.
  - reflexivity.
Defined.

(** A verified token whose subject and address are unknown to the store. *)
Lemma unmatched_claims_answered_404_witness :
  ∃ w',
    exchange_firebase_session
      (with_claims (mkFirebaseUser (Some "U9") (Some "z@x.com")) sample_otp_env)
      (exchange_request "good") (fresh sample_store)
    = (Returned (not_found_response (mkFirebaseUser (Some "U9") (Some "z@x.com"))
                   (first_page sample_otp_env sample_store)), w')
    ∧ status (not_found_response (mkFirebaseUser (Some "U9") (Some "z@x.com"))
                (first_page sample_otp_env sample_store)) = 404
    ∧ calls w'
      = [CallTokenVerify (posted_token (exchange_request "good"));
         CallListUsers None]
    ∧ users w' = sample_store.
Proof.
  apply (unmatched_claims_answered_404
           (with_claims (mkFirebaseUser (Some "U9") (Some "z@x.com")) sample_otp_env)
           (exchange_request "good") sample_store
           (mkFirebaseUser (Some "U9") (Some "z@x.com"))).
  - discriminate.
  - reflexivity.
  - eexists. split; [reflexivity |]. split; reflexivity.
  - reflexivity.
  - vm_compute. reflexivity.
Defined.

(** Phone-sign-in claims for the subject of the sample record. *)
Lemma claims_without_email_witness :
  (∃ w',
     exchange_firebase_session_otp (with_claims phone_claims sample_otp_env)
       (exchange_request "good") (fresh sample_store)
     = (Returned no_email_response, w')
     ∧ calls w' = [CallTokenVerify (posted_token (exchange_request "good"))]
     ∧ users w' = sample_store)
  ∧ In (CallGenerateLink (user_email alice))
       (calls (exchange_firebase_session (with_claims phone_claims sample_otp_env)
                 (exchange_request "good") (fresh sample_store)).2).
Proof.
  apply (claims_without_email (with_claims phone_claims sample_otp_env)
           (exchange_request "good") sample_store phone_claims alice).
  - discriminate.
  - reflexivity.
  - eexists. split; [reflexivity |]. split; reflexivity.
  - reflexivity.
  - reflexivity.
  - vm_compute. reflexivity.
Defined.

(** A magic link of the store carries a one-time token, no session. *)
Lemma link_without_tokens_answered_500_witness :
  ∃ r w',
    exchange_firebase_session sample_otp_env (exchange_request "good")
      (fresh sample_store) = (Returned r, w')
    ∧ status r = 500
    ∧ (is_Some (url_search_params sample_otp_env sample_link) →
       r = no_tokens_response)
    ∧ calls w'
      = [CallTokenVerify (posted_token (exchange_request "good"));
         CallListUsers None; CallGenerateLink (user_email alice)]
    ∧ users w' = sample_store.
Proof.
  apply (link_without_tokens_answered_500 sample_otp_env
           (exchange_request "good") sample_store sample_claims alice sample_link).
  - discriminate.
  - reflexivity.
  - eexists. split; [reflexivity |]. split; reflexivity.
  - reflexivity.
  - vm_compute. reflexivity.
  - reflexivity.
  - intros params [= <-]. left. reflexivity.
Defined.

(** The sample exchange, with both tokens on the link. *)
Lemma exchange_stamps_resolved_record_witness :
  ∃ r w',
    exchange_firebase_session
      (sample_env rejected rejected token_link_ok token_params None)
      (exchange_request "good") (fresh sample_store) = (Returned r, w')
    ∧ status r = 200
    ∧ (∀ i, sample_store !! i = Some alice →
         ∃ user', users w' !! i = Some user'
           ∧ metadata_key last_exchange_key user'
             = Some (JStr (now (sample_env rejected rejected token_link_ok
                                  token_params None))))
    ∧ ∀ i u, sample_store !! i = Some u → user_id u ≠ user_id alice →
        users w' !! i = Some u.
Proof.
  apply (exchange_stamps_resolved_record
           (sample_env rejected rejected token_link_ok token_params None)
           (exchange_request "good") sample_store sample_claims alice token_link_ok).
  - discriminate.
  - reflexivity.
  - eexists. split; [reflexivity |]. split; reflexivity.
  - reflexivity.
  - vm_compute. reflexivity.
  - reflexivity.
  - right. exists sample_token_link, token_params. by repeat split.
  - reflexivity.
Defined.

(** The sample record after its password was migrated. *)
Lemma password_login_keeps_identity_witness :
  ∃ u',
    users (migrate_firebase_password sample_otp_env
             (login_request "a@x.com" "correct") (fresh sample_store)).2
      !! 0%nat = Some u'
    ∧ user_id u' = user_id alice
    ∧ user_email u' = user_email alice
    ∧ user_metadata u' = user_metadata alice
    ∧ passwordHash u' = passwordHash alice
    ∧ passwordSalt u' = passwordSalt alice.
Proof.
  apply (password_login_keeps_identity sample_otp_env
           (login_request "a@x.com" "correct") sample_store 0 alice).
  reflexivity.
Defined.

(** The first login of the sample user with the right password. *)
Lemma password_login_ok_response_witness :
  ∃ email password native,
    posted_email (login_request "a@x.com" "correct") = JStr email
    ∧ posted_password (login_request "a@x.com" "correct") = JStr password
    ∧ List.find (credentials_match email password)
        (users (migrate_firebase_password sample_otp_env
                  (login_request "a@x.com" "correct") (fresh sample_store)).2)
      = Some native
    ∧ grants_session (issue_session sample_otp_env native)
        (migrated_response sample_session)
    ∧ ((body_field "migrated" (migrated_response sample_session)
        = Some (JBool false)
        ∧ users (migrate_firebase_password sample_otp_env
                   (login_request "a@x.com" "correct") (fresh sample_store)).2
          = sample_store
        ∧ calls (migrate_firebase_password sample_otp_env
                   (login_request "a@x.com" "correct") (fresh sample_store)).2
          = [CallSignInWithPassword
               (posted_email (login_request "a@x.com" "correct"))
               (posted_password (login_request "a@x.com" "correct"))])
       ∨ (body_field "migrated" (migrated_response sample_session)
          = Some (JBool true)
          ∧ ∃ user,
              In user (first_page sample_otp_env sample_store)
              ∧ email_is_of (posted_email (login_request "a@x.com" "correct")) user
              ∧ confirms (password_verify_service sample_otp_env
                            (shown (passwordSalt user)) (shown (passwordHash user))
                            (posted_password (login_request "a@x.com" "correct")))
              ∧ users (migrate_firebase_password sample_otp_env
                         (login_request "a@x.com" "correct") (fresh sample_store)).2
                = with_password (user_id user)
                    (posted_password (login_request "a@x.com" "correct"))
                    sample_store)).
Proof.
  apply (password_login_ok_response sample_otp_env
           (login_request "a@x.com" "correct") sample_store
           (migrated_response sample_session)
           (migrate_firebase_password sample_otp_env
              (login_request "a@x.com" "correct") (fresh sample_store)).2).
  - vm_compute. reflexivity.
  - discriminate.
  - reflexivity.
Defined.

(** A login with an address that no record of the sample store has. *)
Lemma unknown_address_answered_404_witness :
  ∃ lines,
    migrate_firebase_password sample_otp_env (login_request "z@x.com" "secret")
      (fresh sample_store)
    = (Returned unknown_address_response,
       mkWorld sample_store lines
         [CallSignInWithPassword (JStr "z@x.com") (JStr "secret");
          CallListUsers None]).
Proof.
  apply (unknown_address_answered_404 sample_otp_env sample_store
           "z@x.com" "secret").
  - discriminate.
  - discriminate.
  - split; reflexivity.
  - vm_compute. reflexivity.
  - vm_compute. reflexivity.
Defined.

(** A login while the user listing reports a failure. *)
Lemma listing_failure_answered_401_witness :
  ∃ lines,
    migrate_firebase_password
      (with_list_users_fault (Some (ErrorResult "timeout")) sample_otp_env)
      (login_request "a@x.com" "secret") (fresh sample_store)
    = (Returned (listing_failed_response "timeout"),
       mkWorld sample_store lines
         [CallSignInWithPassword (JStr "a@x.com") (JStr "secret");
          CallListUsers None]).
Proof.
  apply (listing_failure_answered_401
           (with_list_users_fault (Some (ErrorResult "timeout")) sample_otp_env)
           sample_store "a@x.com" "secret" "timeout").
  - discriminate.
  - discriminate.
  - reflexivity.
  - vm_compute. reflexivity.
  - reflexivity.
Defined.

(** A login of the sample user while [FIREBASE_PW_VERIFY_URL] is unset. *)
Lemma unconfigured_verifier_answered_500_witness :
  match List.find (credentials_match "a@x.com" "correct") sample_store with
  | Some native =>
      migrate_firebase_password (with_pw_verify_url None sample_otp_env)
        (login_request "a@x.com" "correct") (fresh sample_store)
      = (Returned (native_response
                     (issue_session (with_pw_verify_url None sample_otp_env) native)),
         mkWorld sample_store []
           [CallSignInWithPassword (JStr "a@x.com") (JStr "correct")])
  | None =>
      ∃ lines,
        migrate_firebase_password (with_pw_verify_url None sample_otp_env)
          (login_request "a@x.com" "correct") (fresh sample_store)
        = (Returned not_configured_response,
           mkWorld sample_store lines
             [CallSignInWithPassword (JStr "a@x.com") (JStr "correct");
              CallListUsers None])
  end.
Proof.
  apply (unconfigured_verifier_answered_500
           (with_pw_verify_url None sample_otp_env) sample_store
           "a@x.com" "correct" alice).
  - discriminate.
  - discriminate.
  - split; reflexivity.
  - reflexivity.
  - vm_compute. reflexivity.
  - split; vm_compute; reflexivity.
Defined.

(** A login of the sample user while the sign-in service reports a failure. *)
Lemma write_survives_failed_login_witness :
  ∃ lines,
    migrate_firebase_password
      (with_sign_in_fault (Some (ErrorResult "unavailable")) sample_otp_env)
      (login_request "a@x.com" "correct") (fresh sample_store)
    = (Returned (login_after_write_failed_response "unavailable"),
       mkWorld (with_password (user_id alice) (JStr "correct") sample_store) lines
         [CallSignInWithPassword (JStr "a@x.com") (JStr "correct");
          CallListUsers None;
          CallPasswordVerify (shown (passwordSalt alice))
            (shown (passwordHash alice)) (JStr "correct");
          CallUpdateUserById (user_id alice) (password_attrs (JStr "correct"));
          CallSignInWithPassword (JStr "a@x.com") (JStr "correct")])
    ∧ ∃ session,
        migrate_firebase_password
          (with_sign_in_fault None
             (with_sign_in_fault (Some (ErrorResult "unavailable")) sample_otp_env))
          (login_request "a@x.com" "correct")
          (fresh (with_password (user_id alice) (JStr "correct") sample_store))
        = (Returned (native_response session),
           mkWorld (with_password (user_id alice) (JStr "correct") sample_store) []
             [CallSignInWithPassword (JStr "a@x.com") (JStr "correct")]).
Proof.
  apply (write_survives_failed_login
           (with_sign_in_fault (Some (ErrorResult "unavailable")) sample_otp_env)
           sample_store "a@x.com" "correct" alice "unavailable").
  - discriminate.
  - discriminate.
  - reflexivity.
  - reflexivity.
  - reflexivity.
  - reflexivity.
  - vm_compute. reflexivity.
  - split; vm_compute; reflexivity.
  - eexists. split; reflexivity.
Defined.

(** A malformed token posted to the link-reading variant. *)
Lemma rejected_token_answered_401_witness :
  (verify_token_post sample_verifier
     (JObj [("token", posted_token (exchange_request "eyJ"))])).1
  ≠ json_response 400 [("error", JStr "Token is required")]
  ∧ ∃ r lines,
      exchange_firebase_session
        (with_token_service sample_stringify sample_verifier sample_otp_env)
        (exchange_request "eyJ") (fresh sample_store)
      = (Returned r,
         mkWorld sample_store lines
           [CallTokenVerify (posted_token (exchange_request "eyJ"))])
      ∧ status r = 401.
Proof.
  apply (rejected_token_answered_401 sample_stringify sample_verifier
           sample_otp_env (exchange_request "eyJ") sample_store
           (mkAuthError (Some "auth/argument-error")
              "Decoding Firebase ID token failed")
           exchange_firebase_session).
  - by left.
  - discriminate.
  - reflexivity.
  - reflexivity.
Defined.

(** A request that posts the empty string as its token. *)
Lemma missing_token_answered_400_witness :
  exchange_firebase_session sample_otp_env
    (mkRequest "POST" (Some (JObj [("firebaseToken", JStr "")])))
    (fresh sample_store)
  = (Returned (json_response 400 [("error", JStr "Firebase token is required")]),
     fresh sample_store)
  ∧ exchange_firebase_session_otp sample_otp_env
      (mkRequest "POST" (Some (JObj [("firebaseToken", JStr "")])))
      (fresh sample_store)
    = (Returned (json_response 400 [("error", JStr "Firebase token required")]),
       fresh sample_store).
Proof.
  apply (missing_token_answered_400 sample_otp_env
           (mkRequest "POST" (Some (JObj [("firebaseToken", JStr "")])))
           (fresh sample_store) (JObj [("firebaseToken", JStr "")])).
  - discriminate.
  - reflexivity.
  - discriminate.
  - reflexivity.
Defined.

(** A login without a password. *)
Lemma missing_credentials_answered_400_witness :
  migrate_firebase_password sample_otp_env
    (mkRequest "POST" (Some (JObj [("email", JStr "a@x.com")])))
    (fresh sample_store)
  = (Returned (json_response 400 [("error", JStr "Email and password are required")]),
     fresh sample_store).
Proof.
  apply (missing_credentials_answered_400 sample_otp_env
           (mkRequest "POST" (Some (JObj [("email", JStr "a@x.com")])))
           (fresh sample_store) (JObj [("email", JStr "a@x.com")])).
  - discriminate.
  - reflexivity.
  - discriminate.
  - right. reflexivity.
Defined.

(** The OAuth-only sample account, signing in with a password. *)
Lemma oauth_hint_lost_in_client_witness :
  (signInWithPassword_client (sample_client sample_otp_env sample_store)
     (JStr "d@x.com") (JStr "anything") new_device).1
  = Returned (mkSignInResult (Some JNull) (Some JNull)
                (Some (JStr "Invalid credentials")) false)
  ∧ ∃ d',
      handleEmailLogin (sample_client sample_otp_env sample_store)
        "d@x.com" "anything" new_device = (Returned tt, d')
      ∧ alerts d'
        = alerts new_device ++ [("Login Failed", JStr "Invalid email or password")]
      ∧ storage d' = storage new_device
      ∧ loading d' = false.
Proof.
  apply (oauth_hint_lost_in_client (sample_client sample_otp_env sample_store)
           "d@x.com" "anything" new_device
           (mkAuthResult None None
              (Some (JObj [("message", JStr "Invalid login credentials")])))
           no_source_password).
  - discriminate.
  - discriminate.
  - reflexivity.
  - reflexivity.
  - reflexivity.
  - vm_compute. reflexivity.
  - by left.
Defined.

(** The sample user's first login from the login screen. *)
Lemma login_screen_always_settles_witness :
  ∃ d',
    handleEmailLogin (sample_client sample_otp_env sample_store)
      "a@x.com" "correct" new_device = (Returned tt, d')
    ∧ loading d' = false
    ∧ (alerts d' = alerts new_device
       ∨ ∃ raised, alerts d' = alerts new_device ++ [raised]).
Proof.
  apply (login_screen_always_settles (sample_client sample_otp_env sample_store)
           "a@x.com" "correct" new_device).
  - discriminate.
  - discriminate.
Defined.

(** The first login of the sample user on a device whose Supabase client
    refuses the session. *)
Lemma migrated_reported_without_client_session_witness :
  ∃ d',
    signInWithPassword_client
      (with_set_session_error (JObj [("message", JStr "Invalid Refresh Token")])
         (sample_client sample_otp_env sample_store))
      (JStr "a@x.com") (JStr "correct") new_device
    = (Returned (mkSignInResult
                   (body_field "session" (migrated_response sample_session))
                   (opt_field "user"
                      (body_field "session" (migrated_response sample_session)))
                   (Some JNull) true), d')
    ∧ current_session d' = current_session new_device
    ∧ storage d' = <[ MIGRATION_STORAGE_KEY := "true" ]> (storage new_device).
Proof.
  apply (migrated_reported_without_client_session
           (with_set_session_error (JObj [("message", JStr "Invalid Refresh Token")])
              (sample_client sample_otp_env sample_store))
           (JStr "a@x.com") (JStr "correct") new_device
           (mkAuthResult None None
              (Some (JObj [("message", JStr "Invalid login credentials")])))
           (mkAuthResult (Some JNull) (Some JNull)
              (Some (JObj [("message", JStr "Invalid Refresh Token")])))
           (migrated_response sample_session)).
  - reflexivity.
  - reflexivity.
  - reflexivity.
  - vm_compute. reflexivity.
  - reflexivity.
  - reflexivity.
  - reflexivity.
  - reflexivity.
  - reflexivity.
Defined.

(** The sample user's token on a server that cannot generate links. *)
Lemma fallback_answer_fails_on_client_witness :
  ∃ d',
    exchangeFirebaseSession
      (sample_client (sample_env rejected rejected link_failed token_params None)
         sample_store)
      (JStr "good") new_device
    = (Returned (exchange_failed "Use the migrated password or OAuth"), d')
    ∧ storage d' = storage new_device
    ∧ current_session d' = current_session new_device
    ∧ client_calls d' = client_calls new_device ++ [EdgeExchangeSession (JStr "good")].
Proof.
  apply (fallback_answer_fails_on_client
           (sample_client (sample_env rejected rejected link_failed token_params None)
              sample_store)
           (JStr "good") alice new_device).
  vm_compute. reflexivity.
Defined.

(** The sample user's token on a device whose [setItem] rejects. *)
Lemma rejected_flag_write_hides_session_witness :
  ∃ d',
    checkAndExchangeFirebaseSession
      (with_set_item_rejecting "QuotaExceededError"
         (sample_client (sample_env rejected rejected token_link_ok token_params None)
            sample_store))
      (Some (mkFirebaseAuth (Some (inl (JStr "good"))))) new_device
    = (Returned (mkSessionCheck false None false true None), d')
    ∧ current_session d'
      = auth_session
          (mkAuthResult
             (Some (JObj [("access_token", JStr "access-1");
                          ("refresh_token", JStr "refresh-1")]))
             (Some (JObj [("id", JStr "user-1")])) None)
    ∧ storage d' = storage new_device.
Proof.
  apply (rejected_flag_write_hides_session
           (with_set_item_rejecting "QuotaExceededError"
              (sample_client (sample_env rejected rejected token_link_ok token_params None)
                 sample_store))
           (JStr "good") new_device
           (exchange_success (Some "access-1") (Some "refresh-1") alice)
           (mkAuthResult
              (Some (JObj [("access_token", JStr "access-1");
                           ("refresh_token", JStr "refresh-1")]))
              (Some (JObj [("id", JStr "user-1")])) None)
           "QuotaExceededError").
  - reflexivity.
  - reflexivity.
  - reflexivity.
  - reflexivity.
  - vm_compute. reflexivity.
  - reflexivity.
  - reflexivity.
  - reflexivity.
  - reflexivity.
  - reflexivity.
Defined.

(** A device with the flag stored and no session. *)
Lemma migration_flag_answers_for_session_witness :
  ∃ d',
    checkMigrationStatus (sample_client sample_otp_env sample_store) flagged_device
    = (Returned (false, true), d')
    ∧ client_calls d' = client_calls flagged_device
    ∧ storage d' = storage flagged_device
    ∧ current_session d' = current_session flagged_device.
Proof.
  apply (migration_flag_answers_for_session
           (sample_client sample_otp_env sample_store) flagged_device).
  - reflexivity.
  - reflexivity.
Defined.

(** Signing out on a device whose Supabase client throws. *)
Lemma sign_out_clears_flag_witness :
  ∃ error d',
    signOut (with_sign_out_throwing "Network request failed"
               (sample_client sample_otp_env sample_store)) signed_in_device
    = (Returned error, d')
    ∧ error = Some (JObj [("message", JStr "Network request failed")])
    ∧ storage d' = storage signed_in_device
    ∧ current_session d' = current_session signed_in_device.
Proof.
  apply (sign_out_clears_flag
           (with_sign_out_throwing "Network request failed"
              (sample_client sample_otp_env sample_store)) signed_in_device).
  reflexivity.
Defined.
